(** * IOS USB passthrough: [LibusbDevice] and its transfer endpoint tracker

    A shallow embedding of [Source/Core/Core/IOS/USB/LibusbDevice.cpp].

    Conventions of the embedding:
    - fixed-width integers are [Z] values, the conversions the source
      performs ([static_cast<u8>], [static_cast<u64>]) written out;
    - [std::map] is a [gmap]; a [libusb_transfer*] is the address [N] of the
      transfer object, which is also the key of the tracker map;
    - the host USB stack is an abstract state machine ([Libusb]): every call
      steps the host state and yields the return code the host chooses;
    - everything the code does to the outside (host calls, log lines, calls
      into the kernel and into the transfer command) is appended to a trace;
    - an execution either returns or stops in a [fault]: a failed [_assert_],
      [std::out_of_range] thrown by [std::map::at], undefined behaviour
      (null or out-of-bounds access), or a loop that does not terminate;
    - the per-endpoint mutex is held for the whole of each tracker
      operation, so each operation is one atomic step of the model. *)

From Stdlib Require Import ZArith Lia.
From stdpp Require Import base option list gmap strings sorting.

#[local] Open Scope Z_scope.

(** ** Integers *)

Definition u8 (z : Z) : Z := z mod 2 ^ 8.
Definition u16 (z : Z) : Z := z mod 2 ^ 16.
Definition u64 (z : Z) : Z := z mod 2 ^ 64.

Definition is_u8 (z : Z) : Prop := 0 <= z < 2 ^ 8.
Definition is_u16 (z : Z) : Prop := 0 <= z < 2 ^ 16.

(** ** Constants of libusb.h *)

Definition LIBUSB_SUCCESS : Z := 0.
Definition LIBUSB_ERROR_NO_DEVICE : Z := -4.
Definition LIBUSB_ERROR_NOT_FOUND : Z := -5.
Definition LIBUSB_ERROR_NOT_SUPPORTED : Z := -12.

Definition LIBUSB_CONTROL_SETUP_SIZE : Z := 8.
Definition LIBUSB_TRANSFER_FREE_TRANSFER : Z := 4.

Definition LIBUSB_TRANSFER_TYPE_CONTROL : Z := 0.
Definition LIBUSB_TRANSFER_TYPE_ISOCHRONOUS : Z := 1.
Definition LIBUSB_TRANSFER_TYPE_BULK : Z := 2.
Definition LIBUSB_TRANSFER_TYPE_INTERRUPT : Z := 3.

(** [enum libusb_transfer_status] *)
Inductive libusb_transfer_status :=
| LIBUSB_TRANSFER_COMPLETED
| LIBUSB_TRANSFER_ERROR
| LIBUSB_TRANSFER_TIMED_OUT
| LIBUSB_TRANSFER_CANCELLED
| LIBUSB_TRANSFER_STALL
| LIBUSB_TRANSFER_NO_DEVICE
| LIBUSB_TRANSFER_OVERFLOW.

(** ** Constants of the IOS headers *)

(** Modelled from the spec: [IPC_SUCCESS] is declared in Core/IOS/Device.h,
    which is not among the sources; the spec calls it "return value zero". *)
Definition IPC_SUCCESS : Z := 0.

(** Modelled from the spec: [IPC_ENOENT] ("no such entry") is declared in
    Core/IOS/Device.h, which is not among the sources; it is one of the
    "small negative integer codes matching the guest-visible ABI", where the
    IOS return code for a missing entry is -6. *)
Definition IPC_ENOENT : Z := -6.

(** Modelled from the spec: the control request constants and [USBHDR] are
    declared in Core/IOS/USB/Common.h, which is not among the sources; the
    values are those of the USB standard for the "standard requests
    (SET_INTERFACE, SET_CONFIGURATION)" the spec names: direction in bit 7
    of the request type, type in bits 5-6, recipient in the low bits. *)
Definition DIR_HOST2DEVICE : Z := 0.
Definition TYPE_STANDARD : Z := 0.
Definition REC_DEVICE : Z := 0.
Definition REC_INTERFACE : Z := 1.
Definition REQUEST_SET_CONFIGURATION : Z := 9.
Definition REQUEST_SET_INTERFACE : Z := 11.

Definition USBHDR (dir type recipient request : Z) : Z :=
  u16 (Z.lor
         (Z.shiftl (Z.lor (Z.lor (Z.shiftl dir 7) (Z.shiftl type 5)) recipient) 8)
         request).

(** ** Descriptors *)

(** The IOS descriptor structs (Core/IOS/USB/Common.h) are the leading bytes
    of the libusb ones; [std::memcpy(&descriptor, src, sizeof(descriptor))]
    copies exactly that header. *)
Record ConfigDescriptor := {
  bNumInterfaces : Z;
  bConfigurationValue : Z;
  cfg_bmAttributes : Z;
  MaxPower : Z
}.

Record InterfaceDescriptor := {
  bInterfaceNumber : Z;
  bAlternateSetting : Z;
  bNumEndpoints : Z;
  bInterfaceClass : Z
}.

Record EndpointDescriptor := {
  bEndpointAddress : Z;
  ep_bmAttributes : Z;
  wMaxPacketSize : Z;
  bInterval : Z
}.

(** [struct libusb_interface_descriptor]: the header and the [endpoint] array. *)
Record libusb_interface_descriptor := {
  if_header : InterfaceDescriptor;
  endpoint : list EndpointDescriptor
}.

(** [struct libusb_interface]: [num_altsetting] is an [int]. *)
Record libusb_interface := {
  altsetting : list libusb_interface_descriptor;
  num_altsetting : Z
}.

(** [struct libusb_config_descriptor] *)
Record libusb_config_descriptor := {
  cfg_header : ConfigDescriptor;
  interface : list libusb_interface
}.

(** [struct libusb_device_descriptor], the fields the constructor reads. *)
Record libusb_device_descriptor := {
  idVendor : Z;
  idProduct : Z;
  bNumConfigurations : Z
}.

(** The host's [libusb_device]: what [libusb_get_bus_number],
    [libusb_get_device_address] and [libusb_get_config_descriptor] answer
    for it (the latter: a return code and the descriptor it allocated). *)
Record libusb_device := {
  bus_number : Z;
  device_address : Z;
  config_descriptors : list (Z * option libusb_config_descriptor)
}.

Definition libusb_get_bus_number (device : libusb_device) : Z :=
  bus_number device.
Definition libusb_get_device_address (device : libusb_device) : Z :=
  device_address device.
Definition libusb_get_config_descriptor (device : libusb_device) (config_index : Z)
  : Z * option libusb_config_descriptor :=
  default (LIBUSB_ERROR_NOT_FOUND, None)
          (config_descriptors device !! Z.to_nat config_index).

(** [class LibusbConfigDescriptor]: [m_descriptor], [nullptr] when the
    descriptor could not be read. *)
Record LibusbConfigDescriptor := {
  m_descriptor : option libusb_config_descriptor
}.

(** LibusbDevice.cpp:424 *)
Definition LibusbConfigDescriptor_new (device : libusb_device) (config_num : Z)
  : LibusbConfigDescriptor :=
  let '(rc, desc) := libusb_get_config_descriptor device config_num in
  if negb (rc =? LIBUSB_SUCCESS)
  then {| m_descriptor := None |}
  else {| m_descriptor := desc |}.

(** Modelled from the spec: [IsValid] and [Get] are inline members declared
    in Core/IOS/USB/LibusbDevice.h, which is not among the sources; a
    descriptor is valid unless it is one of the "invalid/unreadable
    descriptors", which the constructor records as [nullptr]. *)
Definition IsValid (c : LibusbConfigDescriptor) : bool :=
  bool_decide (is_Some (m_descriptor c)).
Definition Get (c : LibusbConfigDescriptor) : option libusb_config_descriptor :=
  m_descriptor c.

(** ** Transfer commands (Core/IOS/USB/Common.h) *)

Record Request := { address : Z; fd : Z }.

Record CtrlMessage := {
  ctrl_ios_request : Request;
  ctrl_data_address : Z;
  request_type : Z;
  request : Z;
  value : Z;
  index : Z;
  ctrl_length : Z
}.

Record BulkMessage := {
  bulk_ios_request : Request;
  bulk_data_address : Z;
  bulk_length : Z;
  bulk_endpoint : Z
}.

Record IntrMessage := {
  intr_ios_request : Request;
  intr_data_address : Z;
  intr_length : Z;
  intr_endpoint : Z
}.

Record IsoMessage := {
  iso_ios_request : Request;
  iso_data_address : Z;
  packet_sizes_addr : Z;
  packet_sizes : list Z;
  iso_length : Z;
  num_packets : Z;
  iso_endpoint : Z
}.

(** A [std::unique_ptr<TransferCommand>] holds one of the four subclasses. *)
Inductive TransferCommand :=
| Ctrl (m : CtrlMessage)
| Bulk (m : BulkMessage)
| Intr (m : IntrMessage)
| Iso (m : IsoMessage).

Definition ios_request (cmd : TransferCommand) : Request :=
  match cmd with
  | Ctrl m => ctrl_ios_request m
  | Bulk m => bulk_ios_request m
  | Intr m => intr_ios_request m
  | Iso m => iso_ios_request m
  end.

(** ** Host transfer objects *)

Record libusb_iso_packet_descriptor := {
  pkt_length : Z;
  pkt_actual_length : Z
}.

Inductive transfer_callback := cb_CtrlTransferCallback | cb_TransferCallback.

(** [struct libusb_transfer]. [tr_self] is the address of the object, the
    value of the [libusb_transfer*] that the code passes around;
    [tr_buffer] is the size of the buffer the transfer owns. *)
Record libusb_transfer := {
  tr_self : N;
  tr_dev_handle : option N;
  tr_flags : Z;
  tr_endpoint : Z;
  tr_type : Z;
  tr_timeout : Z;
  tr_status : libusb_transfer_status;
  tr_length : Z;
  tr_actual_length : Z;
  tr_callback : option transfer_callback;
  tr_buffer : option Z;
  tr_num_iso_packets : Z;
  tr_iso_packet_desc : list libusb_iso_packet_descriptor
}.

(** ** The device object *)

(** [class LibusbDevice::TransferEndpoint] *)
Record TransferEndpoint := {
  m_transfers : gmap N TransferCommand
}.

Record LibusbDevice := {
  m_device : libusb_device;
  m_vid : Z;
  m_pid : Z;
  m_id : Z;
  m_config_descriptors : list LibusbConfigDescriptor;
  m_device_attached : bool;
  m_active_interface : Z;
  m_handle : option N;
  m_transfer_endpoints : gmap Z TransferEndpoint
}.

Definition set_m_device_attached (b : bool) (d : LibusbDevice) : LibusbDevice :=
  {| m_device := m_device d; m_vid := m_vid d; m_pid := m_pid d; m_id := m_id d;
     m_config_descriptors := m_config_descriptors d;
     m_device_attached := b;
     m_active_interface := m_active_interface d;
     m_handle := m_handle d;
     m_transfer_endpoints := m_transfer_endpoints d |}.

Definition set_m_active_interface (i : Z) (d : LibusbDevice) : LibusbDevice :=
  {| m_device := m_device d; m_vid := m_vid d; m_pid := m_pid d; m_id := m_id d;
     m_config_descriptors := m_config_descriptors d;
     m_device_attached := m_device_attached d;
     m_active_interface := i;
     m_handle := m_handle d;
     m_transfer_endpoints := m_transfer_endpoints d |}.

Definition set_m_handle (h : option N) (d : LibusbDevice) : LibusbDevice :=
  {| m_device := m_device d; m_vid := m_vid d; m_pid := m_pid d; m_id := m_id d;
     m_config_descriptors := m_config_descriptors d;
     m_device_attached := m_device_attached d;
     m_active_interface := m_active_interface d;
     m_handle := h;
     m_transfer_endpoints := m_transfer_endpoints d |}.

Definition set_m_transfer_endpoints (eps : gmap Z TransferEndpoint) (d : LibusbDevice)
  : LibusbDevice :=
  {| m_device := m_device d; m_vid := m_vid d; m_pid := m_pid d; m_id := m_id d;
     m_config_descriptors := m_config_descriptors d;
     m_device_attached := m_device_attached d;
     m_active_interface := m_active_interface d;
     m_handle := m_handle d;
     m_transfer_endpoints := eps |}.

(** The identifier of LibusbDevice.cpp:34: each operand is converted to
    [u64] before the shift, and the shift is taken in 64 bits. *)
Definition shl64 (x n : Z) : Z := u64 (Z.shiftl (u64 x) n).

Definition make_id (vid pid bus addr : Z) : Z :=
  Z.lor (Z.lor (Z.lor (shl64 vid 32) (shl64 pid 16)) (shl64 bus 8)) (u64 addr).

(** LibusbDevice.cpp:27. [libusb_ref_device] only moves the host's reference
    count, which no operation of this file reads; the loop counter and its
    bound are both [u8]. *)
Definition LibusbDevice_new (device : libusb_device)
    (descriptor : libusb_device_descriptor) : LibusbDevice :=
  {| m_device := device;
     m_vid := idVendor descriptor;
     m_pid := idProduct descriptor;
     m_id := make_id (idVendor descriptor) (idProduct descriptor)
                     (libusb_get_bus_number device)
                     (libusb_get_device_address device);
     m_config_descriptors :=
       LibusbConfigDescriptor_new device <$> seqZ 0 (bNumConfigurations descriptor);
     m_device_attached := false;
     m_active_interface := 0;
     m_handle := None;
     m_transfer_endpoints := ∅ |}.

(** ** The host stack, the trace and the execution monad *)

Inductive HostCall :=
| libusb_detach_kernel_driver (dev_handle : option N) (interface_number : Z)
| libusb_claim_interface (dev_handle : option N) (interface_number : Z)
| libusb_release_interface (dev_handle : option N) (interface_number : Z)
| libusb_set_interface_alt_setting (dev_handle : option N)
    (interface_number alternate_setting : Z)
| libusb_set_configuration (dev_handle : option N) (configuration : Z)
| libusb_submit_transfer (transfer : libusb_transfer)
| libusb_cancel_transfer (transfer : N).

(** The host USB stack as a state machine over its own state [H]. A
    successful [libusb_open] stores the handle it returns; a failed one
    leaves the caller's pointer as it was. [libusb_close] and
    [libusb_unref_device] return nothing: they only step the host. *)
Class Libusb (H : Type) := {
  libusb_open : libusb_device → H → Z * N * H;
  libusb_alloc_transfer : Z → H → N * H;
  libusb_call : HostCall → H → Z * H;
  libusb_close : N → H → H;
  libusb_unref_device : libusb_device → H → H
}.

Inductive LogLevel := LNOTICE | LERROR | LINFO.

Inductive Event :=
| EvLog (level : LogLevel) (message : string)
| EvOpen (ret : Z) (dev_handle : N)
| EvAllocTransfer (iso_packets : Z) (transfer : N)
| EvHost (call : HostCall) (ret : Z)
| EvEnqueueIPCReply (request : Request) (return_value : Z)
| EvOnTransferComplete (cmd : TransferCommand) (return_value : Z)
| EvFillBuffer (cmd : TransferCommand) (size : Z)
| EvSetPacketReturnValue (msg : IsoMessage) (packet_num : Z) (return_value : Z)
| EvMakeBuffer (cmd : TransferCommand) (size : Z)
| EvCopyFromEmu (data_address : Z) (size : Z)
| EvDeleteBuffer (transfer : N)
| EvClose (dev_handle : N)
| EvUnrefDevice (device : libusb_device).

Inductive fault :=
| AssertionFailure
| StdOutOfRange
| UndefinedBehaviour
| Divergence.

Inductive outcome (A : Type) :=
| Ret (a : A)
| Fault (f : fault).
Arguments Ret {A} a.
Arguments Fault {A} f.

Record World (H : Type) := {
  host : H;
  trace : list Event
}.
Arguments host {H} w.
Arguments trace {H} w.

Definition M (H A : Type) : Type := World H → outcome (A * World H).

#[export] Instance M_ret {H} : MRet (M H) :=
  λ A (a : A) w, Ret (a, w).

#[export] Instance M_bind {H} : MBind (M H) :=
  λ A B (f : A → M H B) (m : M H A) w,
    match m w with
    | Ret (a, w') => f a w'
    | Fault e => Fault e
    end.

(** Classes of events. *)
Definition is_open (e : Event) : bool :=
  match e with EvOpen _ _ => true | _ => false end.

Definition is_attach_call (e : Event) : bool :=
  match e with
  | EvHost (libusb_detach_kernel_driver _ _) _
  | EvHost (libusb_claim_interface _ _) _ => true
  | _ => false
  end.

Definition is_detach_event (e : Event) : bool :=
  match e with
  | EvLog _ _
  | EvHost (libusb_release_interface _ _) _ => true
  | _ => false
  end.

Definition is_attach_event (e : Event) : bool :=
  match e with
  | EvLog _ _
  | EvHost (libusb_detach_kernel_driver _ _) _
  | EvHost (libusb_claim_interface _ _) _ => true
  | _ => false
  end.

Definition is_interface_event (e : Event) : bool :=
  is_detach_event e || is_attach_event e.

Definition is_config_call (c : HostCall) : bool :=
  match c with
  | libusb_set_configuration _ _
  | libusb_set_interface_alt_setting _ _ _ => true
  | _ => false
  end.

Definition is_host_event (e : Event) : bool :=
  match e with
  | EvOpen _ _ | EvAllocTransfer _ _ | EvHost _ _
  | EvClose _ | EvUnrefDevice _ => true
  | _ => false
  end.

Definition is_transfer_call (e : Event) : bool :=
  match e with
  | EvAllocTransfer _ _
  | EvHost (libusb_submit_transfer _) _ => true
  | _ => false
  end.

Definition is_reply (e : Event) : bool :=
  match e with
  | EvEnqueueIPCReply _ _ | EvOnTransferComplete _ _ => true
  | _ => false
  end.

(** The log lines of the interface operations. *)
Definition changing_log : Event :=
  EvLog LINFO "[%04x:%04x %d] Changing interface to %d".
Definition detaching_log : Event :=
  EvLog LINFO "[%04x:%04x] Detaching interface %d".
Definition attaching_log : Event :=
  EvLog LINFO "[%04x:%04x] Attaching interface %d".
Definition no_handle_detach_log : Event :=
  EvLog LERROR "[%04x:%04x] Cannot detach without a valid device handle".
Definition release_failed_log : Event :=
  EvLog LERROR "[%04x:%04x] Failed to release interface %d: %s".
Definition detach_driver_failed_log : Event :=
  EvLog LERROR "[%04x:%04x] Failed to detach kernel driver: %s".
Definition claim_failed_log : Event :=
  EvLog LERROR "[%04x:%04x] Couldn't claim interface %d: %s".
Definition opening_log : Event :=
  EvLog LNOTICE "[%04x:%04x] Opening device".
Definition open_failed_log : Event :=
  EvLog LERROR "[%04x:%04x] Failed to open: %s".
Definition setting_alt_log : Event :=
  EvLog LINFO "[%04x:%04x %d] Setting alt setting %d".
Definition change_failed_log : Event :=
  EvLog LERROR "[%04x:%04x %d] Failed to change interface to %d: %s".

(** The world [w] after the events [evs]. *)
Notation "w ⊕ evs" := {| host := host w; trace := trace w ++ evs |}
  (at level 50, left associativity).

Section Model.
Context {H : Type} `{!Libusb H}.

Definition fail {A} (f : fault) : M H A := λ _, Fault f.

Definition emit (e : Event) : M H unit :=
  λ w, Ret (tt, {| host := host w; trace := trace w ++ [e] |}).

Definition host_call (c : HostCall) : M H Z :=
  λ w, let '(ret, h) := libusb_call c (host w) in
       Ret (ret, {| host := h; trace := trace w ++ [EvHost c ret] |}).

Definition host_open (device : libusb_device) : M H (Z * N) :=
  λ w, let '(ret, hnd, h) := libusb_open device (host w) in
       Ret ((ret, hnd), {| host := h; trace := trace w ++ [EvOpen ret hnd] |}).

Definition host_alloc_transfer (iso_packets : Z) : M H N :=
  λ w, let '(p, h) := libusb_alloc_transfer iso_packets (host w) in
       Ret (p, {| host := h; trace := trace w ++ [EvAllocTransfer iso_packets p] |}).



(** The log macros of Common/Logging/Log.h; the trace keeps the format
    string of the message. *)
Definition ERROR_LOG (fmt : string) : M H unit := emit (EvLog LERROR fmt).
Definition INFO_LOG (fmt : string) : M H unit := emit (EvLog LINFO fmt).
Definition NOTICE_LOG (fmt : string) : M H unit := emit (EvLog LNOTICE fmt).

(** Modelled from the spec: [_assert_] is a macro of Common/Assert.h,
    which is not among the sources; a violated assertion is one of the
    "programming invariants enforced by design", and the execution does
    not continue normally past it. *)
Definition _assert_ (cond : bool) : M H unit :=
  if cond then mret tt else fail AssertionFailure.

(** [p[i]] on an array, [*p] on a pointer. *)
Definition subscript {A} (l : list A) (i : Z) : M H A :=
  if i <? 0 then fail UndefinedBehaviour
  else match l !! Z.to_nat i with
       | Some x => mret x
       | None => fail UndefinedBehaviour
       end.

Definition deref {A} (p : option A) : M H A :=
  match p with
  | Some x => mret x
  | None => fail UndefinedBehaviour
  end.

Fixpoint for_each {A S} (l : list A) (body : A → S → M H S) (s : S) : M H S :=
  match l with
  | [] => mret s
  | x :: l => s' ← body x s; for_each l body s'
  end.

(** [for (u8 i = 0; i < bound; ++i)]: the counter wraps at 256, so the
    loop never ends when the bound does not fit a [u8]. *)
Definition for_u8 {S} (bound : Z) (body : Z → S → M H S) (s : S) : M H S :=
  if 2 ^ 8 <=? bound then fail Divergence
  else for_each (seqZ 0 bound) body s.

(** [for (size_t i = 0; i < bound; ++i)] *)
Definition for_size_t {S} (bound : Z) (body : Z → S → M H S) (s : S) : M H S :=
  for_each (seqZ 0 bound) body s.

(** *** Descriptor accessors *)

(** The diagnostics of the accessors. *)
Definition ignored_config_log : Event :=
  EvLog LERROR "Ignoring invalid config descriptor for %04x:%04x".
Definition invalid_config_log : Event :=
  EvLog LERROR "Invalid config descriptor %u for %04x:%04x".

(** The loop body of LibusbDevice.cpp:64. *)
Definition GetConfigurations_step (config_descriptor : LibusbConfigDescriptor)
    (descriptors : list ConfigDescriptor) : M H (list ConfigDescriptor) :=
  if negb (IsValid config_descriptor) then
    emit ignored_config_log;;
    mret descriptors
  else
    cfg ← deref (Get config_descriptor);
    mret (descriptors ++ [cfg_header cfg]).

(** LibusbDevice.cpp:61 *)
Definition GetConfigurations (d : LibusbDevice) : M H (list ConfigDescriptor) :=
  for_each (m_config_descriptors d) GetConfigurations_step [].

(** The guard of [GetInterfaces] and [GetEndpoints]:
    [config >= m_config_descriptors.size() ||
     !m_config_descriptors[config]->IsValid()]. *)
Definition invalid_config (d : LibusbDevice) (config : Z) : bool :=
  (Z.of_nat (length (m_config_descriptors d)) <=? config)
  || match m_config_descriptors d !! Z.to_nat config with
     | Some c => negb (IsValid c)
     | None => true
     end.

(** [m_config_descriptors[config]->Get()] dereferenced. *)
Definition config_at (d : LibusbDevice) (config : Z) : M H libusb_config_descriptor :=
  c ← subscript (m_config_descriptors d) config;
  deref (Get c).

(** LibusbDevice.cpp:78 *)
Definition GetInterfaces (d : LibusbDevice) (config : Z)
  : M H (list InterfaceDescriptor) :=
  if invalid_config d config then
    emit invalid_config_log;;
    mret []
  else
    cfg ← config_at d config;
    for_u8 (bNumInterfaces (cfg_header cfg))
      (λ i descriptors,
         interface ← subscript (interface cfg) i;
         for_u8 (num_altsetting interface)
           (λ a descriptors,
              alt ← subscript (altsetting interface) a;
              mret (descriptors ++ [if_header alt]))
           descriptors)
      [].

(** LibusbDevice.cpp:99 *)
Definition GetEndpoints (d : LibusbDevice) (config interface_number alt_setting : Z)
  : M H (list EndpointDescriptor) :=
  if invalid_config d config then
    emit invalid_config_log;;
    mret []
  else
    cfg ← config_at d config;
    _assert_ (interface_number <? bNumInterfaces (cfg_header cfg));;
    interface ← subscript (interface cfg) interface_number;
    _assert_ (alt_setting <? num_altsetting interface);;
    interface_descriptor ← subscript (altsetting interface) alt_setting;
    for_u8 (bNumEndpoints (if_header interface_descriptor))
      (λ i descriptors,
         ep ← subscript (endpoint interface_descriptor) i;
         mret (descriptors ++ [ep]))
      [].

(** *** Interfaces *)

(** LibusbDevice.cpp:378 *)
Definition AttachInterface (interface : Z) (d : LibusbDevice)
  : M H (Z * LibusbDevice) :=
  if bool_decide (m_handle d = None) then
    ERROR_LOG "[%04x:%04x] Cannot attach without a valid device handle";;
    mret (-1, d)
  else
    INFO_LOG "[%04x:%04x] Attaching interface %d";;
    ret ← host_call (libusb_detach_kernel_driver (m_handle d) interface);
    if (ret <? 0) && negb (ret =? LIBUSB_ERROR_NOT_FOUND)
       && negb (ret =? LIBUSB_ERROR_NOT_SUPPORTED) then
      ERROR_LOG "[%04x:%04x] Failed to detach kernel driver: %s";;
      mret (ret, d)
    else
      r ← host_call (libusb_claim_interface (m_handle d) interface);
      if r <? 0 then
        ERROR_LOG "[%04x:%04x] Couldn't claim interface %d: %s";;
        mret (r, d)
      else
        mret (0, set_m_active_interface interface d).

(** LibusbDevice.cpp:405 *)
Definition DetachInterface (d : LibusbDevice) : M H Z :=
  if bool_decide (m_handle d = None) then
    ERROR_LOG "[%04x:%04x] Cannot detach without a valid device handle";;
    mret (-1)
  else
    INFO_LOG "[%04x:%04x] Detaching interface %d";;
    ret ← host_call (libusb_release_interface (m_handle d) (m_active_interface d));
    if (ret <? 0) && negb (ret =? LIBUSB_ERROR_NO_DEVICE) then
      ERROR_LOG "[%04x:%04x] Failed to release interface %d: %s";;
      mret ret
    else
      mret 0.

(** The guard of [ChangeInterface]; the second operand reads
    [m_config_descriptors[0]->Get()->bNumInterfaces] and is evaluated only
    when the device is attached. *)
Definition ChangeInterface_refused (interface : Z) (d : LibusbDevice) : M H bool :=
  if negb (m_device_attached d) then mret true
  else
    cfg ← config_at d 0;
    mret (bNumInterfaces (cfg_header cfg) <=? interface).

(** LibusbDevice.cpp:159 *)
Definition ChangeInterface (interface : Z) (d : LibusbDevice)
  : M H (Z * LibusbDevice) :=
  refused ← ChangeInterface_refused interface d;
  if (refused : bool) then mret (LIBUSB_ERROR_NOT_FOUND, d)
  else
    INFO_LOG "[%04x:%04x %d] Changing interface to %d";;
    ret ← DetachInterface d;
    if ret <? 0 then mret (ret, d)
    else AttachInterface interface d.

(** LibusbDevice.cpp:172 *)
Definition SetAltSetting (alt_setting : Z) (d : LibusbDevice) : M H Z :=
  if negb (m_device_attached d) then mret LIBUSB_ERROR_NOT_FOUND
  else
    INFO_LOG "[%04x:%04x %d] Setting alt setting %d";;
    host_call (libusb_set_interface_alt_setting
                 (m_handle d) (m_active_interface d) alt_setting).

(** LibusbDevice.cpp:126 *)
Definition Attach (interface : Z) (d : LibusbDevice) : M H (bool * LibusbDevice) :=
  if m_device_attached d && negb (interface =? m_active_interface d) then
    '(ret, d) ← ChangeInterface interface d;
    mret (ret =? 0, d)
  else if m_device_attached d then mret (true, d)
  else
    let d := set_m_device_attached false d in
    NOTICE_LOG "[%04x:%04x] Opening device";;
    '(ret, hnd) ← host_open (m_device d);
    let d := if ret =? 0 then set_m_handle (Some hnd) d else d in
    if negb (ret =? 0) then
      ERROR_LOG "[%04x:%04x] Failed to open: %s";;
      mret (false, d)
    else
      '(r, d) ← AttachInterface interface d;
      if negb (r =? 0) then mret (false, d)
      else mret (true, set_m_device_attached true d).

(** *** The transfer endpoint tracker *)

(** LibusbDevice.cpp:311 *)
Definition s_transfer_types : gmap Z string :=
  list_to_map [(LIBUSB_TRANSFER_TYPE_CONTROL, "Control"%string);
               (LIBUSB_TRANSFER_TYPE_ISOCHRONOUS, "Isochronous"%string);
               (LIBUSB_TRANSFER_TYPE_BULK, "Bulk"%string);
               (LIBUSB_TRANSFER_TYPE_INTERRUPT, "Interrupt"%string)].

(** [std::map::at] throws [std::out_of_range] for an absent key. *)
Definition map_at `{Countable K} {V} (m : gmap K V) (k : K) : M H V :=
  match m !! k with
  | Some v => mret v
  | None => fail StdOutOfRange
  end.

(** [std::map::emplace] keeps the mapped value of a key already present. *)
Definition emplace `{Countable K} {V} (k : K) (v : V) (m : gmap K V) : gmap K V :=
  match m !! k with
  | Some _ => m
  | None => <[k := v]> m
  end.

(** LibusbDevice.cpp:318 *)
Definition AddTransfer (command : TransferCommand) (transfer : N)
    (ep : TransferEndpoint) : TransferEndpoint :=
  {| m_transfers := emplace transfer command (m_transfers ep) |}.

(** Modelled from the spec: [TransferCommand::OnTransferComplete] is
    defined in Core/IOS/USB/Common.cpp, which is not among the sources; it
    is "the terminal callback on the owning command, which in turn
    enqueues the IPC reply via the kernel". The trace records the call. *)
Definition OnTransferComplete (cmd : TransferCommand) (return_value : Z) : M H unit :=
  emit (EvOnTransferComplete cmd return_value).

(** The switch of LibusbDevice.cpp:340, which computes [return_value].
    The arguments of the error log are evaluated before it is written,
    [s_transfer_types.at(transfer->type)] among them. *)
Definition transfer_return_value (transfer : libusb_transfer)
    (fn : TransferCommand → M H Z) (cmd : TransferCommand) : M H Z :=
  match tr_status transfer with
  | LIBUSB_TRANSFER_COMPLETED => fn cmd
  | LIBUSB_TRANSFER_ERROR
  | LIBUSB_TRANSFER_CANCELLED
  | LIBUSB_TRANSFER_TIMED_OUT
  | LIBUSB_TRANSFER_OVERFLOW
  | LIBUSB_TRANSFER_STALL =>
      map_at s_transfer_types (tr_type transfer);;
      ERROR_LOG "[%04x:%04x %d] %s transfer (endpoint 0x%02x) failed: %s";;
      mret (match tr_status transfer with
            | LIBUSB_TRANSFER_STALL => -7004
            | _ => -5
            end)
  | LIBUSB_TRANSFER_NO_DEVICE => mret IPC_ENOENT
  end.

(** LibusbDevice.cpp:325. The [std::unique_ptr] taking over
    [transfer->buffer] releases it when the function returns. *)
Definition HandleTransfer (transfer : libusb_transfer)
    (fn : TransferCommand → M H Z) (ep : TransferEndpoint) : M H TransferEndpoint :=
  match m_transfers ep !! tr_self transfer with
  | None =>
      ERROR_LOG "No such transfer";;
      mret ep
  | Some cmd =>
      return_value ← transfer_return_value transfer fn cmd;
      OnTransferComplete cmd return_value;;
      let ep := {| m_transfers := delete (tr_self transfer) (m_transfers ep) |} in
      emit (EvDeleteBuffer (tr_self transfer));;
      mret ep
  end.

(** The tracked transfers in the iteration order of the [std::map]:
    ascending address. *)
Definition pending_transfers (ep : TransferEndpoint) : list N :=
  merge_sort N.le (map_to_list (m_transfers ep)).*1.

(** The loop body of LibusbDevice.cpp:369. *)
Definition CancelTransfers_step (pending_transfer : N) (ep : TransferEndpoint)
  : M H TransferEndpoint :=
  host_call (libusb_cancel_transfer pending_transfer);;
  mret ep.

(** LibusbDevice.cpp:363 *)
Definition CancelTransfers (ep : TransferEndpoint) : M H TransferEndpoint :=
  if bool_decide (size (m_transfers ep) = 0%nat) then mret ep
  else
    INFO_LOG "Cancelling %ld transfer(s)";;
    for_each (pending_transfers ep) CancelTransfers_step ep.

(** [m_transfer_endpoints[endpoint]]: [std::map::operator[]] inserts a
    default-constructed tracker for an absent key. *)
Definition endpoint_ref (endpoint : Z) (d : LibusbDevice) : TransferEndpoint :=
  default {| m_transfers := ∅ |} (m_transfer_endpoints d !! endpoint).

Definition set_endpoint (endpoint : Z) (ep : TransferEndpoint) (d : LibusbDevice)
  : LibusbDevice :=
  set_m_transfer_endpoints (<[endpoint := ep]> (m_transfer_endpoints d)) d.

(** LibusbDevice.cpp:148 *)
Definition CancelTransfer (endpoint : Z) (d : LibusbDevice) : M H (Z * LibusbDevice) :=
  INFO_LOG "[%04x:%04x %d] Cancelling transfers (endpoint 0x%x)";;
  match m_transfer_endpoints d !! endpoint with
  | None => mret (IPC_ENOENT, d)
  | Some ep =>
      ep ← CancelTransfers ep;
      mret (IPC_SUCCESS, set_endpoint endpoint ep d)
  end.

(** *** Submitting transfers *)

(** Modelled from the spec: [Kernel::EnqueueIPCReply] is declared in
    Core/IOS/IOS.h and defined in Core/IOS/IOS.cpp, which is not among the
    sources; it "schedules an event ... that appends the reply to the reply
    queue and signals the guest". The trace records the call. *)
Definition EnqueueIPCReply (request : Request) (return_value : Z) : M H unit :=
  emit (EvEnqueueIPCReply request return_value).

(** Modelled from the spec: [TransferCommand::MakeBuffer], [FillBuffer]
    and [IsoMessage::SetPacketReturnValue] are defined in
    Core/IOS/USB/Common.cpp, which is not among the sources; they copy
    between the transfer buffer and guest memory ("copy data back into
    guest memory", "per-packet actual lengths are written back
    individually"). The trace records each call with its arguments. *)
Definition MakeBuffer (cmd : TransferCommand) (size : Z) : M H Z :=
  emit (EvMakeBuffer cmd size);; mret size.
Definition FillBuffer (cmd : TransferCommand) (size : Z) : M H unit :=
  emit (EvFillBuffer cmd size).
Definition SetPacketReturnValue (msg : IsoMessage) (packet_num return_value : Z)
  : M H unit :=
  emit (EvSetPacketReturnValue msg packet_num return_value).

(** What [libusb_alloc_transfer] hands out: a zeroed object at [self]. *)
Definition zeroed_transfer (self : N) : libusb_transfer :=
  {| tr_self := self; tr_dev_handle := None; tr_flags := 0; tr_endpoint := 0;
     tr_type := 0; tr_timeout := 0; tr_status := LIBUSB_TRANSFER_COMPLETED;
     tr_length := 0; tr_actual_length := 0; tr_callback := None;
     tr_buffer := None; tr_num_iso_packets := 0; tr_iso_packet_desc := [] |}.

(** The switch selector of LibusbDevice.cpp:187. *)
Definition ctrl_header (cmd : CtrlMessage) : Z :=
  Z.lor (Z.shiftl (request_type cmd) 8) (request cmd).

(** The two case labels of that switch. *)
Definition is_set_interface (cmd : CtrlMessage) : bool :=
  ctrl_header cmd
  =? USBHDR DIR_HOST2DEVICE TYPE_STANDARD REC_INTERFACE REQUEST_SET_INTERFACE.
Definition is_set_configuration (cmd : CtrlMessage) : bool :=
  ctrl_header cmd
  =? USBHDR DIR_HOST2DEVICE TYPE_STANDARD REC_DEVICE REQUEST_SET_CONFIGURATION.

(** The tail of the SET_INTERFACE case, LibusbDevice.cpp:202. *)
Definition SubmitTransfer_SetAltSetting (cmd : CtrlMessage) (d : LibusbDevice)
  : M H (Z * LibusbDevice) :=
  ret ← SetAltSetting (u8 (value cmd)) d;
  (if ret =? 0 then EnqueueIPCReply (ctrl_ios_request cmd) (ctrl_length cmd)
   else mret tt);;
  mret (ret, d).

(** LibusbDevice.cpp:182 *)
Definition SubmitTransfer_Ctrl (cmd : CtrlMessage) (d : LibusbDevice)
  : M H (Z * LibusbDevice) :=
  if negb (m_device_attached d) then mret (LIBUSB_ERROR_NOT_FOUND, d)
  else if is_set_interface cmd then
    if negb (u8 (index cmd) =? m_active_interface d) then
      '(ret, d) ← ChangeInterface (u8 (index cmd)) d;
      if ret <? 0 then
        ERROR_LOG "[%04x:%04x %d] Failed to change interface to %d: %s";;
        mret (ret, d)
      else SubmitTransfer_SetAltSetting cmd d
    else SubmitTransfer_SetAltSetting cmd d
  else if is_set_configuration cmd then
    ret ← host_call (libusb_set_configuration (m_handle d) (value cmd));
    (if ret =? 0 then EnqueueIPCReply (ctrl_ios_request cmd) (ctrl_length cmd)
     else mret tt);;
    mret (ret, d)
  else
    let size := ctrl_length cmd + LIBUSB_CONTROL_SETUP_SIZE in
    emit (EvCopyFromEmu (ctrl_data_address cmd) (ctrl_length cmd));;
    transfer ← host_alloc_transfer 0;
    let t := zeroed_transfer transfer in
    let t :=
      {| tr_self := transfer;
         tr_dev_handle := m_handle d;
         tr_flags := Z.lor (tr_flags t) LIBUSB_TRANSFER_FREE_TRANSFER;
         tr_endpoint := 0;
         tr_type := LIBUSB_TRANSFER_TYPE_CONTROL;
         tr_timeout := 0;
         tr_status := tr_status t;
         tr_length := LIBUSB_CONTROL_SETUP_SIZE + ctrl_length cmd;
         tr_actual_length := tr_actual_length t;
         tr_callback := Some cb_CtrlTransferCallback;
         tr_buffer := Some size;
         tr_num_iso_packets := tr_num_iso_packets t;
         tr_iso_packet_desc := tr_iso_packet_desc t |} in
    let d := set_endpoint 0 (AddTransfer (Ctrl cmd) transfer (endpoint_ref 0 d)) d in
    ret ← host_call (libusb_submit_transfer t);
    mret (ret, d).

(** The transfer object of [libusb_fill_bulk_transfer] and
    [libusb_fill_interrupt_transfer], with the flag the code adds. *)
Definition filled_transfer (self : N) (d : LibusbDevice) (type endpoint : Z)
    (buffer length : Z) : libusb_transfer :=
  let t := zeroed_transfer self in
  {| tr_self := self;
     tr_dev_handle := m_handle d;
     tr_flags := Z.lor (tr_flags t) LIBUSB_TRANSFER_FREE_TRANSFER;
     tr_endpoint := endpoint;
     tr_type := type;
     tr_timeout := 0;
     tr_status := tr_status t;
     tr_length := length;
     tr_actual_length := tr_actual_length t;
     tr_callback := Some cb_TransferCallback;
     tr_buffer := Some buffer;
     tr_num_iso_packets := tr_num_iso_packets t;
     tr_iso_packet_desc := tr_iso_packet_desc t |}.

(** LibusbDevice.cpp:228 *)
Definition SubmitTransfer_Bulk (cmd : BulkMessage) (d : LibusbDevice)
  : M H (Z * LibusbDevice) :=
  if negb (m_device_attached d) then mret (LIBUSB_ERROR_NOT_FOUND, d)
  else
    transfer ← host_alloc_transfer 0;
    buffer ← MakeBuffer (Bulk cmd) (bulk_length cmd);
    let t := filled_transfer transfer d LIBUSB_TRANSFER_TYPE_BULK
               (bulk_endpoint cmd) buffer (bulk_length cmd) in
    let d := set_endpoint (tr_endpoint t)
               (AddTransfer (Bulk cmd) transfer (endpoint_ref (tr_endpoint t) d)) d in
    ret ← host_call (libusb_submit_transfer t);
    mret (ret, d).

(** LibusbDevice.cpp:242 *)
Definition SubmitTransfer_Intr (cmd : IntrMessage) (d : LibusbDevice)
  : M H (Z * LibusbDevice) :=
  if negb (m_device_attached d) then mret (LIBUSB_ERROR_NOT_FOUND, d)
  else
    transfer ← host_alloc_transfer 0;
    buffer ← MakeBuffer (Intr cmd) (intr_length cmd);
    let t := filled_transfer transfer d LIBUSB_TRANSFER_TYPE_INTERRUPT
               (intr_endpoint cmd) buffer (intr_length cmd) in
    let d := set_endpoint (tr_endpoint t)
               (AddTransfer (Intr cmd) transfer (endpoint_ref (tr_endpoint t) d)) d in
    ret ← host_call (libusb_submit_transfer t);
    mret (ret, d).

(** The loop body of LibusbDevice.cpp:268, on the zeroed descriptors of the
    new transfer. *)
Definition iso_packet_desc_step (cmd : IsoMessage) (i : Z)
    (descs : list libusb_iso_packet_descriptor)
  : M H (list libusb_iso_packet_descriptor) :=
  size ← subscript (packet_sizes cmd) i;
  mret (descs ++ [{| pkt_length := size; pkt_actual_length := 0 |}]).

(** LibusbDevice.cpp:256 *)
Definition SubmitTransfer_Iso (cmd : IsoMessage) (d : LibusbDevice)
  : M H (Z * LibusbDevice) :=
  if negb (m_device_attached d) then mret (LIBUSB_ERROR_NOT_FOUND, d)
  else
    transfer ← host_alloc_transfer (num_packets cmd);
    buffer ← MakeBuffer (Iso cmd) (iso_length cmd);
    iso_packet_desc ← for_size_t (num_packets cmd) (iso_packet_desc_step cmd) [];
    let t := zeroed_transfer transfer in
    let t :=
      {| tr_self := transfer;
         tr_dev_handle := m_handle d;
         tr_flags := Z.lor (tr_flags t) LIBUSB_TRANSFER_FREE_TRANSFER;
         tr_endpoint := iso_endpoint cmd;
         tr_type := LIBUSB_TRANSFER_TYPE_ISOCHRONOUS;
         tr_timeout := 0;
         tr_status := tr_status t;
         tr_length := iso_length cmd;
         tr_actual_length := tr_actual_length t;
         tr_callback := Some cb_TransferCallback;
         tr_buffer := Some buffer;
         tr_num_iso_packets := num_packets cmd;
         tr_iso_packet_desc := iso_packet_desc |} in
    let d := set_endpoint (tr_endpoint t)
               (AddTransfer (Iso cmd) transfer (endpoint_ref (tr_endpoint t) d)) d in
    ret ← host_call (libusb_submit_transfer t);
    mret (ret, d).

(** *** Completion callbacks *)

(** The completion function of LibusbDevice.cpp:281. *)
Definition CtrlTransferCallback_fn (transfer : libusb_transfer)
    (cmd : TransferCommand) : M H Z :=
  FillBuffer cmd (tr_actual_length transfer);;
  mret (tr_length transfer).

(** LibusbDevice.cpp:278; [d] is the device [transfer->user_data] points to. *)
Definition CtrlTransferCallback (transfer : libusb_transfer) (d : LibusbDevice)
  : M H LibusbDevice :=
  ep ← HandleTransfer transfer (CtrlTransferCallback_fn transfer) (endpoint_ref 0 d);
  mret (set_endpoint 0 ep d).

(** The loop body of LibusbDevice.cpp:298. *)
Definition SetPacketReturnValue_step (transfer : libusb_transfer)
    (iso_msg : IsoMessage) (i : Z) (_ : unit) : M H unit :=
  pkt ← subscript (tr_iso_packet_desc transfer) i;
  SetPacketReturnValue iso_msg i (pkt_actual_length pkt).

(** The completion function of LibusbDevice.cpp:291. The [static_cast] to
    [IsoMessage] is undefined for a command of another class. *)
Definition TransferCallback_fn (transfer : libusb_transfer)
    (cmd : TransferCommand) : M H Z :=
  if tr_type transfer =? LIBUSB_TRANSFER_TYPE_ISOCHRONOUS then
    match cmd with
    | Iso iso_msg =>
        FillBuffer cmd (iso_length iso_msg);;
        for_size_t (num_packets iso_msg)
          (SetPacketReturnValue_step transfer iso_msg) tt;;
        mret IPC_SUCCESS
    | _ => fail UndefinedBehaviour
    end
  else
    FillBuffer cmd (tr_actual_length transfer);;
    mret (tr_actual_length transfer).

(** LibusbDevice.cpp:288 *)
Definition TransferCallback (transfer : libusb_transfer) (d : LibusbDevice)
  : M H LibusbDevice :=
  ep ← HandleTransfer transfer (TransferCallback_fn transfer)
         (endpoint_ref (tr_endpoint transfer) d);
  mret (set_endpoint (tr_endpoint transfer) ep d).
End Model.

(** ** A scripted host

    A host whose int-returning calls answer with the codes of a script, in
    order, and with 0 once the script is used up; [libusb_open] answers with
    [open_code] and the handle 1; transfer objects get consecutive
    addresses. *)
Record ScriptedHost := {
  answers : list Z;
  open_code : Z;
  next_transfer : N
}.

#[export] Instance scripted_libusb : Libusb ScriptedHost := {|
  libusb_open := λ _ h, (open_code h, 1%N, h);
  libusb_alloc_transfer := λ _ h,
    (next_transfer h,
     {| answers := answers h; open_code := open_code h;
        next_transfer := N.succ (next_transfer h) |});
  libusb_call := λ _ h,
    match answers h with
    | [] => (0, h)
    | r :: rs =>
        (r, {| answers := rs; open_code := open_code h;
               next_transfer := next_transfer h |})
    end;
  libusb_close := λ _ h, h;
  libusb_unref_device := λ _ h, h
|}.

(** ** A host that keeps books

    A host that counts the references to devices and lists the handles that
    are open; its int-returning calls answer with the codes of a script,
    like those of the scripted host. *)
Record LedgerHost := {
  script : list Z;
  open_handles : list N;
  references : Z
}.

#[export] Instance ledger_libusb : Libusb LedgerHost := {|
  libusb_open := λ _ h,
    let hnd := N.succ (foldr N.max 0%N (open_handles h)) in
    (0, hnd, {| script := script h; open_handles := hnd :: open_handles h;
                references := references h |});
  libusb_alloc_transfer := λ _ h, (16%N, h);
  libusb_call := λ _ h,
    match script h with
    | [] => (0, h)
    | r :: rs =>
        (r, {| script := rs; open_handles := open_handles h;
               references := references h |})
    end;
  libusb_close := λ hnd h,
    {| script := script h;
       open_handles := filter (λ x, x ≠ hnd) (open_handles h);
       references := references h |};
  libusb_unref_device := λ _ h,
    {| script := script h; open_handles := open_handles h;
       references := references h - 1 |}
|}.


Definition scripted (rs : list Z) : World ScriptedHost :=
  {| host := {| answers := rs; open_code := 0; next_transfer := 16 |}; trace := [] |}.

(** A device with one readable configuration of one interface, which has one
    alternate setting with a bulk IN endpoint 0x81, and a second
    configuration that the host fails to read. *)
Definition sample_endpoint : EndpointDescriptor :=
  {| bEndpointAddress := 129; ep_bmAttributes := 2; wMaxPacketSize := 64;
     bInterval := 0 |}.

Definition sample_config : libusb_config_descriptor :=
  {| cfg_header := {| bNumInterfaces := 1; bConfigurationValue := 1;
                      cfg_bmAttributes := 128; MaxPower := 50 |};
     interface :=
       [{| altsetting :=
             [{| if_header := {| bInterfaceNumber := 0; bAlternateSetting := 0;
                                 bNumEndpoints := 1; bInterfaceClass := 255 |};
                 endpoint := [sample_endpoint] |}];
           num_altsetting := 1 |}] |}.

Definition sample_libusb_device : libusb_device :=
  {| bus_number := 1; device_address := 4;
     config_descriptors := [(0, Some sample_config); (-1, None)] |}.

Definition sample_descriptor : libusb_device_descriptor :=
  {| idVendor := 1406; idProduct := 773; bNumConfigurations := 2 |}.

Definition sample_device : LibusbDevice :=
  LibusbDevice_new sample_libusb_device sample_descriptor.

(** The sample device once attached to interface 0 through handle 1. *)
Definition sample_attached : LibusbDevice :=
  set_m_device_attached true (set_m_handle (Some 1%N) sample_device).

(** A composite device: one configuration with two interfaces, each with
    one alternate setting (a bulk IN endpoint on the first, none on the
    second), attached to interface 0 through handle 1. *)
Definition sample_composite_config : libusb_config_descriptor :=
  {| cfg_header := {| bNumInterfaces := 2; bConfigurationValue := 1;
                      cfg_bmAttributes := 128; MaxPower := 50 |};
     interface :=
       [{| altsetting :=
             [{| if_header := {| bInterfaceNumber := 0; bAlternateSetting := 0;
                                 bNumEndpoints := 1; bInterfaceClass := 255 |};
                 endpoint := [sample_endpoint] |}];
           num_altsetting := 1 |};
        {| altsetting :=
             [{| if_header := {| bInterfaceNumber := 1; bAlternateSetting := 0;
                                 bNumEndpoints := 0; bInterfaceClass := 3 |};
                 endpoint := [] |}];
           num_altsetting := 1 |}] |}.

Definition sample_composite : LibusbDevice :=
  set_m_device_attached true
    (set_m_handle (Some 1%N)
       (LibusbDevice_new
          {| bus_number := 1; device_address := 5;
             config_descriptors := [(0, Some sample_composite_config)] |}
          {| idVendor := 1406; idProduct := 774; bNumConfigurations := 1 |})).

Definition sample_request : Request := {| address := 4096; fd := 3 |}.

(** What the trace of an intercepted control request looks like: nothing is
    allocated or submitted; a result of 0 comes with exactly one reply, for
    the command's request and with its length, enqueued right after the
    host's configuration call returned 0; any other result comes with no
    reply. *)
Definition intercepted (cmd : CtrlMessage) (ret : Z) (evs : list Event) : Prop :=
  Forall (λ e, is_transfer_call e = false) evs
  ∧ (ret = 0 →
     ∃ evs0 c,
       evs = evs0 ++ [EvHost c 0;
                      EvEnqueueIPCReply (ctrl_ios_request cmd) (ctrl_length cmd)]
       ∧ is_config_call c = true
       ∧ Forall (λ e, is_reply e = false) evs0)
  ∧ (ret ≠ 0 → Forall (λ e, is_reply e = false) evs).

(** SET_CONFIGURATION with value 1, and SET_INTERFACE for interface 0 with
    alternate setting 0. *)
Definition sample_set_configuration : CtrlMessage :=
  {| ctrl_ios_request := sample_request; ctrl_data_address := 8192;
     request_type := 0; request := 9; value := 1; index := 0; ctrl_length := 0 |}.

Definition sample_set_interface : CtrlMessage :=
  {| ctrl_ios_request := sample_request; ctrl_data_address := 8192;
     request_type := 1; request := 11; value := 0; index := 0; ctrl_length := 0 |}.

(** SET_INTERFACE for interface 1 with alternate setting 0, four bytes
    long. *)
Definition sample_set_interface_1 : CtrlMessage :=
  {| ctrl_ios_request := sample_request; ctrl_data_address := 8192;
     request_type := 1; request := 11; value := 0; index := 1; ctrl_length := 4 |}.

(** GET_DESCRIPTOR (device), 18 bytes: an ordinary control transfer. *)
Definition sample_get_descriptor : CtrlMessage :=
  {| ctrl_ios_request := sample_request; ctrl_data_address := 8192;
     request_type := 128; request := 6; value := 256; index := 0;
     ctrl_length := 18 |}.

(** A bulk read of 64 bytes from endpoint 0x81, the transfer object the
    host builds for it at address 16, and that object as the host reports
    it back. *)
Definition sample_bulk : BulkMessage :=
  {| bulk_ios_request := sample_request; bulk_data_address := 8192;
     bulk_length := 64; bulk_endpoint := 129 |}.

Definition sample_transfer : libusb_transfer :=
  filled_transfer 16 sample_attached LIBUSB_TRANSFER_TYPE_BULK 129 64 64.

Definition reported (status : libusb_transfer_status) (actual_length : Z)
    (t : libusb_transfer) : libusb_transfer :=
  {| tr_self := tr_self t; tr_dev_handle := tr_dev_handle t;
     tr_flags := tr_flags t; tr_endpoint := tr_endpoint t; tr_type := tr_type t;
     tr_timeout := tr_timeout t; tr_status := status; tr_length := tr_length t;
     tr_actual_length := actual_length; tr_callback := tr_callback t;
     tr_buffer := tr_buffer t; tr_num_iso_packets := tr_num_iso_packets t;
     tr_iso_packet_desc := tr_iso_packet_desc t |}.

(** A tracker holding that one transfer. *)
Definition sample_endpoint_tracker : TransferEndpoint :=
  {| m_transfers := {[ 16%N := Bulk sample_bulk ]} |}.

(** An isochronous read of three 8-byte packets from endpoint 0x82, and its
    transfer object (at address 17) as the host reports it back, with
    packets of 8, 3 and 0 bytes. *)
Definition sample_iso : IsoMessage :=
  {| iso_ios_request := sample_request; iso_data_address := 8192;
     packet_sizes_addr := 12288; packet_sizes := [8; 8; 8]; iso_length := 24;
     num_packets := 3; iso_endpoint := 130 |}.

Definition sample_iso_transfer : libusb_transfer :=
  {| tr_self := 17; tr_dev_handle := Some 1%N;
     tr_flags := LIBUSB_TRANSFER_FREE_TRANSFER; tr_endpoint := 130;
     tr_type := LIBUSB_TRANSFER_TYPE_ISOCHRONOUS; tr_timeout := 0;
     tr_status := LIBUSB_TRANSFER_COMPLETED; tr_length := 24;
     tr_actual_length := 0; tr_callback := Some cb_TransferCallback;
     tr_buffer := Some 24; tr_num_iso_packets := 3;
     tr_iso_packet_desc :=
       [{| pkt_length := 8; pkt_actual_length := 8 |};
        {| pkt_length := 8; pkt_actual_length := 3 |};
        {| pkt_length := 8; pkt_actual_length := 0 |}] |}.

(** The attached sample device with that transfer tracked on endpoint 0x82. *)
Definition sample_iso_device : LibusbDevice :=
  set_m_transfer_endpoints
    {[ 130 := {| m_transfers := {[ 17%N := Iso sample_iso ]} |} ]} sample_attached.

(** ** Well-formed descriptors

    What the host guarantees for a descriptor it has parsed: the arrays have
    the lengths their counts announce, and the counts fit the [u8] loop
    counters of the accessors. *)
Definition well_formed_altsetting (alt : libusb_interface_descriptor) : Prop :=
  bNumEndpoints (if_header alt) = Z.of_nat (length (endpoint alt))
  ∧ bNumEndpoints (if_header alt) < 2 ^ 8.

Definition well_formed_interface (itf : libusb_interface) : Prop :=
  num_altsetting itf = Z.of_nat (length (altsetting itf))
  ∧ num_altsetting itf < 2 ^ 8.

Definition well_formed_config (cfg : libusb_config_descriptor) : Prop :=
  bNumInterfaces (cfg_header cfg) = Z.of_nat (length (interface cfg))
  ∧ bNumInterfaces (cfg_header cfg) < 2 ^ 8
  ∧ Forall well_formed_interface (interface cfg).

(** ** The device as a state machine

    The operations that the kernel (the public methods) and the host (the
    two completion callbacks) apply to a device, one after the other. *)
Inductive Operation :=
| Op_Attach (interface : Z)
| Op_ChangeInterface (interface : Z)
| Op_SetAltSetting (alt_setting : Z)
| Op_SubmitTransfer_Ctrl (cmd : CtrlMessage)
| Op_SubmitTransfer_Bulk (cmd : BulkMessage)
| Op_SubmitTransfer_Intr (cmd : IntrMessage)
| Op_SubmitTransfer_Iso (cmd : IsoMessage)
| Op_CancelTransfer (endpoint : Z)
| Op_CtrlTransferCallback (transfer : libusb_transfer)
| Op_TransferCallback (transfer : libusb_transfer).

(** An attached device has an open handle. *)
Definition attached_has_handle (d : LibusbDevice) : Prop :=
  m_device_attached d = true → is_Some (m_handle d).

(** The identity of the device and its descriptor cache. *)
Definition same_identity (d d' : LibusbDevice) : Prop :=
  m_device d' = m_device d ∧ m_vid d' = m_vid d ∧ m_pid d' = m_pid d
  ∧ m_id d' = m_id d ∧ m_config_descriptors d' = m_config_descriptors d.

(** A host call that is given a device handle is given an open one. *)
Definition call_has_handle (c : HostCall) : bool :=
  match c with
  | libusb_detach_kernel_driver h _
  | libusb_claim_interface h _
  | libusb_release_interface h _
  | libusb_set_interface_alt_setting h _ _
  | libusb_set_configuration h _ => bool_decide (is_Some h)
  | libusb_submit_transfer t => bool_decide (is_Some (tr_dev_handle t))
  | libusb_cancel_transfer _ => true
  end.

Definition event_has_handle (e : Event) : bool :=
  match e with
  | EvHost c _ => call_has_handle c
  | _ => true
  end.

(** The events that keep [event_has_handle]: everything but a host call on
    a null handle. *)
Definition handled : Event → Prop := λ e, event_has_handle e = true.

(** What every operation keeps of a device [d]. *)
Definition kept (d : LibusbDevice) : LibusbDevice → Prop :=
  λ d', attached_has_handle d' ∧ same_identity d d'.

Section Machine.
Context {H : Type} `{!Libusb H}.

Definition perform (op : Operation) (d : LibusbDevice) : M H LibusbDevice :=
  match op with
  | Op_Attach interface => '(_, d) ← Attach interface d; mret d
  | Op_ChangeInterface interface => '(_, d) ← ChangeInterface interface d; mret d
  | Op_SetAltSetting alt_setting => SetAltSetting alt_setting d;; mret d
  | Op_SubmitTransfer_Ctrl cmd => '(_, d) ← SubmitTransfer_Ctrl cmd d; mret d
  | Op_SubmitTransfer_Bulk cmd => '(_, d) ← SubmitTransfer_Bulk cmd d; mret d
  | Op_SubmitTransfer_Intr cmd => '(_, d) ← SubmitTransfer_Intr cmd d; mret d
  | Op_SubmitTransfer_Iso cmd => '(_, d) ← SubmitTransfer_Iso cmd d; mret d
  | Op_CancelTransfer endpoint => '(_, d) ← CancelTransfer endpoint d; mret d
  | Op_CtrlTransferCallback transfer => CtrlTransferCallback transfer d
  | Op_TransferCallback transfer => TransferCallback transfer d
  end.

(** The host reports the transfers [ts], one callback after the other, to
    one tracker. *)
Definition HandleTransfers (ts : list libusb_transfer)
    (fn : libusb_transfer → TransferCommand → M H Z) (ep : TransferEndpoint)
  : M H TransferEndpoint :=
  for_each ts (λ transfer ep, HandleTransfer transfer (fn transfer) ep) ep.


(** LibusbDevice.cpp:373 *)
Definition GetNumberOfAltSettings (interface_number : Z) (d : LibusbDevice) : M H Z :=
  cfg ← config_at d 0;
  interface ← subscript (interface cfg) interface_number;
  mret (num_altsetting interface).

(** Partial correctness of a computation: where it returns, the result
    satisfies [Q] and every event it added satisfies [E]. *)
Definition triple {A} (m : M H A) (E : Event → Prop) (Q : A → Prop) : Prop :=
  ∀ w a w', m w = Ret (a, w') →
            Q a ∧ ∃ evs, trace w' = trace w ++ evs ∧ Forall E evs.
End Machine.

(** A short session: attach interface 0, submit the bulk read, cancel the
    transfers of its endpoint, and the host reporting the transfer as
    cancelled. *)
Definition sample_session : list Operation :=
  [Op_Attach 0;
   Op_SubmitTransfer_Bulk sample_bulk;
   Op_CancelTransfer 129;
   Op_TransferCallback (reported LIBUSB_TRANSFER_CANCELLED 0 sample_transfer)].

(** * Properties *)

(** ** The device identifier *)

Section device_id.
Lemma lor_shiftl_add (hi lo n : Z) :
  0 <= n → 0 <= lo < 2 ^ n → Z.lor (Z.shiftl hi n) lo = hi * 2 ^ n + lo.
Proof.
  intros Hn Hlo.
  assert (Hland : Z.land (Z.shiftl hi n) lo = 0).
  { apply Z.bits_inj'; intros m Hm.
    rewrite Z.land_spec, Z.bits_0.
    destruct (Z.lt_ge_cases m n) as [Hlt|Hge].
    - by rewrite Z.shiftl_spec_low.
    - rewrite <- (Z.mod_small lo (2 ^ n)) by done.
      rewrite Z.mod_pow2_bits_high by lia.
      apply andb_false_r. }
  rewrite <- Z.lxor_lor by done.
  rewrite <- Z.add_nocarry_lxor by done.
  by rewrite Z.shiftl_mul_pow2.
Qed.

Lemma shl64_small (x n : Z) :
  0 <= n → 0 <= x → x * 2 ^ n < 2 ^ 64 → shl64 x n = x * 2 ^ n.
Proof.
  intros Hn Hx Hlt. unfold shl64, u64.
  assert (0 < 2 ^ n) by (apply Z.pow_pos_nonneg; lia).
  rewrite (Z.mod_small x) by nia.
  rewrite Z.shiftl_mul_pow2 by done.
  apply Z.mod_small. nia.
Qed.

(** Within the ranges of its operands the identifier is the positional
    number with digits [vid], [pid], [bus], [addr]. *)
Lemma make_id_positional (vid pid bus addr : Z) :
  is_u16 vid → is_u16 pid → is_u8 bus → is_u8 addr →
  make_id vid pid bus addr = vid * 2 ^ 32 + pid * 2 ^ 16 + bus * 2 ^ 8 + addr.
Proof.
  unfold is_u16, is_u8, make_id. intros Hv Hp Hb Ha.
  rewrite !shl64_small by lia.
  unfold u64. rewrite (Z.mod_small addr) by lia.
  rewrite <- !Z.lor_assoc.
  rewrite <- !Z.shiftl_mul_pow2 by lia.
  rewrite (lor_shiftl_add bus addr 8) by lia.
  rewrite (lor_shiftl_add pid _ 16) by lia.
  rewrite (lor_shiftl_add vid _ 32) by lia.
  rewrite !Z.shiftl_mul_pow2 by lia.
  lia.
Qed.

(** C9. Two devices whose (vendor id, product id, bus number, device
    address) tuples differ, each field within its 16/16/8/8-bit range,
    are constructed with different 64-bit identifiers [m_id]. *)
Theorem device_id_injective
    (device device' : libusb_device)
    (descriptor descriptor' : libusb_device_descriptor) :
  is_u16 (idVendor descriptor) → is_u16 (idProduct descriptor) →
  is_u8 (libusb_get_bus_number device) →
  is_u8 (libusb_get_device_address device) →
  is_u16 (idVendor descriptor') → is_u16 (idProduct descriptor') →
  is_u8 (libusb_get_bus_number device') →
  is_u8 (libusb_get_device_address device') →
  (idVendor descriptor, idProduct descriptor,
   libusb_get_bus_number device, libusb_get_device_address device)
  ≠ (idVendor descriptor', idProduct descriptor',
     libusb_get_bus_number device', libusb_get_device_address device') →
  m_id (LibusbDevice_new device descriptor)
  ≠ m_id (LibusbDevice_new device' descriptor').
Proof.
  intros Hv Hp Hb Ha Hv' Hp' Hb' Ha' Hne Heq. apply Hne. clear Hne.
  cbn [m_id LibusbDevice_new] in Heq.
  rewrite !make_id_positional in Heq by done.
  unfold is_u16, is_u8 in *.
  assert (libusb_get_device_address device = libusb_get_device_address device'
          ∧ libusb_get_bus_number device = libusb_get_bus_number device'
          ∧ idProduct descriptor = idProduct descriptor'
          ∧ idVendor descriptor = idVendor descriptor') as (-> & -> & -> & ->)
    by lia.
  done.
Qed.
End device_id.

(** Two identical adapters (same vendor and product id) on the same bus at
    addresses 4 and 5. *)
Lemma device_id_injective_witness :
  m_id (LibusbDevice_new sample_libusb_device sample_descriptor)
  ≠ m_id (LibusbDevice_new
            {| bus_number := 1; device_address := 5; config_descriptors := [] |}
            sample_descriptor).
Proof.
  apply device_id_injective; unfold is_u16, is_u8; simpl; try lia.
  intros [=].
Defined.

(** ** Running the monad *)

Ltac unfold_M :=
  unfold mbind, M_bind, mret, M_ret, fail, ERROR_LOG, INFO_LOG, NOTICE_LOG,
    OnTransferComplete, EnqueueIPCReply, MakeBuffer, FillBuffer,
    SetPacketReturnValue, emit, _assert_, deref.

Ltac run := repeat progress (unfold_M; cbn [host trace fst snd]).

Lemma world_nil {H} (w : World H) : w ⊕ [] = w.
Proof. destruct w; simpl. by rewrite app_nil_r. Qed.

Lemma world_app {H} (w : World H) (evs evs' : list Event) :
  w ⊕ evs ⊕ evs' = w ⊕ (evs ++ evs').
Proof. simpl. by rewrite app_assoc. Qed.

(** ** Descriptor accessors *)

Section descriptors.
Context {H : Type} `{!Libusb H}.

Lemma IsValid_Get (c : LibusbConfigDescriptor) :
  IsValid c = true ↔ is_Some (Get c).
Proof. unfold IsValid, Get. by rewrite bool_decide_eq_true. Qed.

Lemma IsValid_false (c : LibusbConfigDescriptor) :
  IsValid c = false ↔ Get c = None.
Proof.
  unfold IsValid, Get. rewrite bool_decide_eq_false.
  by rewrite <- eq_None_not_Some.
Qed.

(** A failed read at construction leaves an invalid entry. *)
Lemma unreadable_config_invalid (device : libusb_device) (i : Z) :
  (libusb_get_config_descriptor device i).1 ≠ LIBUSB_SUCCESS →
  IsValid (LibusbConfigDescriptor_new device i) = false.
Proof.
  unfold LibusbConfigDescriptor_new.
  destruct (libusb_get_config_descriptor device i) as [rc desc]; simpl.
  intros Hrc. by destruct (Z.eqb_spec rc LIBUSB_SUCCESS).
Qed.

Lemma GetConfigurations_loop (cs : list LibusbConfigDescriptor)
    (acc : list ConfigDescriptor) (w : World H) :
  for_each cs GetConfigurations_step acc w
  = Ret (acc ++ (cfg_header <$> omap Get cs),
         w ⊕ ((λ _, ignored_config_log) <$> filter (λ c, Get c = None) cs)).
Proof.
  revert acc w. induction cs as [|c cs IH]; intros acc w.
  - simpl. unfold_M. by rewrite app_nil_r, world_nil.
  - cbn [for_each]. unfold mbind at 1, M_bind at 1.
    unfold GetConfigurations_step at 1.
    destruct (IsValid c) eqn:Hv; cbn [negb].
    + apply IsValid_Get in Hv as [cfg Hcfg].
      unfold_M. rewrite Hcfg. run. rewrite IH.
      cbn [omap list_omap]. rewrite Hcfg. cbn [fmap list_fmap].
      rewrite filter_cons_False by (by rewrite Hcfg).
      by rewrite <- app_assoc.
    + apply IsValid_false in Hv.
      run. rewrite IH.
      cbn [omap list_omap]. rewrite Hv.
      rewrite filter_cons_True by done.
      cbn [fmap list_fmap trace host]. by rewrite <- app_assoc.
Qed.

Lemma invalid_config_subscript (d : LibusbDevice) (config : Z) (w : World H) :
  0 <= config → invalid_config d config = false →
  ∃ cfg, m_config_descriptors d !! Z.to_nat config
         = Some {| m_descriptor := Some cfg |}
         ∧ config_at d config w = Ret (cfg, w).
Proof.
  unfold invalid_config, config_at, subscript. intros Hc Hinv.
  apply orb_false_iff in Hinv as [_ Hinv].
  destruct (m_config_descriptors d !! Z.to_nat config) as [[[cfg|]]|] eqn:Hl;
    try done.
  exists cfg. split; [done|].
  run. by destruct (Z.ltb_spec config 0); [lia|].
Qed.

(** C8 (amended). Construction records an unreadable configuration as
    invalid and always yields a device with one entry per configuration;
    [GetConfigurations] returns the headers of the valid entries, logging
    one diagnostic per invalid one; for an out-of-range or invalid config
    index [GetInterfaces] and [GetEndpoints] return the empty list after
    one logged diagnostic; on a valid config, [GetEndpoints] with an
    interface number or alternate setting out of range stops at a failed
    assertion. *)
Theorem descriptor_accessors_degrade (d : LibusbDevice) (w : World H) :
  (∀ device descriptor,
     length (m_config_descriptors (LibusbDevice_new device descriptor))
     = Z.to_nat (bNumConfigurations descriptor)
     ∧ ∀ i, (libusb_get_config_descriptor device i).1 ≠ LIBUSB_SUCCESS →
            IsValid (LibusbConfigDescriptor_new device i) = false)
  ∧ GetConfigurations d w
    = Ret (cfg_header <$> omap Get (m_config_descriptors d),
           w ⊕ ((λ _, ignored_config_log)
                  <$> filter (λ c, Get c = None) (m_config_descriptors d)))
  ∧ (∀ config,
       invalid_config d config = true →
       GetInterfaces d config w = Ret ([], w ⊕ [invalid_config_log])
       ∧ ∀ interface_number alt_setting,
           GetEndpoints d config interface_number alt_setting w
           = Ret ([], w ⊕ [invalid_config_log]))
  ∧ (∀ config cfg interface_number alt_setting,
       0 <= config →
       m_config_descriptors d !! Z.to_nat config
       = Some {| m_descriptor := Some cfg |} →
       (bNumInterfaces (cfg_header cfg) <= interface_number →
        GetEndpoints d config interface_number alt_setting w
        = Fault AssertionFailure)
       ∧ (∀ itf, 0 <= interface_number < bNumInterfaces (cfg_header cfg) →
                 interface cfg !! Z.to_nat interface_number = Some itf →
                 num_altsetting itf <= alt_setting →
                 GetEndpoints d config interface_number alt_setting w
                 = Fault AssertionFailure)).
Proof.
  split; [|split; [|split]].
  - intros device descriptor. split.
    + cbn [m_config_descriptors LibusbDevice_new].
      by rewrite length_fmap, length_seqZ.
    + apply unreadable_config_invalid.
  - unfold GetConfigurations. by rewrite GetConfigurations_loop.
  - intros config Hinv. unfold GetInterfaces, GetEndpoints. rewrite Hinv.
    by unfold_M.
  - intros config cfg interface_number alt_setting Hc Hl.
    assert (Hinv : invalid_config d config = false).
    { unfold invalid_config. rewrite Hl. apply orb_false_iff. split.
      - apply lookup_lt_Some in Hl. apply Z.leb_gt. lia.
      - done. }
    destruct (invalid_config_subscript d config w Hc Hinv) as (cfg' & Hl' & Hat).
    rewrite Hl in Hl'. injection Hl' as <-.
    unfold GetEndpoints. rewrite Hinv. split.
    + intros Hge. run. rewrite Hat. run.
      by destruct (Z.ltb_spec interface_number (bNumInterfaces (cfg_header cfg)));
        [lia|].
    + intros itf Hrange Hitf Halt. run. rewrite Hat. unfold subscript. run.
      destruct (Z.ltb_spec interface_number (bNumInterfaces (cfg_header cfg)));
        [|lia].
      destruct (Z.ltb_spec interface_number 0); [lia|].
      rewrite Hitf. run.
      by destruct (Z.ltb_spec alt_setting (num_altsetting itf)); [lia|].
Qed.
End descriptors.

(** On the sample device the second configuration is unreadable: it is
    skipped by [GetConfigurations], and asking for its endpoints gives the
    empty list. *)
Lemma descriptor_accessors_degrade_witness :
  GetConfigurations sample_device (scripted [])
  = Ret ([cfg_header sample_config], scripted [] ⊕ [ignored_config_log])
  ∧ GetEndpoints sample_device 1 0 0 (scripted [])
    = Ret ([], scripted [] ⊕ [invalid_config_log])
  ∧ GetEndpoints sample_device 0 0 7 (scripted []) = Fault AssertionFailure.
Proof.
  pose proof (descriptor_accessors_degrade sample_device (scripted []))
    as (_ & Hconfigs & Hinvalid & Hassert).
  split; [exact Hconfigs|]. split.
  - apply (Hinvalid 1). reflexivity.
  - destruct (Hassert 0 sample_config 0 7) as [_ Halt]; [lia|reflexivity|].
    eapply Halt; [simpl; lia|reflexivity|simpl; lia].
Defined.

(** C8 (as stated, refuted). With the valid configuration 0 of the sample
    device, which has the single interface 0, asking [GetEndpoints] for
    interface 1 does not return an empty list: it stops at the assertion of
    LibusbDevice.cpp:108. *)
Lemma GetEndpoints_interface_out_of_range_asserts :
  invalid_config sample_device 0 = false
  ∧ GetEndpoints sample_device 0 1 0 (scripted []) = Fault AssertionFailure
  ∧ ∀ w, GetEndpoints sample_device 0 1 0 (scripted []) ≠ Ret ([], w).
Proof. split; [reflexivity|]. split; [reflexivity|]. intros w. discriminate. Qed.

(** ** Attaching and changing interfaces *)

Section interfaces.
Context {H : Type} `{!Libusb H}.

Lemma host_call_run (c : HostCall) (w : World H) :
  host_call c w
  = Ret ((libusb_call c (host w)).1,
         {| host := (libusb_call c (host w)).2;
            trace := trace w ++ [EvHost c (libusb_call c (host w)).1] |}).
Proof. unfold host_call. by destruct (libusb_call c (host w)). Qed.

Lemma interface_event_facts (e : Event) :
  is_interface_event e = true →
  is_open e = false ∧ is_transfer_call e = false ∧ is_reply e = false.
Proof. by destruct e as [| | |[]| | | | | | | | |]. Qed.

Lemma detach_event_facts (e : Event) :
  is_detach_event e = true →
  is_attach_call e = false ∧ is_interface_event e = true.
Proof. by destruct e as [| | |[]| | | | | | | | |]. Qed.

Lemma attach_event_facts (e : Event) :
  is_attach_event e = true → is_interface_event e = true.
Proof. by destruct e as [| | |[]| | | | | | | | |]. Qed.

(** [DetachInterface] always returns, with 0 or a negative error, and
    never calls into the attach half of the host API. *)
Lemma DetachInterface_returns (d : LibusbDevice) (w : World H) :
  ∃ ret w' evs,
    DetachInterface d w = Ret (ret, w')
    ∧ trace w' = trace w ++ evs
    ∧ Forall (λ e, is_detach_event e = true) evs
    ∧ ret <= 0
    ∧ (ret = 0 →
       ∃ r, evs = [EvLog LINFO "[%04x:%04x] Detaching interface %d";
                   EvHost (libusb_release_interface
                             (m_handle d) (m_active_interface d)) r]).
Proof.
  unfold DetachInterface. case_bool_decide as Hh.
  - run. eexists _, _, _. split; [done|]. cbn [trace]. split; [done|].
    split; [by cbn [app]; repeat constructor|]. split; [lia|]. intros [=].
  - run. rewrite host_call_run. cbn [host trace].
    set (c := libusb_release_interface _ _).
    destruct (libusb_call c (host w)) as [ret h] eqn:Hc. cbn [fst snd].
    destruct ((ret <? 0) && negb (ret =? LIBUSB_ERROR_NO_DEVICE)) eqn:Hret; run.
    + apply andb_true_iff in Hret as [Hret _]. apply Z.ltb_lt in Hret.
      eexists _, _, _. split; [done|]. cbn [trace].
      rewrite <- !app_assoc. split; [done|].
      split; [by cbn [app]; repeat constructor|]. split; [lia|]. lia.
    + eexists _, _, _. split; [done|]. cbn [trace].
      rewrite <- !app_assoc. split; [done|].
      split; [by cbn [app]; repeat constructor|]. split; [lia|].
      intros _. by exists ret.
Qed.

(** [AttachInterface] always returns; it records the interface as active
    exactly when it returns 0, which happens only after the host accepted
    the claim. *)
Lemma AttachInterface_returns (interface : Z) (d : LibusbDevice) (w : World H) :
  ∃ r d' w' evs,
    AttachInterface interface d w = Ret ((r, d'), w')
    ∧ trace w' = trace w ++ evs
    ∧ Forall (λ e, is_attach_event e = true) evs
    ∧ (r ≠ 0 → d' = d)
    ∧ (r = 0 →
       d' = set_m_active_interface interface d
       ∧ ∃ r1 r2,
           0 <= r2
           ∧ evs = [EvLog LINFO "[%04x:%04x] Attaching interface %d";
                    EvHost (libusb_detach_kernel_driver (m_handle d) interface) r1;
                    EvHost (libusb_claim_interface (m_handle d) interface) r2]).
Proof.
  unfold AttachInterface. case_bool_decide as Hh.
  - run. eexists _, _, _, _. split; [done|]. cbn [trace]. split; [done|].
    split; [by cbn [app]; repeat constructor|]. split; [done|]. intros [=].
  - run. rewrite host_call_run. cbn [host trace].
    set (c1 := libusb_detach_kernel_driver _ _).
    destruct (libusb_call c1 (host w)) as [r1 h1] eqn:Hc1. cbn [fst snd].
    destruct ((r1 <? 0) && negb (r1 =? LIBUSB_ERROR_NOT_FOUND)
              && negb (r1 =? LIBUSB_ERROR_NOT_SUPPORTED)) eqn:Hr1; run.
    + eexists _, _, _, _. split; [done|]. cbn [trace].
      rewrite <- !app_assoc. split; [done|].
      split; [by cbn [app]; repeat constructor|]. split; [done|]. intros ->.
      apply andb_true_iff in Hr1 as [Hr1 _].
      apply andb_true_iff in Hr1 as [Hr1 _]. by apply Z.ltb_lt in Hr1.
    + rewrite host_call_run. cbn [host trace].
      set (c2 := libusb_claim_interface _ _).
      destruct (libusb_call c2 h1) as [r2 h2] eqn:Hc2. cbn [fst snd].
      destruct (Z.ltb_spec r2 0) as [Hr2|Hr2]; run.
      * eexists _, _, _, _. split; [done|]. cbn [trace].
        rewrite <- !app_assoc. split; [done|].
        split; [by cbn [app]; repeat constructor|]. split; [done|]. intros ->. lia.
      * eexists _, _, _, _. split; [done|]. cbn [trace].
        rewrite <- !app_assoc. split; [done|].
        split; [by cbn [app]; repeat constructor|]. split; [done|]. intros _.
        split; [done|]. by exists r1, r2.
Qed.

Lemma config_at_lookup (d : LibusbDevice) (config : Z)
    (cfg : libusb_config_descriptor) (w : World H) :
  0 <= config →
  m_config_descriptors d !! Z.to_nat config = Some {| m_descriptor := Some cfg |} →
  config_at d config w = Ret (cfg, w).
Proof.
  intros Hc Hl. unfold config_at, subscript. run.
  destruct (Z.ltb_spec config 0); [lia|]. by rewrite Hl.
Qed.

(** Which answers of the host the two functions take as a failure. *)
Lemma release_refused (r : Z) :
  r < 0 → r ≠ LIBUSB_ERROR_NO_DEVICE →
  (r <? 0) && negb (r =? LIBUSB_ERROR_NO_DEVICE) = true.
Proof.
  intros. destruct (Z.ltb_spec r 0); [|lia].
  by destruct (Z.eqb_spec r LIBUSB_ERROR_NO_DEVICE).
Qed.

Lemma release_accepted (r : Z) :
  0 <= r ∨ r = LIBUSB_ERROR_NO_DEVICE →
  (r <? 0) && negb (r =? LIBUSB_ERROR_NO_DEVICE) = false.
Proof.
  intros. destruct (Z.ltb_spec r 0); [|done].
  destruct (Z.eqb_spec r LIBUSB_ERROR_NO_DEVICE); [done|lia].
Qed.

Lemma detach_driver_refused (r : Z) :
  r < 0 → r ≠ LIBUSB_ERROR_NOT_FOUND → r ≠ LIBUSB_ERROR_NOT_SUPPORTED →
  (r <? 0) && negb (r =? LIBUSB_ERROR_NOT_FOUND)
  && negb (r =? LIBUSB_ERROR_NOT_SUPPORTED) = true.
Proof.
  intros. destruct (Z.ltb_spec r 0); [|lia].
  destruct (Z.eqb_spec r LIBUSB_ERROR_NOT_FOUND); [done|].
  by destruct (Z.eqb_spec r LIBUSB_ERROR_NOT_SUPPORTED).
Qed.

Lemma detach_driver_tolerated (r : Z) :
  0 <= r ∨ r = LIBUSB_ERROR_NOT_FOUND ∨ r = LIBUSB_ERROR_NOT_SUPPORTED →
  (r <? 0) && negb (r =? LIBUSB_ERROR_NOT_FOUND)
  && negb (r =? LIBUSB_ERROR_NOT_SUPPORTED) = false.
Proof.
  intros. destruct (Z.ltb_spec r 0); [|done].
  destruct (Z.eqb_spec r LIBUSB_ERROR_NOT_FOUND); [done|].
  destruct (Z.eqb_spec r LIBUSB_ERROR_NOT_SUPPORTED); [done|lia].
Qed.

(** The runs of [DetachInterface], [AttachInterface] and [ChangeInterface]
    on an open handle, by the answers of the host. *)
Lemma DetachInterface_run (d : LibusbDevice) (w : World H) (h : N) (r : Z)
    (h1 : H) :
  m_handle d = Some h →
  libusb_call (libusb_release_interface (Some h) (m_active_interface d)) (host w)
  = (r, h1) →
  DetachInterface d w
  = Ret (if (r <? 0) && negb (r =? LIBUSB_ERROR_NO_DEVICE) then r else 0,
         {| host := h1;
            trace :=
              trace w
              ++ [detaching_log;
                  EvHost (libusb_release_interface
                            (Some h) (m_active_interface d)) r]
              ++ (if (r <? 0) && negb (r =? LIBUSB_ERROR_NO_DEVICE)
                  then [release_failed_log] else []) |}).
Proof.
  intros Hh Hc. unfold DetachInterface.
  rewrite Hh, bool_decide_eq_false_2 by done. run.
  rewrite host_call_run. cbn [host trace]. rewrite Hc. cbn [fst snd].
  destruct ((r <? 0) && negb (r =? LIBUSB_ERROR_NO_DEVICE)); run.
  - by rewrite <- !app_assoc.
  - by rewrite <- !app_assoc.
Qed.

Lemma AttachInterface_run (interface : Z) (d : LibusbDevice) (w : World H)
    (h : N) (r1 r2 : Z) (h1 h2 : H) :
  m_handle d = Some h →
  libusb_call (libusb_detach_kernel_driver (Some h) interface) (host w) = (r1, h1) →
  libusb_call (libusb_claim_interface (Some h) interface) h1 = (r2, h2) →
  let detached := EvHost (libusb_detach_kernel_driver (Some h) interface) r1 in
  let claimed := EvHost (libusb_claim_interface (Some h) interface) r2 in
  AttachInterface interface d w
  = if (r1 <? 0) && negb (r1 =? LIBUSB_ERROR_NOT_FOUND)
       && negb (r1 =? LIBUSB_ERROR_NOT_SUPPORTED)
    then Ret ((r1, d),
              {| host := h1;
                 trace := trace w
                          ++ [attaching_log; detached; detach_driver_failed_log] |})
    else if r2 <? 0
    then Ret ((r2, d),
              {| host := h2;
                 trace := trace w
                          ++ [attaching_log; detached; claimed; claim_failed_log] |})
    else Ret ((0, set_m_active_interface interface d),
              {| host := h2;
                 trace := trace w ++ [attaching_log; detached; claimed] |}).
Proof.
  intros Hh Hc1 Hc2 detached claimed. subst detached claimed.
  unfold AttachInterface. rewrite Hh, bool_decide_eq_false_2 by done. run.
  rewrite host_call_run. cbn [host trace]. rewrite Hc1. cbn [fst snd].
  destruct ((r1 <? 0) && negb (r1 =? LIBUSB_ERROR_NOT_FOUND)
            && negb (r1 =? LIBUSB_ERROR_NOT_SUPPORTED)); run.
  { by rewrite <- !app_assoc. }
  rewrite host_call_run. cbn [host trace]. rewrite Hc2. cbn [fst snd].
  destruct (r2 <? 0); run; by rewrite <- !app_assoc.
Qed.

Lemma ChangeInterface_guard_passed (interface : Z) (d : LibusbDevice)
    (w : World H) (cfg : libusb_config_descriptor) :
  m_device_attached d = true →
  m_config_descriptors d !! 0%nat = Some {| m_descriptor := Some cfg |} →
  interface < bNumInterfaces (cfg_header cfg) →
  ChangeInterface interface d w
  = match DetachInterface d (w ⊕ [changing_log]) with
    | Ret (ret, w1) =>
        if ret <? 0 then Ret ((ret, d), w1) else AttachInterface interface d w1
    | Fault f => Fault f
    end.
Proof.
  intros Hatt Hcfg Hif.
  unfold ChangeInterface, ChangeInterface_refused. rewrite Hatt. cbn [negb].
  run. rewrite (config_at_lookup d 0 cfg w) by done. run.
  destruct (Z.leb_spec (bNumInterfaces (cfg_header cfg)) interface); [lia|].
  unfold changing_log.
  destruct (DetachInterface d _) as [[ret w1]|]; [|done].
  by destruct (ret <? 0).
Qed.

Lemma ChangeInterface_run (interface : Z) (d : LibusbDevice) (w : World H)
    (cfg : libusb_config_descriptor) (h : N) (r0 r1 r2 : Z) (h0 h1 h2 : H) :
  m_device_attached d = true →
  m_config_descriptors d !! 0%nat = Some {| m_descriptor := Some cfg |} →
  interface < bNumInterfaces (cfg_header cfg) →
  m_handle d = Some h →
  libusb_call (libusb_release_interface (Some h) (m_active_interface d)) (host w)
  = (r0, h0) →
  libusb_call (libusb_detach_kernel_driver (Some h) interface) h0 = (r1, h1) →
  libusb_call (libusb_claim_interface (Some h) interface) h1 = (r2, h2) →
  let released :=
    EvHost (libusb_release_interface (Some h) (m_active_interface d)) r0 in
  let detached := EvHost (libusb_detach_kernel_driver (Some h) interface) r1 in
  let claimed := EvHost (libusb_claim_interface (Some h) interface) r2 in
  ChangeInterface interface d w
  = if (r0 <? 0) && negb (r0 =? LIBUSB_ERROR_NO_DEVICE)
    then Ret ((r0, d),
              {| host := h0;
                 trace := trace w
                          ++ [changing_log; detaching_log; released;
                              release_failed_log] |})
    else if (r1 <? 0) && negb (r1 =? LIBUSB_ERROR_NOT_FOUND)
            && negb (r1 =? LIBUSB_ERROR_NOT_SUPPORTED)
    then Ret ((r1, d),
              {| host := h1;
                 trace := trace w
                          ++ [changing_log; detaching_log; released;
                              attaching_log; detached;
                              detach_driver_failed_log] |})
    else if r2 <? 0
    then Ret ((r2, d),
              {| host := h2;
                 trace := trace w
                          ++ [changing_log; detaching_log; released;
                              attaching_log; detached; claimed;
                              claim_failed_log] |})
    else Ret ((0, set_m_active_interface interface d),
              {| host := h2;
                 trace := trace w
                          ++ [changing_log; detaching_log; released;
                              attaching_log; detached; claimed] |}).
Proof.
  intros Hatt Hcfg Hif Hh Hc0 Hc1 Hc2 released detached claimed.
  subst released detached claimed.
  rewrite (ChangeInterface_guard_passed interface d w cfg) by done.
  rewrite (DetachInterface_run d (w ⊕ [changing_log]) h r0 h0) by done.
  cbn [trace host].
  destruct ((r0 <? 0) && negb (r0 =? LIBUSB_ERROR_NO_DEVICE)) eqn:Hr0.
  - apply andb_true_iff in Hr0 as [Hr0 _]. rewrite Hr0.
    by rewrite <- !app_assoc.
  - change (0 <? 0) with false. cbn iota.
    rewrite (AttachInterface_run interface d _ h r1 r2 h1 h2) by done.
    cbn [trace host].
    destruct ((r1 <? 0) && negb (r1 =? LIBUSB_ERROR_NOT_FOUND)
              && negb (r1 =? LIBUSB_ERROR_NOT_SUPPORTED)).
    { by rewrite <- !app_assoc. }
    destruct (r2 <? 0); by rewrite <- !app_assoc.
Qed.

(** C7. Past its guard (attached device, interface number within the
    first configuration) [ChangeInterface] runs [DetachInterface] and then
    [AttachInterface], in that order. When [DetachInterface] returns a
    negative error, that error is the result, nothing of the attach half
    is called, and the device, its active interface included, is as
    before. The active interface changes only when [AttachInterface]
    returned 0, the last host call being an accepted claim of the new
    interface.

    By the answers of the host, on an open handle: a refused release
    (negative and not LIBUSB_ERROR_NO_DEVICE) is returned after the release
    alone; after an accepted release the kernel driver is detached from
    the new interface, and a failure of that (other than
    LIBUSB_ERROR_NOT_FOUND and LIBUSB_ERROR_NOT_SUPPORTED) is returned with
    no claim made; otherwise the new interface is claimed, a refused claim
    is returned with the device as before, and an accepted claim gives 0
    with the new interface recorded as the active one. Without a handle
    the result is -1 and the host is not called. *)
Theorem ChangeInterface_detach_then_attach
    (interface : Z) (d : LibusbDevice) (w : World H)
    (cfg : libusb_config_descriptor) :
  m_device_attached d = true →
  m_config_descriptors d !! 0%nat = Some {| m_descriptor := Some cfg |} →
  interface < bNumInterfaces (cfg_header cfg) →
  (∃ ret w1 evs,
     DetachInterface d
       (w ⊕ [EvLog LINFO "[%04x:%04x %d] Changing interface to %d"])
     = Ret (ret, w1)
     ∧ trace w1
       = trace w ++ EvLog LINFO "[%04x:%04x %d] Changing interface to %d" :: evs
     ∧ Forall (λ e, is_attach_call e = false) evs
     ∧ (ret < 0 → ChangeInterface interface d w = Ret ((ret, d), w1))
     ∧ (0 <= ret →
        ChangeInterface interface d w = AttachInterface interface d w1)
     ∧ (∀ r d' w',
          ChangeInterface interface d w = Ret ((r, d'), w') →
          m_active_interface d' ≠ m_active_interface d →
          ret = 0 ∧ r = 0 ∧ m_active_interface d' = interface
          ∧ ∃ evs' r2,
              0 <= r2
              ∧ trace w'
                = trace w1 ++ evs'
                  ++ [EvHost (libusb_claim_interface (m_handle d) interface) r2]))
  ∧ (m_handle d = None →
     ChangeInterface interface d w
     = Ret ((-1, d), w ⊕ [changing_log; no_handle_detach_log]))
  ∧ (∀ h r0 h0 r1 h1 r2 h2,
       m_handle d = Some h →
       libusb_call (libusb_release_interface (Some h) (m_active_interface d))
         (host w) = (r0, h0) →
       libusb_call (libusb_detach_kernel_driver (Some h) interface) h0
       = (r1, h1) →
       libusb_call (libusb_claim_interface (Some h) interface) h1 = (r2, h2) →
       let released :=
         EvHost (libusb_release_interface (Some h) (m_active_interface d)) r0 in
       let detached :=
         EvHost (libusb_detach_kernel_driver (Some h) interface) r1 in
       let claimed := EvHost (libusb_claim_interface (Some h) interface) r2 in
       (r0 < 0 → r0 ≠ LIBUSB_ERROR_NO_DEVICE →
        ChangeInterface interface d w
        = Ret ((r0, d),
               {| host := h0;
                  trace := trace w
                           ++ [changing_log; detaching_log; released;
                               release_failed_log] |}))
       ∧ (0 <= r0 ∨ r0 = LIBUSB_ERROR_NO_DEVICE →
          (r1 < 0 → r1 ≠ LIBUSB_ERROR_NOT_FOUND →
           r1 ≠ LIBUSB_ERROR_NOT_SUPPORTED →
           ChangeInterface interface d w
           = Ret ((r1, d),
                  {| host := h1;
                     trace := trace w
                              ++ [changing_log; detaching_log; released;
                                  attaching_log; detached;
                                  detach_driver_failed_log] |}))
          ∧ (0 <= r1 ∨ r1 = LIBUSB_ERROR_NOT_FOUND
             ∨ r1 = LIBUSB_ERROR_NOT_SUPPORTED →
             (r2 < 0 →
              ChangeInterface interface d w
              = Ret ((r2, d),
                     {| host := h2;
                        trace := trace w
                                 ++ [changing_log; detaching_log; released;
                                     attaching_log; detached; claimed;
                                     claim_failed_log] |}))
             ∧ (0 <= r2 →
                ChangeInterface interface d w
                = Ret ((0, set_m_active_interface interface d),
                       {| host := h2;
                          trace := trace w
                                   ++ [changing_log; detaching_log; released;
                                       attaching_log; detached;
                                       claimed] |}))))).
Proof.
  intros Hatt Hcfg Hif.
  split; [|split].
  2:{ intros Hh.
      rewrite (ChangeInterface_guard_passed interface d w cfg) by done.
      unfold DetachInterface. rewrite Hh, bool_decide_eq_true_2 by done. run.
      change (-1 <? 0) with true. cbn iota. by rewrite <- !app_assoc. }
  2:{ intros h r0 h0 r1 h1 r2 h2 Hh Hc0 Hc1 Hc2 released detached claimed.
      subst released detached claimed.
      rewrite (ChangeInterface_run interface d w cfg h r0 r1 r2 h0 h1 h2)
        by done.
      split.
      { intros Hr0 Hnd. by rewrite release_refused. }
      intros Hr0. rewrite release_accepted by done. split.
      { intros Hr1 Hnf Hns. by rewrite detach_driver_refused. }
      intros Hr1. rewrite detach_driver_tolerated by done. split.
      - intros Hr2. by destruct (Z.ltb_spec r2 0); [|lia].
      - intros Hr2. by destruct (Z.ltb_spec r2 0); [lia|]. }
  set (w0 := w ⊕ [EvLog LINFO "[%04x:%04x %d] Changing interface to %d"]).
  destruct (DetachInterface_returns d w0)
    as (ret & w1 & evs & Hdet & Htr & Hevs & Hle & Hzero).
  assert (Hchange : ChangeInterface interface d w
                    = if ret <? 0 then Ret ((ret, d), w1)
                      else AttachInterface interface d w1).
  { unfold ChangeInterface, ChangeInterface_refused. rewrite Hatt. cbn [negb].
    run. rewrite (config_at_lookup d 0 cfg w) by done. run.
    destruct (Z.leb_spec (bNumInterfaces (cfg_header cfg)) interface); [lia|].
    fold w0. rewrite Hdet. by destruct (ret <? 0). }
  exists ret, w1, evs. split; [done|]. split.
  { rewrite Htr. unfold w0. cbn [trace]. by rewrite <- app_assoc. }
  split. { eapply Forall_impl; [exact Hevs|].
           intros e He. by apply detach_event_facts. }
  split. { intros Hneg. rewrite Hchange. by destruct (Z.ltb_spec ret 0); [|lia]. }
  split. { intros Hpos. rewrite Hchange. by destruct (Z.ltb_spec ret 0); [lia|]. }
  intros r d' w' Hrun Hne. rewrite Hchange in Hrun.
  destruct (Z.ltb_spec ret 0) as [Hneg|Hpos].
  { injection Hrun as <- <- <-. done. }
  destruct (AttachInterface_returns interface d w1)
    as (r' & d'' & w'' & evs' & Hatt' & Htr' & _ & Hfail & Hok).
  rewrite Hatt' in Hrun. injection Hrun as <- <- <-.
  destruct (decide (r' = 0)) as [->|Hr'].
  - destruct (Hok eq_refl) as (-> & r1 & r2 & Hr2 & ->).
    assert (ret = 0) as -> by lia.
    split; [done|]. split; [done|]. split; [done|].
    eexists [_; _], r2. split; [done|]. rewrite Htr'. done.
  - rewrite (Hfail Hr') in Hne. done.
Qed.

(** [ChangeInterface] never opens the device and keeps the attached flag
    and the handle; where it returns 0 it has released the old interface
    and then claimed the new one, which is now the active one. *)
Lemma ChangeInterface_returns_0 (interface : Z) (d d' : LibusbDevice)
    (w w' : World H) (r : Z) :
  ChangeInterface interface d w = Ret ((r, d'), w') →
  m_device_attached d' = m_device_attached d
  ∧ m_handle d' = m_handle d
  ∧ m_transfer_endpoints d' = m_transfer_endpoints d
  ∧ (∃ evs, trace w' = trace w ++ evs
            ∧ Forall (λ e, is_interface_event e = true) evs)
  ∧ (r = 0 →
     m_active_interface d' = interface
     ∧ ∃ r1 r2 r3,
         0 <= r3
         ∧ trace w'
           = trace w
             ++ [EvLog LINFO "[%04x:%04x %d] Changing interface to %d";
                 EvLog LINFO "[%04x:%04x] Detaching interface %d";
                 EvHost (libusb_release_interface
                           (m_handle d) (m_active_interface d)) r1;
                 EvLog LINFO "[%04x:%04x] Attaching interface %d";
                 EvHost (libusb_detach_kernel_driver (m_handle d) interface) r2;
                 EvHost (libusb_claim_interface (m_handle d) interface) r3]).
Proof.
  unfold ChangeInterface. run.
  destruct (ChangeInterface_refused interface d w) as [[refused w0]|] eqn:Hg;
    [|done].
  assert (w0 = w) as ->.
  { revert Hg. unfold ChangeInterface_refused.
    destruct (m_device_attached d); cbn [negb]; run; [|by intros [= _ <-]].
    destruct (config_at d 0 w) as [[cfg w1]|] eqn:Hc; [|done].
    intros [= _ <-]. revert Hc. unfold config_at, subscript. run.
    destruct (0 <? 0); [done|].
    destruct (m_config_descriptors d !! Z.to_nat 0) as [c|]; [|done]. run.
    destruct (Get c); [|done]. by intros [= _ <-]. }
  destruct refused.
  { intros [= <- <- <-]. split; [done|]. split; [done|]. split; [done|]. split.
    - exists []. by rewrite app_nil_r.
    - intros [=]. }
  set (w0 := w ⊕ [EvLog LINFO "[%04x:%04x %d] Changing interface to %d"]).
  destruct (DetachInterface_returns d w0)
    as (ret & w1 & evs & Hdet & Htr & Hevs & Hle & Hzero).
  rewrite Hdet.
  destruct (Z.ltb_spec ret 0) as [Hneg|Hpos].
  { intros [= <- <- <-]. split; [done|]. split; [done|]. split; [done|]. split.
    - eexists (_ :: evs). split.
      + rewrite Htr. unfold w0. cbn [trace]. by rewrite <- app_assoc.
      + constructor; [done|]. eapply Forall_impl; [exact Hevs|].
        intros e He. by apply detach_event_facts.
    - lia. }
  destruct (AttachInterface_returns interface d w1)
    as (r' & d'' & w'' & evs' & Hatt' & Htr' & Hevs' & Hfail & Hok).
  rewrite Hatt'. intros [= <- <- <-].
  assert (ret = 0) as -> by lia.
  destruct (Hzero eq_refl) as [r1 ->].
  assert (Hd : m_device_attached d'' = m_device_attached d
               ∧ m_handle d'' = m_handle d
               ∧ m_transfer_endpoints d'' = m_transfer_endpoints d).
  { destruct (decide (r' = 0)) as [Hr|Hr].
    - by destruct (Hok Hr) as [-> _].
    - by rewrite (Hfail Hr). }
  destruct Hd as (Hd1 & Hd2 & Hd3).
  split; [done|]. split; [done|]. split; [done|]. split.
  - exists ([EvLog LINFO "[%04x:%04x %d] Changing interface to %d";
             EvLog LINFO "[%04x:%04x] Detaching interface %d";
             EvHost (libusb_release_interface
                       (m_handle d) (m_active_interface d)) r1] ++ evs').
    split.
    + rewrite Htr', Htr. unfold w0. cbn [trace].
      by rewrite <- !app_assoc.
    + apply Forall_app. split; [by repeat constructor|].
      eapply Forall_impl; [exact Hevs'|]. apply attach_event_facts.
  - intros ->. destruct (Hok eq_refl) as (-> & r2 & r3 & Hr3 & ->).
    split; [done|]. exists r1, r2, r3. split; [done|].
    rewrite Htr', Htr. unfold w0. cbn [trace]. by rewrite <- !app_assoc.
Qed.

Lemma set_m_device_attached_id (d : LibusbDevice) (b : bool) :
  m_device_attached d = b → set_m_device_attached b d = d.
Proof. destruct d. cbn. by intros ->. Qed.

Lemma Attach_other_interface (interface : Z) (d : LibusbDevice) (w : World H) :
  m_device_attached d = true → interface ≠ m_active_interface d →
  Attach interface d w
  = match ChangeInterface interface d w with
    | Ret ((ret, d'), w') => Ret ((ret =? 0, d'), w')
    | Fault f => Fault f
    end.
Proof.
  intros Hatt Hne. unfold Attach. rewrite Hatt.
  destruct (Z.eqb_spec interface (m_active_interface d)) as [|_]; [done|].
  cbn [andb negb]. run.
  by destruct (ChangeInterface interface d w) as [[[ret d'] w']|].
Qed.

(** C6. [Attach] on an attached device with the active interface returns
    success with no event and no state change; on an attached device with
    another interface it is [ChangeInterface] (success meaning: the old
    interface released, then the new one claimed and active, the device
    not opened again); on an unattached device it opens the host handle
    first, claims the interface on that handle afterwards, and sets the
    attached flag exactly when both succeeded.

    By the answers of the host: attaching another interface of an attached
    device releases the active interface, detaches the kernel driver from
    the new one and claims it, on the handle the device holds; the result
    is true, with the new interface recorded, exactly when the release and
    the claim were accepted, and false with the device as before otherwise
    (also for an interface number that the first configuration does not
    have, where the host is not called). The first attach of an unattached
    device returns false after a failed open; after a successful one it
    keeps the handle, detaches the kernel driver and claims the interface
    on it, and sets the attached flag only after an accepted claim. *)
Theorem Attach_idempotent_change_open
    (interface : Z) (d : LibusbDevice) (w : World H) :
  (m_device_attached d = true → interface = m_active_interface d →
   Attach interface d w = Ret ((true, d), w))
  ∧ (m_device_attached d = true → interface ≠ m_active_interface d →
     Attach interface d w
     = match ChangeInterface interface d w with
       | Ret ((ret, d'), w') => Ret ((ret =? 0, d'), w')
       | Fault f => Fault f
       end
     ∧ ∀ b d' w',
         Attach interface d w = Ret ((b, d'), w') →
         m_device_attached d' = true
         ∧ m_handle d' = m_handle d
         ∧ (∃ evs, trace w' = trace w ++ evs
                   ∧ Forall (λ e, is_open e = false) evs)
         ∧ (b = true →
            m_active_interface d' = interface
            ∧ ∃ r1 r2 r3,
                0 <= r3
                ∧ trace w'
                  = trace w
                    ++ [EvLog LINFO "[%04x:%04x %d] Changing interface to %d";
                        EvLog LINFO "[%04x:%04x] Detaching interface %d";
                        EvHost (libusb_release_interface
                                  (m_handle d) (m_active_interface d)) r1;
                        EvLog LINFO "[%04x:%04x] Attaching interface %d";
                        EvHost (libusb_detach_kernel_driver
                                  (m_handle d) interface) r2;
                        EvHost (libusb_claim_interface
                                  (m_handle d) interface) r3]))
  ∧ (m_device_attached d = false →
     ∃ b d' w' ret hnd rest,
       Attach interface d w = Ret ((b, d'), w')
       ∧ trace w'
         = trace w ++ [EvLog LNOTICE "[%04x:%04x] Opening device";
                       EvOpen ret hnd] ++ rest
       ∧ m_device_attached d' = b
       ∧ (ret ≠ 0 → b = false ∧ Forall (λ e, is_host_event e = false) rest)
       ∧ (b = true →
          ret = 0
          ∧ m_handle d' = Some hnd
          ∧ m_active_interface d' = interface
          ∧ ∃ r1 r2,
              0 <= r2
              ∧ rest
                = [EvLog LINFO "[%04x:%04x] Attaching interface %d";
                   EvHost (libusb_detach_kernel_driver (Some hnd) interface) r1;
                   EvHost (libusb_claim_interface (Some hnd) interface) r2]))
  ∧ (m_device_attached d = true → interface ≠ m_active_interface d →
     ∀ cfg,
       m_config_descriptors d !! 0%nat = Some {| m_descriptor := Some cfg |} →
       (bNumInterfaces (cfg_header cfg) <= interface →
        Attach interface d w = Ret ((false, d), w))
       ∧ (interface < bNumInterfaces (cfg_header cfg) →
          ∀ h r0 h0 r1 h1 r2 h2,
            m_handle d = Some h →
            libusb_call
              (libusb_release_interface (Some h) (m_active_interface d)) (host w)
            = (r0, h0) →
            libusb_call (libusb_detach_kernel_driver (Some h) interface) h0
            = (r1, h1) →
            libusb_call (libusb_claim_interface (Some h) interface) h1
            = (r2, h2) →
            let released :=
              EvHost (libusb_release_interface
                        (Some h) (m_active_interface d)) r0 in
            let detached :=
              EvHost (libusb_detach_kernel_driver (Some h) interface) r1 in
            let claimed :=
              EvHost (libusb_claim_interface (Some h) interface) r2 in
            (r0 < 0 → r0 ≠ LIBUSB_ERROR_NO_DEVICE →
             Attach interface d w
             = Ret ((false, d),
                    {| host := h0;
                       trace := trace w
                                ++ [changing_log; detaching_log; released;
                                    release_failed_log] |}))
            ∧ (0 <= r0 ∨ r0 = LIBUSB_ERROR_NO_DEVICE →
               (r1 < 0 → r1 ≠ LIBUSB_ERROR_NOT_FOUND →
                r1 ≠ LIBUSB_ERROR_NOT_SUPPORTED →
                Attach interface d w
                = Ret ((false, d),
                       {| host := h1;
                          trace := trace w
                                   ++ [changing_log; detaching_log; released;
                                       attaching_log; detached;
                                       detach_driver_failed_log] |}))
               ∧ (0 <= r1 ∨ r1 = LIBUSB_ERROR_NOT_FOUND
                  ∨ r1 = LIBUSB_ERROR_NOT_SUPPORTED →
                  (r2 < 0 →
                   Attach interface d w
                   = Ret ((false, d),
                          {| host := h2;
                             trace := trace w
                                      ++ [changing_log; detaching_log; released;
                                          attaching_log; detached; claimed;
                                          claim_failed_log] |}))
                  ∧ (0 <= r2 →
                     Attach interface d w
                     = Ret ((true, set_m_active_interface interface d),
                            {| host := h2;
                               trace := trace w
                                        ++ [changing_log; detaching_log;
                                            released; attaching_log; detached;
                                            claimed] |}))))))
  ∧ (m_device_attached d = false →
     ∀ ret hnd h0,
       libusb_open (m_device d) (host w) = (ret, hnd, h0) →
       (ret ≠ 0 →
        Attach interface d w
        = Ret ((false, d),
               {| host := h0;
                  trace := trace w
                           ++ [opening_log; EvOpen ret hnd; open_failed_log] |}))
       ∧ (ret = 0 →
          ∀ r1 h1 r2 h2,
            libusb_call (libusb_detach_kernel_driver (Some hnd) interface) h0
            = (r1, h1) →
            libusb_call (libusb_claim_interface (Some hnd) interface) h1
            = (r2, h2) →
            let detached :=
              EvHost (libusb_detach_kernel_driver (Some hnd) interface) r1 in
            let claimed :=
              EvHost (libusb_claim_interface (Some hnd) interface) r2 in
            (r1 < 0 → r1 ≠ LIBUSB_ERROR_NOT_FOUND →
             r1 ≠ LIBUSB_ERROR_NOT_SUPPORTED →
             Attach interface d w
             = Ret ((false, set_m_handle (Some hnd) d),
                    {| host := h1;
                       trace := trace w
                                ++ [opening_log; EvOpen 0 hnd; attaching_log;
                                    detached; detach_driver_failed_log] |}))
            ∧ (0 <= r1 ∨ r1 = LIBUSB_ERROR_NOT_FOUND
               ∨ r1 = LIBUSB_ERROR_NOT_SUPPORTED →
               (r2 < 0 →
                Attach interface d w
                = Ret ((false, set_m_handle (Some hnd) d),
                       {| host := h2;
                          trace := trace w
                                   ++ [opening_log; EvOpen 0 hnd; attaching_log;
                                       detached; claimed; claim_failed_log] |}))
               ∧ (0 <= r2 →
                  Attach interface d w
                  = Ret ((true,
                          set_m_device_attached true
                            (set_m_active_interface interface
                               (set_m_handle (Some hnd) d))),
                         {| host := h2;
                            trace := trace w
                                     ++ [opening_log; EvOpen 0 hnd;
                                         attaching_log; detached;
                                         claimed] |}))))).
Proof.
  split; [|split; [|split; [|split]]].
  4:{ intros Hatt Hne cfg Hcfg.
      rewrite (Attach_other_interface interface d w) by done. split.
      { intros Hif. unfold ChangeInterface, ChangeInterface_refused.
        rewrite Hatt. cbn [negb]. run.
        rewrite (config_at_lookup d 0 cfg w) by done. run.
        by destruct (Z.leb_spec (bNumInterfaces (cfg_header cfg)) interface);
          [|lia]. }
      intros Hif h r0 h0 r1 h1 r2 h2 Hh Hc0 Hc1 Hc2 released detached claimed.
      subst released detached claimed.
      rewrite (ChangeInterface_run interface d w cfg h r0 r1 r2 h0 h1 h2)
        by done.
      split.
      { intros Hr0 Hnd. rewrite release_refused by done.
        by destruct (Z.eqb_spec r0 0); [lia|]. }
      intros Hr0. rewrite release_accepted by done. split.
      { intros Hr1 Hnf Hns. rewrite detach_driver_refused by done.
        by destruct (Z.eqb_spec r1 0); [lia|]. }
      intros Hr1. rewrite detach_driver_tolerated by done. split.
      - intros Hr2. destruct (Z.ltb_spec r2 0); [|lia].
        by destruct (Z.eqb_spec r2 0); [lia|].
      - intros Hr2. by destruct (Z.ltb_spec r2 0); [lia|]. }
  4:{ intros Hatt ret hnd h0 Hopen. unfold Attach. rewrite Hatt.
      cbn [andb negb]. run.
      unfold host_open. cbn [host trace m_device set_m_device_attached].
      rewrite Hopen, !(set_m_device_attached_id d false) by done.
      split.
      { intros Hret. destruct (Z.eqb_spec ret 0); [done|]. cbn [negb]. run.
        by rewrite <- !app_assoc. }
      intros -> r1 h1 r2 h2 Hc1 Hc2.
      cbn [Z.eqb negb]. run.
      rewrite (AttachInterface_run interface (set_m_handle (Some hnd) d) _
                 hnd r1 r2 h1 h2) by done.
      cbn [host trace]. split.
      { intros Hr1 Hnf Hns. rewrite detach_driver_refused by done.
        destruct (Z.eqb_spec r1 0); [lia|]. cbn [negb]. run.
        by rewrite <- !app_assoc. }
      intros Hr1. rewrite detach_driver_tolerated by done. split.
      - intros Hr2. destruct (Z.ltb_spec r2 0); [|lia].
        destruct (Z.eqb_spec r2 0); [lia|]. cbn [negb]. run.
        by rewrite <- !app_assoc.
      - intros Hr2. destruct (Z.ltb_spec r2 0); [lia|].
        cbn [Z.eqb negb]. run. by rewrite <- !app_assoc. }
  - intros Hatt ->. unfold Attach. rewrite Hatt, Z.eqb_refl. done.
  - intros Hatt Hne. unfold Attach. rewrite Hatt.
    destruct (Z.eqb_spec interface (m_active_interface d)) as [|_]; [done|].
    cbn [andb negb]. run.
    split. { by destruct (ChangeInterface interface d w) as [[[ret d'] w']|]. }
    intros b d' w'.
    destruct (ChangeInterface interface d w) as [[[ret d''] w'']|] eqn:Hch; [|done].
    intros [= <- <- <-].
    destruct (ChangeInterface_returns_0 _ _ _ _ _ _ Hch)
      as (Ha & Hh & _ & (evs & Htr & Hevs) & Hok).
    split; [congruence|]. split; [done|].
    split. { exists evs. split; [done|]. eapply Forall_impl; [exact Hevs|].
             intros e He. by apply interface_event_facts. }
    intros Hb. apply Z.eqb_eq in Hb. by apply Hok.
  - intros Hatt. unfold Attach. rewrite Hatt. cbn [andb negb]. run.
    unfold host_open. cbn [host trace m_device set_m_device_attached].
    destruct (libusb_open (m_device d) (host w)) as [[ret hnd] h] eqn:Hopen.
    destruct (Z.eqb_spec ret 0) as [->|Hret]; cbn [negb]; run.
    + set (d1 := set_m_handle _ _). set (w1 := {| host := h |}).
      destruct (AttachInterface_returns interface d1 w1)
        as (r & d' & w' & evs & Hrun & Htr & Hevs & Hfail & Hok).
      rewrite Hrun.
      destruct (Z.eqb_spec r 0) as [->|Hr]; cbn [negb]; run.
      * destruct (Hok eq_refl) as (-> & r1 & r2 & Hr2 & ->).
        eexists _, _, _, 0, hnd, _. split; [done|]. split.
        { rewrite Htr. unfold w1. cbn [trace]. by rewrite <- !app_assoc. }
        split; [done|]. split; [done|]. intros _.
        split; [done|]. split; [done|]. split; [done|]. by exists r1, r2.
      * rewrite (Hfail Hr).
        eexists _, _, _, 0, hnd, evs. split; [done|]. split.
        { rewrite Htr. unfold w1. cbn [trace]. by rewrite <- !app_assoc. }
        split; [done|]. split; [done|]. intros [=].
    + eexists _, _, _, ret, hnd, [_]. split; [done|]. split.
      { cbn [trace]. by rewrite <- !app_assoc. }
      split; [done|]. split; [|intros [=]]. intros _. split; [done|].
      by repeat constructor.
Qed.
End interfaces.

(** The host refuses to release the interface (-99): the change fails with
    that code and the sample device is left as it was. The composite
    device changes from interface 0 to interface 1, the host finding no
    kernel driver to detach (-5): the old interface is released, the new
    one claimed and recorded. *)
Lemma ChangeInterface_detach_then_attach_witness :
  (∃ w1, ChangeInterface 0 sample_attached (scripted [-99])
         = Ret ((-99, sample_attached), w1)
         ∧ Forall (λ e, is_attach_call e = false) (trace w1))
  ∧ ChangeInterface 1 sample_composite (scripted [0; -5; 0])
    = Ret ((0, set_m_active_interface 1 sample_composite),
           scripted []
           ⊕ [changing_log; detaching_log;
              EvHost (libusb_release_interface (Some 1%N) 0) 0;
              attaching_log;
              EvHost (libusb_detach_kernel_driver (Some 1%N) 1) (-5);
              EvHost (libusb_claim_interface (Some 1%N) 1) 0]).
Proof.
  split.
  - destruct (ChangeInterface_detach_then_attach 0 sample_attached
                (scripted [-99]) sample_config)
      as ((ret & w1 & evs & Hdet & Htr & Hevs & Hneg & _) & _);
      [reflexivity|reflexivity|simpl; lia|].
    vm_compute in Hdet. injection Hdet as <- <-.
    eexists. split; [apply Hneg; lia|].
    by repeat constructor.
  - destruct (ChangeInterface_detach_then_attach 1 sample_composite
                (scripted [0; -5; 0]) sample_composite_config)
      as (_ & _ & Hrun); [reflexivity|reflexivity|simpl; lia|].
    destruct (Hrun 1%N 0 (host (scripted [-5; 0])) (-5) (host (scripted [0]))
                0 (host (scripted [])))
      as (_ & Hreleased); [reflexivity|reflexivity|reflexivity|reflexivity|].
    destruct Hreleased as (_ & Hdetached); [left; lia|].
    destruct Hdetached as (_ & Hclaimed); [right; left; reflexivity|].
    apply Hclaimed. lia.
Defined.

(** Attaching the active interface 0 again changes nothing; the first attach
    of the sample device opens handle 1 and claims interface 0 on it;
    attaching interface 1 of the composite device, which is on interface 0,
    releases interface 0 and claims interface 1. *)
Lemma Attach_idempotent_change_open_witness :
  Attach 0 sample_attached (scripted []) = Ret ((true, sample_attached), scripted [])
  ∧ (∃ d' w', Attach 0 sample_device (scripted []) = Ret ((true, d'), w')
              ∧ m_handle d' = Some 1%N
              ∧ m_active_interface d' = 0)
  ∧ Attach 1 sample_composite (scripted [])
    = Ret ((true, set_m_active_interface 1 sample_composite),
           scripted []
           ⊕ [changing_log; detaching_log;
              EvHost (libusb_release_interface (Some 1%N) 0) 0;
              attaching_log;
              EvHost (libusb_detach_kernel_driver (Some 1%N) 1) 0;
              EvHost (libusb_claim_interface (Some 1%N) 1) 0]).
Proof.
  split; [|split].
  - by apply (Attach_idempotent_change_open 0 sample_attached (scripted [])).
  - destruct (Attach_idempotent_change_open 0 sample_device (scripted []))
      as (_ & _ & Hfirst & _).
    destruct (Hfirst eq_refl)
      as (b & d' & w' & ret & hnd & rest & Hrun & Htr & Hb & _ & Hok).
    pose proof Hrun as Hval. vm_compute in Hval. injection Hval as <- <- <-.
    destruct (Hok eq_refl) as (_ & Hh & Ha & _).
    eexists _, _. split; [exact Hrun|]. split; [reflexivity|exact Ha].
  - destruct (Attach_idempotent_change_open 1 sample_composite (scripted []))
      as (_ & _ & _ & Hother & _).
    destruct (Hother eq_refl ltac:(discriminate) sample_composite_config
                eq_refl) as (_ & Hrun).
    destruct (Hrun ltac:(simpl; lia) 1%N 0 (host (scripted [])) 0
                (host (scripted [])) 0 (host (scripted [])))
      as (_ & Hreleased); [reflexivity|reflexivity|reflexivity|reflexivity|].
    destruct Hreleased as (_ & Hdetached); [left; lia|].
    destruct Hdetached as (_ & Hclaimed); [left; lia|].
    apply Hclaimed. lia.
Defined.

(** ** The transfer endpoint tracker *)

Section tracker.
Context {H : Type} `{!Libusb H}.

(** The switch returns for a completed transfer whenever the completion
    function does, for a failed one whenever the transfer type is one of
    the four the code submits, and always for a vanished device. *)
Lemma transfer_return_value_returns (transfer : libusb_transfer)
    (fn : TransferCommand → M H Z) (cmd : TransferCommand) (w : World H) :
  (tr_status transfer = LIBUSB_TRANSFER_COMPLETED → ∃ rv w1, fn cmd w = Ret (rv, w1)) →
  is_Some (s_transfer_types !! tr_type transfer) →
  ∃ rv w1, transfer_return_value transfer fn cmd w = Ret (rv, w1).
Proof.
  intros Hfn [name Hname]. unfold transfer_return_value, map_at.
  destruct (tr_status transfer); [by apply Hfn|..]; rewrite ?Hname; run; eauto.
Qed.

Lemma HandleTransfer_not_found (transfer : libusb_transfer)
    (fn : TransferCommand → M H Z) (ep : TransferEndpoint) (w : World H) :
  m_transfers ep !! tr_self transfer = None →
  HandleTransfer transfer fn ep w = Ret (ep, w ⊕ [EvLog LERROR "No such transfer"]).
Proof. intros Hl. unfold HandleTransfer. rewrite Hl. by run. Qed.

Lemma HandleTransfer_found (transfer : libusb_transfer)
    (fn : TransferCommand → M H Z) (ep : TransferEndpoint)
    (cmd : TransferCommand) (w : World H) :
  m_transfers ep !! tr_self transfer = Some cmd →
  HandleTransfer transfer fn ep w
  = match transfer_return_value transfer fn cmd w with
    | Ret (rv, w1) =>
        Ret ({| m_transfers := delete (tr_self transfer) (m_transfers ep) |},
             w1 ⊕ [EvOnTransferComplete cmd rv; EvDeleteBuffer (tr_self transfer)])
    | Fault f => Fault f
    end.
Proof.
  intros Hl. unfold HandleTransfer. rewrite Hl. run.
  destruct (transfer_return_value transfer fn cmd w) as [[rv w1]|]; [|done].
  cbn [trace]. by rewrite <- app_assoc.
Qed.

(** C1. When the tracker holds an entry for the transfer handle, the
    transfer type is one known to [s_transfer_types], and the completion
    function returns where it is called (status completed), [HandleTransfer]
    returns: it calls [OnTransferComplete] on the owning command once, with
    the value of the status switch, as the last thing it does to the
    outside before releasing the buffer, and erases exactly that entry. Any
    later call with the same handle, whatever its completion function and
    status, finds nothing: it only logs "No such transfer", calls nothing
    and leaves the tracker as it is. *)
Theorem HandleTransfer_exactly_once (transfer : libusb_transfer)
    (fn : TransferCommand → M H Z) (ep : TransferEndpoint)
    (cmd : TransferCommand) (w : World H) :
  m_transfers ep !! tr_self transfer = Some cmd →
  is_Some (s_transfer_types !! tr_type transfer) →
  (tr_status transfer = LIBUSB_TRANSFER_COMPLETED →
   ∃ rv w1, fn cmd w = Ret (rv, w1)) →
  ∃ rv w1 ep' w',
    transfer_return_value transfer fn cmd w = Ret (rv, w1)
    ∧ HandleTransfer transfer fn ep w = Ret (ep', w')
    ∧ w' = w1 ⊕ [EvOnTransferComplete cmd rv; EvDeleteBuffer (tr_self transfer)]
    ∧ m_transfers ep' = delete (tr_self transfer) (m_transfers ep)
    ∧ m_transfers ep' !! tr_self transfer = None
    ∧ (∀ k, k ≠ tr_self transfer → m_transfers ep' !! k = m_transfers ep !! k)
    ∧ ∀ (transfer2 : libusb_transfer) (fn2 : TransferCommand → M H Z)
        (w2 : World H),
        tr_self transfer2 = tr_self transfer →
        HandleTransfer transfer2 fn2 ep' w2
        = Ret (ep', w2 ⊕ [EvLog LERROR "No such transfer"]).
Proof.
  intros Hl Htype Hfn.
  destruct (transfer_return_value_returns transfer fn cmd w Hfn Htype)
    as (rv & w1 & Hrv).
  exists rv, w1. eexists _, _. split; [done|].
  split. { rewrite (HandleTransfer_found _ _ _ _ _ Hl), Hrv. done. }
  split; [done|]. cbn [m_transfers]. split; [done|].
  split; [apply lookup_delete_eq|].
  split. { intros k Hk. by apply lookup_delete_ne. }
  intros transfer2 fn2 w2 Heq. apply HandleTransfer_not_found.
  cbn [m_transfers]. rewrite Heq. apply lookup_delete_eq.
Qed.

(** C3. For a transfer found in the tracker, the value handed to
    [OnTransferComplete] is: the result of the supplied completion
    function when the status is completed; -5 for error, cancelled,
    timed-out and overflow and -7004 for stall (after the error log, given
    a transfer type known to [s_transfer_types]); [IPC_ENOENT] for
    no-device. The three error codes are pairwise distinct. *)
Theorem HandleTransfer_classifies (transfer : libusb_transfer)
    (fn : TransferCommand → M H Z) (ep : TransferEndpoint)
    (cmd : TransferCommand) (w : World H) :
  m_transfers ep !! tr_self transfer = Some cmd →
  let ep' := {| m_transfers := delete (tr_self transfer) (m_transfers ep) |} in
  let completes (w1 : World H) (rv : Z) :=
    HandleTransfer transfer fn ep w
    = Ret (ep', w1 ⊕ [EvOnTransferComplete cmd rv;
                      EvDeleteBuffer (tr_self transfer)]) in
  let failed :=
    w ⊕ [EvLog LERROR
           "[%04x:%04x %d] %s transfer (endpoint 0x%02x) failed: %s"] in
  match tr_status transfer with
  | LIBUSB_TRANSFER_COMPLETED =>
      (∀ rv w1, fn cmd w = Ret (rv, w1) → completes w1 rv)
      ∧ (∀ f, fn cmd w = Fault f → HandleTransfer transfer fn ep w = Fault f)
  | LIBUSB_TRANSFER_ERROR
  | LIBUSB_TRANSFER_CANCELLED
  | LIBUSB_TRANSFER_TIMED_OUT
  | LIBUSB_TRANSFER_OVERFLOW =>
      is_Some (s_transfer_types !! tr_type transfer) → completes failed (-5)
  | LIBUSB_TRANSFER_STALL =>
      is_Some (s_transfer_types !! tr_type transfer) → completes failed (-7004)
  | LIBUSB_TRANSFER_NO_DEVICE => completes w IPC_ENOENT
  end
  ∧ IPC_ENOENT ≠ -5 ∧ IPC_ENOENT ≠ -7004 ∧ IPC_ENOENT < 0.
Proof.
  intros Hl ep' completes failed. subst completes failed ep'. cbn beta.
  rewrite (HandleTransfer_found _ _ _ _ _ Hl).
  split; [|done].
  unfold transfer_return_value, map_at.
  destruct (tr_status transfer).
  - split.
    + by intros rv w1 ->.
    + by intros f ->.
  - intros [name ->]. run. cbn [trace]. by rewrite <- !app_assoc.
  - intros [name ->]. run. cbn [trace]. by rewrite <- !app_assoc.
  - intros [name ->]. run. cbn [trace]. by rewrite <- !app_assoc.
  - intros [name ->]. run. cbn [trace]. by rewrite <- !app_assoc.
  - by run.
  - intros [name ->]. run. cbn [trace]. by rewrite <- !app_assoc.
Qed.
End tracker.

(** The host reports the tracked sample transfer as cancelled: the command
    completes with -5 and leaves the tracker; a second report of the same
    handle only logs. *)
Lemma HandleTransfer_exactly_once_witness :
  ∃ ep' w',
    HandleTransfer (reported LIBUSB_TRANSFER_CANCELLED 0 sample_transfer)
      (TransferCallback_fn (reported LIBUSB_TRANSFER_CANCELLED 0 sample_transfer))
      sample_endpoint_tracker (scripted [])
    = Ret (ep', w')
    ∧ m_transfers ep' !! 16%N = None
    ∧ EvOnTransferComplete (Bulk sample_bulk) (-5) ∈ trace w'
    ∧ HandleTransfer (reported LIBUSB_TRANSFER_CANCELLED 0 sample_transfer)
        (TransferCallback_fn (reported LIBUSB_TRANSFER_CANCELLED 0 sample_transfer))
        ep' w'
      = Ret (ep', w' ⊕ [EvLog LERROR "No such transfer"]).
Proof.
  destruct (HandleTransfer_exactly_once
              (reported LIBUSB_TRANSFER_CANCELLED 0 sample_transfer)
              (TransferCallback_fn (reported LIBUSB_TRANSFER_CANCELLED 0 sample_transfer))
              sample_endpoint_tracker (Bulk sample_bulk) (scripted []))
    as (rv & w1 & ep' & w' & Hrv & Hrun & Hw & _ & Hgone & _ & Hagain);
    [reflexivity|by eexists|discriminate|].
  vm_compute in Hrv. injection Hrv as <- <-.
  exists ep', w'. split; [exact Hrun|]. split; [exact Hgone|].
  split. { rewrite Hw. cbn [trace]. apply list_elem_of_In. simpl. tauto. }
  by apply Hagain.
Defined.

(** The host reports the tracked sample transfer as stalled: the command
    completes with -7004. *)
Lemma HandleTransfer_classifies_witness :
  HandleTransfer (reported LIBUSB_TRANSFER_STALL 0 sample_transfer)
    (TransferCallback_fn (reported LIBUSB_TRANSFER_STALL 0 sample_transfer))
    sample_endpoint_tracker (scripted [])
  = Ret ({| m_transfers := delete 16%N (m_transfers sample_endpoint_tracker) |},
         scripted []
           ⊕ [EvLog LERROR "[%04x:%04x %d] %s transfer (endpoint 0x%02x) failed: %s"]
           ⊕ [EvOnTransferComplete (Bulk sample_bulk) (-7004); EvDeleteBuffer 16]).
Proof.
  destruct (HandleTransfer_classifies
              (reported LIBUSB_TRANSFER_STALL 0 sample_transfer)
              (TransferCallback_fn (reported LIBUSB_TRANSFER_STALL 0 sample_transfer))
              sample_endpoint_tracker (Bulk sample_bulk) (scripted []))
    as [Hstall _]; [reflexivity|].
  apply Hstall. by eexists.
Defined.

(** ** Cancelling *)

Section cancel.
Context {H : Type} `{!Libusb H}.

Lemma pending_transfers_tracked (ep : TransferEndpoint) (p : N) :
  p ∈ pending_transfers ep ↔ is_Some (m_transfers ep !! p).
Proof.
  unfold pending_transfers. rewrite merge_sort_Permutation.
  rewrite list_elem_of_fmap. split.
  - intros [[k cmd] [-> Hin]]. apply elem_of_map_to_list in Hin. by exists cmd.
  - intros [cmd Hl]. exists (p, cmd). split; [done|].
    by apply elem_of_map_to_list.
Qed.

Lemma pending_transfers_NoDup (ep : TransferEndpoint) :
  NoDup (pending_transfers ep).
Proof.
  unfold pending_transfers. rewrite merge_sort_Permutation.
  apply NoDup_fst_map_to_list.
Qed.

Lemma CancelTransfers_step_run (p : N) (ep : TransferEndpoint) (w : World H) :
  CancelTransfers_step p ep w
  = Ret (ep,
         {| host := (libusb_call (libusb_cancel_transfer p) (host w)).2;
            trace := trace w
                     ++ [EvHost (libusb_cancel_transfer p)
                           (libusb_call (libusb_cancel_transfer p) (host w)).1] |}).
Proof. unfold CancelTransfers_step. run. by rewrite host_call_run. Qed.

(** The loop asks the host to cancel each listed transfer, in order, and
    passes the tracker through. *)
Lemma CancelTransfers_loop (ps : list N) (ep : TransferEndpoint) (w : World H) :
  ∃ rs w',
    for_each ps CancelTransfers_step ep w = Ret (ep, w')
    ∧ length rs = length ps
    ∧ trace w'
      = trace w ++ zip_with (λ p r, EvHost (libusb_cancel_transfer p) r) ps rs.
Proof.
  revert w. induction ps as [|p ps IH]; intros w.
  - exists [], w. split; [done|]. split; [done|]. simpl. by rewrite app_nil_r.
  - cbn [for_each]. unfold mbind, M_bind. rewrite CancelTransfers_step_run.
    set (r := (libusb_call (libusb_cancel_transfer p) (host w)).1).
    set (w1 := {| host := _ |}).
    destruct (IH w1) as (rs & w' & Hrun & Hlen & Htr).
    exists (r :: rs), w'. split; [done|]. split; [simpl; lia|].
    rewrite Htr. unfold w1. cbn [trace zip_with]. by rewrite <- app_assoc.
Qed.

Lemma set_endpoint_id (endpoint : Z) (ep : TransferEndpoint) (d : LibusbDevice) :
  m_transfer_endpoints d !! endpoint = Some ep → set_endpoint endpoint ep d = d.
Proof.
  intros Hl. unfold set_endpoint, set_m_transfer_endpoints.
  rewrite insert_id by done. by destruct d.
Qed.

(** C5 (amended). For an endpoint number that has no tracker,
    [CancelTransfer] returns [IPC_ENOENT]: the device and the host are
    untouched and the only event is its own log line. For an endpoint
    that has a tracker it returns [IPC_SUCCESS] and leaves the device,
    every tracker entry included, as it was: with an empty tracker
    nothing else happens, otherwise the host is asked exactly once to
    cancel each tracked transfer, and nothing else. *)
Theorem CancelTransfer_by_tracker (endpoint : Z) (d : LibusbDevice) (w : World H) :
  let announce :=
    EvLog LINFO "[%04x:%04x %d] Cancelling transfers (endpoint 0x%x)" in
  (m_transfer_endpoints d !! endpoint = None →
   CancelTransfer endpoint d w = Ret ((IPC_ENOENT, d), w ⊕ [announce]))
  ∧ (∀ ep,
       m_transfer_endpoints d !! endpoint = Some ep →
       (m_transfers ep = ∅ →
        CancelTransfer endpoint d w = Ret ((IPC_SUCCESS, d), w ⊕ [announce]))
       ∧ (m_transfers ep ≠ ∅ →
          ∃ w' rs,
            CancelTransfer endpoint d w = Ret ((IPC_SUCCESS, d), w')
            ∧ length rs = length (pending_transfers ep)
            ∧ trace w'
              = trace w
                ++ [announce; EvLog LINFO "Cancelling %ld transfer(s)"]
                ++ zip_with (λ p r, EvHost (libusb_cancel_transfer p) r)
                     (pending_transfers ep) rs
            ∧ NoDup (pending_transfers ep)
            ∧ ∀ p, p ∈ pending_transfers ep ↔ is_Some (m_transfers ep !! p))).
Proof.
  intros announce. subst announce. split.
  - intros Hl. unfold CancelTransfer. run. by rewrite Hl.
  - intros ep Hl. unfold CancelTransfer. run. rewrite Hl.
    unfold CancelTransfers. split.
    + intros Hempty. rewrite bool_decide_eq_true_2
        by (by rewrite Hempty, map_size_empty).
      run. by rewrite set_endpoint_id.
    + intros Hne. rewrite bool_decide_eq_false_2
        by (by rewrite map_size_empty_iff).
      run.
      match goal with
      | |- context [for_each _ _ _ ?w0] =>
          destruct (CancelTransfers_loop (pending_transfers ep) ep w0)
            as (rs & w' & Hrun & Hlen & Htr)
      end.
      rewrite Hrun.
      exists w', rs. rewrite set_endpoint_id by done.
      split; [done|]. split; [done|]. split.
      { rewrite Htr. cbn [trace]. by rewrite <- !app_assoc. }
      split; [apply pending_transfers_NoDup|].
      apply pending_transfers_tracked.
Qed.
End cancel.

(** On the sample device with the one tracked transfer on endpoint 0x81,
    cancelling endpoint 2 (no tracker) answers [IPC_ENOENT] and cancelling
    endpoint 0x81 asks the host to cancel transfer 16. *)
Lemma CancelTransfer_by_tracker_witness :
  let d := set_m_transfer_endpoints {[ 129 := sample_endpoint_tracker ]} sample_attached in
  CancelTransfer 2 d (scripted [])
  = Ret ((IPC_ENOENT, d),
         scripted []
           ⊕ [EvLog LINFO "[%04x:%04x %d] Cancelling transfers (endpoint 0x%x)"])
  ∧ ∃ w', CancelTransfer 129 d (scripted []) = Ret ((IPC_SUCCESS, d), w')
          ∧ EvHost (libusb_cancel_transfer 16) 0 ∈ trace w'.
Proof.
  intros d. split.
  - by apply (CancelTransfer_by_tracker 2 d (scripted [])).
  - destruct (CancelTransfer_by_tracker 129 d (scripted [])) as [_ Htracked].
    destruct (Htracked sample_endpoint_tracker eq_refl) as [_ Hsome].
    destruct Hsome as (w' & rs & Hrun & _ & _ & _ & _).
    { intros Hempty. by apply (f_equal (λ m, m !! 16%N)) in Hempty. }
    exists w'. split; [exact Hrun|].
    vm_compute in Hrun. injection Hrun as <-. cbn [trace].
    apply list_elem_of_In. simpl. tauto.
Defined.

(** C5 (as stated, refuted). Endpoint 0x81 of the sample device has no
    pending transfer once its only transfer has been submitted and reported
    complete, yet [CancelTransfer] then answers [IPC_SUCCESS], not
    [IPC_ENOENT]: the emptied tracker is still in [m_transfer_endpoints]. *)
Lemma CancelTransfer_drained_endpoint_succeeds :
  ∃ d1 w1 d2 w2 w3,
    SubmitTransfer_Bulk sample_bulk sample_attached (scripted []) = Ret ((0, d1), w1)
    ∧ TransferCallback (reported LIBUSB_TRANSFER_COMPLETED 64 sample_transfer) d1 w1
      = Ret (d2, w2)
    ∧ m_transfers (endpoint_ref 129 d2) = ∅
    ∧ CancelTransfer 129 d2 w2 = Ret ((IPC_SUCCESS, d2), w3)
    ∧ IPC_SUCCESS ≠ IPC_ENOENT.
Proof.
  let o1 := eval vm_compute in
              (SubmitTransfer_Bulk sample_bulk sample_attached (scripted [])) in
  lazymatch o1 with
  | Ret ((_, ?d1), ?w1) =>
      let o2 := eval vm_compute in
                  (TransferCallback
                     (reported LIBUSB_TRANSFER_COMPLETED 64 sample_transfer) d1 w1) in
      lazymatch o2 with
      | Ret (?d2, ?w2) =>
          let o3 := eval vm_compute in (CancelTransfer 129 d2 w2) in
          lazymatch o3 with
          | Ret (_, ?w3) => exists d1, w1, d2, w2, w3
          end
      end
  end.
  repeat split; try (vm_compute; reflexivity). done.
Qed.

(** ** Completion of isochronous transfers *)

Section isochronous.
Context {H : Type} `{!Libusb H}.

Lemma SetPacketReturnValue_loop (transfer : libusb_transfer) (iso_msg : IsoMessage)
    (l : list libusb_iso_packet_descriptor) (k : nat) (w : World H) :
  (∀ i pkt, l !! i = Some pkt →
            tr_iso_packet_desc transfer !! (k + i)%nat = Some pkt) →
  for_each (seqZ (Z.of_nat k) (Z.of_nat (length l)))
    (SetPacketReturnValue_step transfer iso_msg) tt w
  = Ret (tt,
         w ⊕ imap (λ i pkt,
                     EvSetPacketReturnValue iso_msg (Z.of_nat (k + i))
                       (pkt_actual_length pkt)) l).
Proof.
  revert k w. induction l as [|pkt l IH]; intros k w Hl.
  - simpl. run. by rewrite world_nil.
  - cbn [length]. rewrite seqZ_cons by lia. cbn [for_each].
    unfold mbind at 1, M_bind at 1.
    unfold SetPacketReturnValue_step at 1, subscript. run.
    destruct (Z.ltb_spec (Z.of_nat k) 0); [lia|].
    rewrite Nat2Z.id.
    specialize (Hl 0%nat pkt eq_refl) as Hk. rewrite Nat.add_0_r in Hk.
    rewrite Hk. run.
    replace (Z.succ (Z.of_nat k)) with (Z.of_nat (S k)) by lia.
    replace (Z.pred (Z.of_nat (S (length l)))) with (Z.of_nat (length l)) by lia.
    rewrite IH.
    + cbn [trace host imap]. rewrite <- app_assoc. cbn [app].
      rewrite Nat.add_0_r. do 5 f_equal.
      apply imap_ext. intros i x _. simpl. do 2 f_equal. lia.
    + intros i x Hi. replace (S k + i)%nat with (k + S i)%nat by lia.
      by apply Hl.
Qed.

Lemma iso_packet_desc_loop (cmd : IsoMessage) (l : list Z)
    (acc descs : list libusb_iso_packet_descriptor) (w w' : World H) :
  for_each l (iso_packet_desc_step cmd) acc w = Ret (descs, w') →
  length descs = (length acc + length l)%nat ∧ w' = w.
Proof.
  revert acc. induction l as [|i l IH]; intros acc.
  - simpl. run. intros [= <- <-]. split; [lia|done].
  - cbn [for_each]. unfold mbind at 1, M_bind at 1.
    unfold iso_packet_desc_step at 1, subscript. run.
    destruct (i <? 0); [done|].
    destruct (packet_sizes cmd !! Z.to_nat i) as [size|]; [|done]. run.
    intros Hrun. apply IH in Hrun as [Hlen ->]. split; [|done].
    rewrite Hlen, length_app. simpl. lia.
Qed.

(** An isochronous submission that returns has handed the host a transfer
    of isochronous type with a descriptor for each packet of the message. *)
Lemma SubmitTransfer_Iso_descriptors (cmd : IsoMessage) (d d' : LibusbDevice)
    (w w' : World H) (ret : Z) :
  m_device_attached d = true →
  SubmitTransfer_Iso cmd d w = Ret ((ret, d'), w') →
  ∃ t, last (trace w') = Some (EvHost (libusb_submit_transfer t) ret)
       ∧ tr_type t = LIBUSB_TRANSFER_TYPE_ISOCHRONOUS
       ∧ tr_endpoint t = iso_endpoint cmd
       ∧ num_packets cmd <= Z.of_nat (length (tr_iso_packet_desc t)).
Proof.
  intros Hatt. unfold SubmitTransfer_Iso. rewrite Hatt. cbn [negb]. run.
  unfold host_alloc_transfer. cbn [host trace].
  destruct (libusb_alloc_transfer (num_packets cmd) (host w)) as [p h]. run.
  unfold for_size_t.
  match goal with
  | |- context [for_each ?l ?body ?acc ?w0] =>
      destruct (for_each l body acc w0) as [[descs w1]|] eqn:Hloop; [|done]
  end.
  apply iso_packet_desc_loop in Hloop as [Hlen ->].
  rewrite host_call_run. cbn [fst snd host trace]. intros [= <- _ <-].
  eexists. cbn [trace]. rewrite last_snoc. split; [done|].
  split; [done|]. split; [done|]. cbn [tr_iso_packet_desc].
  rewrite Hlen, length_seqZ. simpl. lia.
Qed.

(** C2. When [TransferCallback] handles a tracked isochronous transfer
    that the host reports as completed, the tracked command is the
    isochronous message, and the transfer carries a descriptor for each of
    its packets, the callback returns: after [FillBuffer] it calls
    [SetPacketReturnValue (i, actual_length of packet i)] for every
    [i < num_packets], in order, and then [OnTransferComplete] with
    [IPC_SUCCESS], which is 0, whatever the lengths are; the entry leaves
    the tracker. *)
Theorem TransferCallback_isochronous_returns_0
    (transfer : libusb_transfer) (d : LibusbDevice) (w : World H)
    (iso_msg : IsoMessage) :
  m_transfers (endpoint_ref (tr_endpoint transfer) d) !! tr_self transfer
  = Some (Iso iso_msg) →
  tr_type transfer = LIBUSB_TRANSFER_TYPE_ISOCHRONOUS →
  tr_status transfer = LIBUSB_TRANSFER_COMPLETED →
  num_packets iso_msg <= Z.of_nat (length (tr_iso_packet_desc transfer)) →
  TransferCallback transfer d w
  = Ret (set_endpoint (tr_endpoint transfer)
           {| m_transfers :=
                delete (tr_self transfer)
                  (m_transfers (endpoint_ref (tr_endpoint transfer) d)) |} d,
         w ⊕ ([EvFillBuffer (Iso iso_msg) (iso_length iso_msg)]
              ++ imap (λ i pkt,
                         EvSetPacketReturnValue iso_msg (Z.of_nat i)
                           (pkt_actual_length pkt))
                   (take (Z.to_nat (num_packets iso_msg))
                      (tr_iso_packet_desc transfer))
              ++ [EvOnTransferComplete (Iso iso_msg) IPC_SUCCESS;
                  EvDeleteBuffer (tr_self transfer)]))
  ∧ IPC_SUCCESS = 0.
Proof.
  intros Hl Htype Hstatus Hlen. split; [|done].
  unfold TransferCallback. unfold mbind at 1, M_bind at 1.
  rewrite (HandleTransfer_found _ _ _ _ _ Hl).
  unfold transfer_return_value. rewrite Hstatus.
  unfold TransferCallback_fn. rewrite Htype, Z.eqb_refl. run.
  unfold for_size_t.
  set (l := take (Z.to_nat (num_packets iso_msg)) (tr_iso_packet_desc transfer)).
  assert (Hseq : seqZ 0 (num_packets iso_msg)
                 = seqZ (Z.of_nat 0) (Z.of_nat (length l))).
  { unfold l. rewrite length_take. simpl (Z.of_nat 0).
    destruct (Z.le_gt_cases (num_packets iso_msg) 0).
    - rewrite !seqZ_nil by lia. done.
    - f_equal. lia. }
  rewrite Hseq, SetPacketReturnValue_loop.
  - run. cbn [trace]. by rewrite <- !app_assoc.
  - intros i pkt Hi. unfold l in Hi. apply lookup_take_Some in Hi as [Hi _].
    done.
Qed.
End isochronous.

(** The sample isochronous transfer completes with packets of 8, 3 and 0
    bytes: the three lengths are written back and the command completes
    with 0. *)
Lemma TransferCallback_isochronous_returns_0_witness :
  ∃ d', TransferCallback sample_iso_transfer sample_iso_device (scripted [])
        = Ret (d', scripted []
                     ⊕ [EvFillBuffer (Iso sample_iso) 24;
                        EvSetPacketReturnValue sample_iso 0 8;
                        EvSetPacketReturnValue sample_iso 1 3;
                        EvSetPacketReturnValue sample_iso 2 0;
                        EvOnTransferComplete (Iso sample_iso) 0;
                        EvDeleteBuffer 17]).
Proof.
  destruct (TransferCallback_isochronous_returns_0
              sample_iso_transfer sample_iso_device (scripted []) sample_iso)
    as [Hrun _]; [reflexivity|reflexivity|reflexivity|simpl; lia|].
  eexists. exact Hrun.
Defined.

(** ** Control requests handled by the host configuration calls *)

Section control.
Context {H : Type} `{!Libusb H}.

Lemma config_at_0 (d : LibusbDevice) (w : World H) :
  (∃ cfg, config_at d 0 w = Ret (cfg, w))
  ∨ (config_at d 0 w = Fault UndefinedBehaviour ∧ invalid_config d 0 = true).
Proof.
  unfold config_at, invalid_config, subscript, IsValid, Get. run.
  change (Z.to_nat 0) with 0%nat. cbn [Z.ltb Z.compare].
  destruct (m_config_descriptors d !! 0%nat) as [[[cfg|]]|]; run.
  - left. by exists cfg.
  - right. split; [done|]. apply orb_true_r.
  - right. split; [done|]. apply orb_true_r.
Qed.

(** [ChangeInterface] stops only on reading the first configuration of a
    device that has none or could not read it. *)
Lemma ChangeInterface_fault (interface : Z) (d : LibusbDevice) (w : World H)
    (f : fault) :
  ChangeInterface interface d w = Fault f →
  f = UndefinedBehaviour ∧ invalid_config d 0 = true.
Proof.
  unfold ChangeInterface, ChangeInterface_refused. run.
  destruct (m_device_attached d); cbn [negb]; run; [|done].
  destruct (config_at_0 d w) as [[cfg ->]|[-> Hinv]]; [|by intros [= <-]].
  destruct (bNumInterfaces (cfg_header cfg) <=? interface); [done|].
  match goal with
  | |- context [DetachInterface d ?w0] =>
      destruct (DetachInterface_returns d w0) as (ret & w1 & ? & -> & _)
  end.
  destruct (ret <? 0); [done|].
  by destruct (AttachInterface_returns interface d w1) as (? & ? & ? & ? & -> & _).
Qed.

Lemma SubmitTransfer_SetAltSetting_intercepted (cmd : CtrlMessage)
    (d : LibusbDevice) (w : World H) :
  ∃ ret w' evs,
    SubmitTransfer_SetAltSetting cmd d w = Ret ((ret, d), w')
    ∧ trace w' = trace w ++ evs
    ∧ intercepted cmd ret evs.
Proof.
  unfold SubmitTransfer_SetAltSetting, SetAltSetting, intercepted.
  destruct (m_device_attached d); cbn [negb]; run.
  - rewrite host_call_run. cbn [host trace].
    set (c := libusb_set_interface_alt_setting _ _ _).
    destruct (libusb_call c (host w)) as [ret h]. cbn [fst snd].
    destruct (Z.eqb_spec ret 0) as [->|Hret]; run.
    + eexists _, _, _. split; [done|]. cbn [trace]. rewrite <- !app_assoc.
      split; [done|]. split; [by cbn [app]; repeat constructor|].
      split; [|done]. intros _. eexists [_], c.
      split; [done|]. split; [done|]. by repeat constructor.
    + eexists _, _, _. split; [done|]. cbn [trace]. rewrite <- !app_assoc.
      split; [done|]. split; [by cbn [app]; repeat constructor|].
      split; [done|]. intros _. by cbn [app]; repeat constructor.
  - exists LIBUSB_ERROR_NOT_FOUND, w, []. split; [done|].
    split; [by rewrite app_nil_r|]. split; [done|]. split; [done|]. done.
Qed.

(** The trace of an intercepted request. *)
Lemma SubmitTransfer_Ctrl_intercepted (cmd : CtrlMessage) (d : LibusbDevice)
    (w : World H) :
  is_set_interface cmd || is_set_configuration cmd = true →
  match SubmitTransfer_Ctrl cmd d w with
  | Ret ((ret, d'), w') =>
      m_transfer_endpoints d' = m_transfer_endpoints d
      ∧ ∃ evs,
          trace w' = trace w ++ evs
          ∧ intercepted cmd ret evs
          ∧ (m_device_attached d = false →
             ret = LIBUSB_ERROR_NOT_FOUND ∧ evs = [])
          ∧ (m_device_attached d = true → is_set_interface cmd = false →
             evs = EvHost (libusb_set_configuration (m_handle d) (value cmd)) ret
                   :: (if ret =? 0
                       then [EvEnqueueIPCReply (ctrl_ios_request cmd)
                               (ctrl_length cmd)]
                       else []))
  | Fault f =>
      f = UndefinedBehaviour
      ∧ is_set_interface cmd = true
      ∧ u8 (index cmd) ≠ m_active_interface d
      ∧ invalid_config d 0 = true
  end.
Proof.
  intros Hreq. unfold SubmitTransfer_Ctrl.
  destruct (m_device_attached d) eqn:Hatt; cbn [negb].
  2:{ run. split; [done|]. exists []. split; [by rewrite app_nil_r|].
      split; [by repeat split|]. split; [done|]. done. }
  destruct (is_set_interface cmd) eqn:Hsi.
  - destruct (Z.eqb_spec (u8 (index cmd)) (m_active_interface d)) as [Hidx|Hidx];
      cbn [negb].
    + destruct (SubmitTransfer_SetAltSetting_intercepted cmd d w)
        as (ret & w' & evs & -> & Htr & Hint).
      split; [done|]. exists evs. split; [done|]. split; [done|].
      split; [done|]. done.
    + run.
      destruct (ChangeInterface (u8 (index cmd)) d w) as [[[r d1] w1]|f] eqn:Hch.
      2:{ destruct (ChangeInterface_fault _ _ _ _ Hch) as [-> Hinv]. done. }
      destruct (ChangeInterface_returns_0 _ _ _ _ _ _ Hch)
        as (_ & _ & Heps & (evs1 & Htr1 & Hevs1) & _).
      assert (Hquiet : Forall (λ e, is_transfer_call e = false
                                    ∧ is_reply e = false) evs1).
      { eapply Forall_impl; [exact Hevs1|].
        intros e He. by destruct (interface_event_facts e He) as (_ & ? & ?). }
      destruct (Z.ltb_spec r 0) as [Hr|Hr]; run.
      * split; [done|]. eexists. split.
        { cbn [trace]. rewrite Htr1, <- app_assoc. done. }
        split; [|split; [done|done]].
        split; [|split; [lia|intros _]].
        -- apply Forall_app. split; [|by repeat constructor].
           eapply Forall_impl; [exact Hquiet|]. by intros e [? _].
        -- apply Forall_app. split; [|by repeat constructor].
           eapply Forall_impl; [exact Hquiet|]. by intros e [_ ?].
      * destruct (SubmitTransfer_SetAltSetting_intercepted cmd d1 w1)
          as (ret & w' & evs & -> & Htr & Hcall & Hzero & Hnonzero).
        split; [done|]. exists (evs1 ++ evs). split.
        { rewrite Htr, Htr1, <- app_assoc. done. }
        split; [|split; [done|done]].
        split; [|split].
        -- apply Forall_app. split; [|done].
           eapply Forall_impl; [exact Hquiet|]. by intros e [? _].
        -- intros Hret. destruct (Hzero Hret) as (evs0 & c & -> & Hc & Hevs0).
           exists (evs1 ++ evs0), c. split; [by rewrite <- app_assoc|].
           split; [done|]. apply Forall_app. split; [|done].
           eapply Forall_impl; [exact Hquiet|]. by intros e [_ ?].
        -- intros Hret. apply Forall_app. split; [|by apply Hnonzero].
           eapply Forall_impl; [exact Hquiet|]. by intros e [_ ?].
  - cbn [orb] in Hreq. rewrite Hreq. run.
    rewrite host_call_run. cbn [host trace].
    set (c := libusb_set_configuration _ _).
    destruct (libusb_call c (host w)) as [ret h]. cbn [fst snd].
    destruct (Z.eqb_spec ret 0) as [->|Hret]; run.
    + split; [done|]. eexists. split.
      { cbn [trace]. rewrite <- !app_assoc. done. }
      split; [|split; [done|done]].
      split; [by cbn [app]; repeat constructor|]. split; [|done].
      intros _. exists [], c. done.
    + split; [done|]. eexists. split; [done|].
      split; [|split; [done|]].
      * split; [by repeat constructor|]. split; [done|].
        intros _. by repeat constructor.
      * intros _ _. by destruct (Z.eqb_spec ret 0).
Qed.

(** The runs of [SetAltSetting] and of the tail of the SET_INTERFACE case
    on an attached device. *)
Lemma SetAltSetting_run (alt_setting : Z) (d : LibusbDevice) (w : World H) :
  m_device_attached d = true →
  let c := libusb_set_interface_alt_setting
             (m_handle d) (m_active_interface d) alt_setting in
  SetAltSetting alt_setting d w
  = Ret ((libusb_call c (host w)).1,
         {| host := (libusb_call c (host w)).2;
            trace := trace w
                     ++ [setting_alt_log; EvHost c (libusb_call c (host w)).1] |}).
Proof.
  intros Hatt c. subst c. unfold SetAltSetting. rewrite Hatt. cbn [negb]. run.
  rewrite host_call_run. cbn [host trace]. by rewrite <- !app_assoc.
Qed.

Lemma SubmitTransfer_SetAltSetting_run (cmd : CtrlMessage) (d : LibusbDevice)
    (w : World H) :
  m_device_attached d = true →
  let c := libusb_set_interface_alt_setting
             (m_handle d) (m_active_interface d) (u8 (value cmd)) in
  let r := (libusb_call c (host w)).1 in
  SubmitTransfer_SetAltSetting cmd d w
  = Ret ((r, d),
         {| host := (libusb_call c (host w)).2;
            trace := trace w
                     ++ [setting_alt_log; EvHost c r]
                     ++ (if r =? 0
                         then [EvEnqueueIPCReply (ctrl_ios_request cmd)
                                 (ctrl_length cmd)]
                         else []) |}).
Proof.
  intros Hatt c r. subst c r. unfold SubmitTransfer_SetAltSetting.
  unfold mbind at 1, M_bind at 1.
  rewrite (SetAltSetting_run (u8 (value cmd)) d w Hatt). cbn zeta.
  destruct (_ =? 0); run; by rewrite <- ?app_assoc.
Qed.

(** C4. A control message that is the standard host-to-device
    SET_INTERFACE (recipient interface) or SET_CONFIGURATION (recipient
    device) request is handled without a host control transfer: when
    [SubmitTransfer] returns, the trackers are as before, no transfer was
    allocated or submitted, and there is a reply exactly when the result is
    0: one reply, with the command's length as return value, enqueued
    right after the host's configuration call returned 0. An attached
    device asked to SET_CONFIGURATION calls [libusb_set_configuration]
    and nothing else of the host; an unattached device calls nothing.
    [SubmitTransfer] stops without returning only where a SET_INTERFACE
    for another interface reads the first configuration of a device that
    has none.

    An attached device asked to SET_INTERFACE on its active interface
    ([wIndex] cut to a byte) calls [libusb_set_interface_alt_setting] for
    that interface with [wValue] cut to a byte, and nothing else of the
    host; the call's answer is the result, and the reply follows the call
    exactly when the answer is 0. For another interface it first runs
    [ChangeInterface]: a negative result of that is returned after an error
    log, with no alternate setting selected and no reply; otherwise the
    alternate setting is selected on the interface that is now active, in
    the same way. By the answers of the host, on an open handle and for an
    interface of the first configuration: a refused release is returned and
    nothing else is called; after an accepted release and claim the
    alternate setting is selected on the new interface, and its answer is
    the result. *)
Theorem SubmitTransfer_Ctrl_intercepts (cmd : CtrlMessage) (d : LibusbDevice)
    (w : World H) :
  is_set_interface cmd || is_set_configuration cmd = true →
  match SubmitTransfer_Ctrl cmd d w with
  | Ret ((ret, d'), w') =>
      (m_transfer_endpoints d' = m_transfer_endpoints d
       ∧ ∃ evs,
           trace w' = trace w ++ evs
           ∧ intercepted cmd ret evs
           ∧ (m_device_attached d = false →
              ret = LIBUSB_ERROR_NOT_FOUND ∧ evs = [])
           ∧ (m_device_attached d = true → is_set_interface cmd = false →
              evs = EvHost (libusb_set_configuration (m_handle d) (value cmd)) ret
                    :: (if ret =? 0
                        then [EvEnqueueIPCReply (ctrl_ios_request cmd)
                                (ctrl_length cmd)]
                        else [])))
      ∧ (m_device_attached d = true → is_set_interface cmd = true →
         u8 (index cmd) = m_active_interface d →
         d' = d
         ∧ trace w'
           = trace w
             ++ [setting_alt_log;
                 EvHost (libusb_set_interface_alt_setting
                           (m_handle d) (m_active_interface d)
                           (u8 (value cmd))) ret]
             ++ (if ret =? 0
                 then [EvEnqueueIPCReply (ctrl_ios_request cmd)
                         (ctrl_length cmd)]
                 else []))
      ∧ (m_device_attached d = true → is_set_interface cmd = true →
         u8 (index cmd) ≠ m_active_interface d →
         ∃ r w1,
           ChangeInterface (u8 (index cmd)) d w = Ret ((r, d'), w1)
           ∧ (r < 0 →
              ret = r ∧ host w' = host w1
              ∧ trace w' = trace w1 ++ [change_failed_log])
           ∧ (0 <= r →
              trace w'
              = trace w1
                ++ [setting_alt_log;
                    EvHost (libusb_set_interface_alt_setting
                              (m_handle d') (m_active_interface d')
                              (u8 (value cmd))) ret]
                ++ (if ret =? 0
                    then [EvEnqueueIPCReply (ctrl_ios_request cmd)
                            (ctrl_length cmd)]
                    else [])))
  | Fault f =>
      f = UndefinedBehaviour
      ∧ is_set_interface cmd = true
      ∧ u8 (index cmd) ≠ m_active_interface d
      ∧ invalid_config d 0 = true
  end
  ∧ (∀ cfg h r0 h0 r1 h1 r2 h2 r3 h3,
       m_device_attached d = true → is_set_interface cmd = true →
       u8 (index cmd) ≠ m_active_interface d →
       m_config_descriptors d !! 0%nat = Some {| m_descriptor := Some cfg |} →
       u8 (index cmd) < bNumInterfaces (cfg_header cfg) →
       m_handle d = Some h →
       libusb_call (libusb_release_interface (Some h) (m_active_interface d))
         (host w) = (r0, h0) →
       libusb_call (libusb_detach_kernel_driver (Some h) (u8 (index cmd))) h0
       = (r1, h1) →
       libusb_call (libusb_claim_interface (Some h) (u8 (index cmd))) h1
       = (r2, h2) →
       libusb_call
         (libusb_set_interface_alt_setting
            (Some h) (u8 (index cmd)) (u8 (value cmd))) h2
       = (r3, h3) →
       let released :=
         EvHost (libusb_release_interface (Some h) (m_active_interface d)) r0 in
       let detached :=
         EvHost (libusb_detach_kernel_driver (Some h) (u8 (index cmd))) r1 in
       let claimed :=
         EvHost (libusb_claim_interface (Some h) (u8 (index cmd))) r2 in
       let selected :=
         EvHost (libusb_set_interface_alt_setting
                   (Some h) (u8 (index cmd)) (u8 (value cmd))) r3 in
       (r0 < 0 → r0 ≠ LIBUSB_ERROR_NO_DEVICE →
        SubmitTransfer_Ctrl cmd d w
        = Ret ((r0, d),
               {| host := h0;
                  trace := trace w
                           ++ [changing_log; detaching_log; released;
                               release_failed_log; change_failed_log] |}))
       ∧ (0 <= r0 ∨ r0 = LIBUSB_ERROR_NO_DEVICE →
          0 <= r1 ∨ r1 = LIBUSB_ERROR_NOT_FOUND
          ∨ r1 = LIBUSB_ERROR_NOT_SUPPORTED →
          0 <= r2 →
          SubmitTransfer_Ctrl cmd d w
          = Ret ((r3, set_m_active_interface (u8 (index cmd)) d),
                 {| host := h3;
                    trace := trace w
                             ++ [changing_log; detaching_log; released;
                                 attaching_log; detached; claimed;
                                 setting_alt_log; selected]
                             ++ (if r3 =? 0
                                 then [EvEnqueueIPCReply (ctrl_ios_request cmd)
                                         (ctrl_length cmd)]
                                 else []) |}))).
Proof.
  intros Hreq. split.
  - pose proof (SubmitTransfer_Ctrl_intercepted cmd d w Hreq) as Hold.
    destruct (SubmitTransfer_Ctrl cmd d w) as [[[ret d'] w']|f] eqn:Hrun;
      [|done].
    split; [done|]. split.
    + intros Hatt Hsi Hidx. revert Hrun. unfold SubmitTransfer_Ctrl.
      rewrite Hatt, Hsi. cbn [negb].
      destruct (Z.eqb_spec (u8 (index cmd)) (m_active_interface d)); [|done].
      cbn [negb]. rewrite (SubmitTransfer_SetAltSetting_run cmd d w Hatt).
      cbn zeta. by intros [= <- <- <-].
    + intros Hatt Hsi Hidx. revert Hrun. unfold SubmitTransfer_Ctrl.
      rewrite Hatt, Hsi. cbn [negb].
      destruct (Z.eqb_spec (u8 (index cmd)) (m_active_interface d)); [done|].
      cbn [negb]. unfold mbind at 1, M_bind at 1.
      destruct (ChangeInterface (u8 (index cmd)) d w) as [[[r d1] w1]|]
        eqn:Hch; [|done].
      destruct (ChangeInterface_returns_0 _ _ _ _ _ _ Hch) as (Hatt1 & _).
      rewrite Hatt in Hatt1.
      destruct (Z.ltb_spec r 0) as [Hr|Hr].
      * run. intros [= <- <- <-]. exists r, w1. split; [done|].
        split; [done|]. intros ?. lia.
      * rewrite (SubmitTransfer_SetAltSetting_run cmd d1 w1 Hatt1). cbn zeta.
        intros [= <- <- <-]. exists r, w1. split; [done|].
        split; [intros ?; lia|]. done.
  - intros cfg h r0 h0 r1 h1 r2 h2 r3 h3 Hatt Hsi Hidx Hcfg Hif Hh
      Hc0 Hc1 Hc2 Hc3 released detached claimed selected.
    subst released detached claimed selected.
    unfold SubmitTransfer_Ctrl. rewrite Hatt, Hsi. cbn [negb].
    destruct (Z.eqb_spec (u8 (index cmd)) (m_active_interface d)); [done|].
    cbn [negb].
    split; [intros Hr0 Hnd|intros Hr0 Hr1 Hr2];
      unfold mbind at 1, M_bind at 1;
      rewrite (ChangeInterface_run (u8 (index cmd)) d w cfg h r0 r1 r2 h0 h1 h2)
        by done.
    + rewrite release_refused by done.
      destruct (Z.ltb_spec r0 0); [|lia]. run. by rewrite <- !app_assoc.
    + rewrite release_accepted, detach_driver_tolerated by done.
      destruct (Z.ltb_spec r2 0); [lia|]. change (0 <? 0) with false. cbn iota.
      rewrite SubmitTransfer_SetAltSetting_run by done.
      cbn [m_handle m_active_interface set_m_active_interface host trace].
      rewrite Hh, Hc3. cbn [fst snd]. by rewrite <- !app_assoc.
Qed.
End control.

(** The scenario of the specification: SET_CONFIGURATION with value 1 on the
    attached sample device, the host answering 0. The reply carries the
    transfer length (0) and the only host call is [libusb_set_configuration].
    SET_INTERFACE on the active interface 0 of the sample device: the host
    is asked for alternate setting 0 of interface 0, and its answer -9 is
    returned with no reply. SET_INTERFACE for interface 1 of the composite
    device, which is on interface 0: interface 0 is released, interface 1
    claimed, its alternate setting 0 selected, and the reply carries the
    transfer length (4). *)
Lemma SubmitTransfer_Ctrl_intercepts_witness :
  (SubmitTransfer_Ctrl sample_set_configuration sample_attached (scripted [])
   = Ret ((0, sample_attached),
          scripted [] ⊕ [EvHost (libusb_set_configuration (Some 1%N) 1) 0;
                         EvEnqueueIPCReply sample_request 0])
   ∧ intercepted sample_set_configuration 0
       [EvHost (libusb_set_configuration (Some 1%N) 1) 0;
        EvEnqueueIPCReply sample_request 0])
  ∧ (∃ w', SubmitTransfer_Ctrl sample_set_interface sample_attached
             (scripted [-9])
           = Ret ((-9, sample_attached), w')
           ∧ trace w'
             = [setting_alt_log;
                EvHost (libusb_set_interface_alt_setting (Some 1%N) 0 0) (-9)])
  ∧ SubmitTransfer_Ctrl sample_set_interface_1 sample_composite (scripted [])
    = Ret ((0, set_m_active_interface 1 sample_composite),
           scripted []
           ⊕ [changing_log; detaching_log;
              EvHost (libusb_release_interface (Some 1%N) 0) 0;
              attaching_log;
              EvHost (libusb_detach_kernel_driver (Some 1%N) 1) 0;
              EvHost (libusb_claim_interface (Some 1%N) 1) 0;
              setting_alt_log;
              EvHost (libusb_set_interface_alt_setting (Some 1%N) 1 0) 0;
              EvEnqueueIPCReply sample_request 4]).
Proof.
  split; [|split].
  - destruct (SubmitTransfer_Ctrl_intercepts sample_set_configuration
                sample_attached (scripted []) eq_refl) as [Hspec _].
    destruct (SubmitTransfer_Ctrl sample_set_configuration sample_attached
                (scripted [])) as [[[ret d'] w']|] eqn:Hrun.
    + vm_compute in Hrun. injection Hrun as <- <- <-.
      destruct Hspec as ((_ & evs & Htr & Hint & _ & Hcall) & _).
      split; [reflexivity|].
      rewrite (Hcall eq_refl eq_refl) in Hint. exact Hint.
    + vm_compute in Hrun. discriminate.
  - destruct (SubmitTransfer_Ctrl_intercepts sample_set_interface
                sample_attached (scripted [-9]) eq_refl) as [Hspec _].
    destruct (SubmitTransfer_Ctrl sample_set_interface sample_attached
                (scripted [-9])) as [[[ret d'] w']|] eqn:Hrun.
    + destruct Hspec as (_ & Hsame & _).
      destruct (Hsame eq_refl eq_refl eq_refl) as [-> Htr].
      pose proof Hrun as Hval. vm_compute in Hval. injection Hval as <- _.
      exists w'. split; [reflexivity|]. exact Htr.
    + vm_compute in Hrun. discriminate.
  - destruct (SubmitTransfer_Ctrl_intercepts sample_set_interface_1
                sample_composite (scripted []) eq_refl) as [_ Hrun].
    destruct (Hrun sample_composite_config 1%N
                0 (host (scripted [])) 0 (host (scripted []))
                0 (host (scripted [])) 0 (host (scripted [])))
      as (_ & Hok);
      [reflexivity|reflexivity|discriminate|reflexivity|reflexivity
      |reflexivity|reflexivity|reflexivity|reflexivity|reflexivity|].
    apply Hok; [left; lia|left; lia|lia].
Defined.

(** ** Control transfers live on endpoint 0 *)

Section endpoint_0.
Context {H : Type} `{!Libusb H}.

Lemma set_endpoint_lookup (e e' : Z) (ep : TransferEndpoint) (d : LibusbDevice) :
  m_transfer_endpoints (set_endpoint e ep d) !! e'
  = if decide (e = e') then Some ep else m_transfer_endpoints d !! e'.
Proof.
  unfold set_endpoint. cbn [m_transfer_endpoints set_m_transfer_endpoints].
  apply lookup_insert.
Qed.

Lemma endpoint_ref_set_endpoint (e : Z) (ep : TransferEndpoint) (d : LibusbDevice) :
  endpoint_ref e (set_endpoint e ep d) = ep.
Proof.
  unfold endpoint_ref. rewrite set_endpoint_lookup.
  by destruct (decide (e = e)).
Qed.

(** A submission to endpoint [e] touches the tracker of [e] only. *)
Lemma SubmitTransfer_Bulk_frame (cmd : BulkMessage) (d d' : LibusbDevice)
    (w w' : World H) (ret e : Z) :
  SubmitTransfer_Bulk cmd d w = Ret ((ret, d'), w') → e ≠ bulk_endpoint cmd →
  m_transfer_endpoints d' !! e = m_transfer_endpoints d !! e.
Proof.
  unfold SubmitTransfer_Bulk.
  destruct (m_device_attached d); cbn [negb]; run; [|by intros [= _ <- _]].
  unfold host_alloc_transfer. cbn [host trace].
  destruct (libusb_alloc_transfer 0 (host w)) as [p h]. run.
  rewrite host_call_run. cbn [fst snd]. intros [= _ <- _] He.
  rewrite set_endpoint_lookup. cbn [tr_endpoint filled_transfer].
  by destruct (decide (bulk_endpoint cmd = e)).
Qed.

Lemma SubmitTransfer_Intr_frame (cmd : IntrMessage) (d d' : LibusbDevice)
    (w w' : World H) (ret e : Z) :
  SubmitTransfer_Intr cmd d w = Ret ((ret, d'), w') → e ≠ intr_endpoint cmd →
  m_transfer_endpoints d' !! e = m_transfer_endpoints d !! e.
Proof.
  unfold SubmitTransfer_Intr.
  destruct (m_device_attached d); cbn [negb]; run; [|by intros [= _ <- _]].
  unfold host_alloc_transfer. cbn [host trace].
  destruct (libusb_alloc_transfer 0 (host w)) as [p h]. run.
  rewrite host_call_run. cbn [fst snd]. intros [= _ <- _] He.
  rewrite set_endpoint_lookup. cbn [tr_endpoint filled_transfer].
  by destruct (decide (intr_endpoint cmd = e)).
Qed.

Lemma SubmitTransfer_Iso_frame (cmd : IsoMessage) (d d' : LibusbDevice)
    (w w' : World H) (ret e : Z) :
  SubmitTransfer_Iso cmd d w = Ret ((ret, d'), w') → e ≠ iso_endpoint cmd →
  m_transfer_endpoints d' !! e = m_transfer_endpoints d !! e.
Proof.
  unfold SubmitTransfer_Iso.
  destruct (m_device_attached d); cbn [negb]; run; [|by intros [= _ <- _]].
  unfold host_alloc_transfer. cbn [host trace].
  destruct (libusb_alloc_transfer (num_packets cmd) (host w)) as [p h]. run.
  match goal with
  | |- context [for_size_t ?n ?body ?acc ?w0] =>
      destruct (for_size_t n body acc w0) as [[descs w1]|]; [|done]
  end.
  rewrite host_call_run. cbn [fst snd]. intros [= _ <- _] He.
  rewrite set_endpoint_lookup. cbn [tr_endpoint].
  by destruct (decide (iso_endpoint cmd = e)).
Qed.

(** Every transfer object that a submission hands to the host has one of
    the four types of [s_transfer_types], so that the error log of
    [HandleTransfer] finds its name. *)
Lemma submitted_transfer_type_known (d d' : LibusbDevice) (w w' : World H) (ret : Z) :
  m_device_attached d = true →
  (∀ cmd, SubmitTransfer_Bulk cmd d w = Ret ((ret, d'), w') →
          ∃ t, last (trace w') = Some (EvHost (libusb_submit_transfer t) ret)
               ∧ is_Some (s_transfer_types !! tr_type t))
  ∧ (∀ cmd, SubmitTransfer_Intr cmd d w = Ret ((ret, d'), w') →
            ∃ t, last (trace w') = Some (EvHost (libusb_submit_transfer t) ret)
                 ∧ is_Some (s_transfer_types !! tr_type t))
  ∧ (∀ cmd, SubmitTransfer_Iso cmd d w = Ret ((ret, d'), w') →
            ∃ t, last (trace w') = Some (EvHost (libusb_submit_transfer t) ret)
                 ∧ is_Some (s_transfer_types !! tr_type t))
  ∧ (∀ cmd, is_set_interface cmd = false → is_set_configuration cmd = false →
            SubmitTransfer_Ctrl cmd d w = Ret ((ret, d'), w') →
            ∃ t, last (trace w') = Some (EvHost (libusb_submit_transfer t) ret)
                 ∧ is_Some (s_transfer_types !! tr_type t)).
Proof.
  intros Hatt. split; [|split; [|split]].
  - intros cmd. unfold SubmitTransfer_Bulk. rewrite Hatt. cbn [negb]. run.
    unfold host_alloc_transfer. cbn [host trace].
    destruct (libusb_alloc_transfer 0 (host w)) as [p h]. run.
    rewrite host_call_run. cbn [fst snd host trace]. intros [= <- _ <-].
    eexists. cbn [trace]. rewrite last_snoc. split; [done|]. by eexists.
  - intros cmd. unfold SubmitTransfer_Intr. rewrite Hatt. cbn [negb]. run.
    unfold host_alloc_transfer. cbn [host trace].
    destruct (libusb_alloc_transfer 0 (host w)) as [p h]. run.
    rewrite host_call_run. cbn [fst snd host trace]. intros [= <- _ <-].
    eexists. cbn [trace]. rewrite last_snoc. split; [done|]. by eexists.
  - intros cmd. unfold SubmitTransfer_Iso. rewrite Hatt. cbn [negb]. run.
    unfold host_alloc_transfer. cbn [host trace].
    destruct (libusb_alloc_transfer (num_packets cmd) (host w)) as [p h]. run.
    match goal with
    | |- context [for_size_t ?n ?body ?acc ?w0] =>
        destruct (for_size_t n body acc w0) as [[descs w1]|]; [|done]
    end.
    rewrite host_call_run. cbn [fst snd host trace]. intros [= <- _ <-].
    eexists. cbn [trace]. rewrite last_snoc. split; [done|]. by eexists.
  - intros cmd Hsi Hsc. unfold SubmitTransfer_Ctrl.
    rewrite Hatt, Hsi, Hsc. cbn [negb]. run.
    unfold host_alloc_transfer. cbn [host trace].
    destruct (libusb_alloc_transfer 0 (host w)) as [p h]. run.
    rewrite host_call_run. cbn [fst snd host trace]. intros [= <- _ <-].
    eexists. cbn [trace]. rewrite last_snoc. split; [done|]. by eexists.
Qed.

(** C10. An attached device submits every control message that is not
    one of the two intercepted requests as a host control transfer whose
    tracker entry goes to endpoint 0 (under the address of the transfer
    object), whatever the request type and [wIndex] are, and
    [CtrlTransferCallback] looks the transfer up in the tracker of
    endpoint 0, whatever endpoint the transfer object names; neither
    touches the tracker of another endpoint. Bulk, interrupt and
    isochronous submissions and [TransferCallback] for an endpoint other
    than 0 leave the tracker of endpoint 0 as it is. *)
Theorem control_transfers_on_endpoint_0 (d : LibusbDevice) (w : World H) :
  (∀ cmd : CtrlMessage,
     m_device_attached d = true →
     is_set_interface cmd = false → is_set_configuration cmd = false →
     ∃ p t ret w',
       SubmitTransfer_Ctrl cmd d w
       = Ret ((ret, set_endpoint 0 (AddTransfer (Ctrl cmd) p (endpoint_ref 0 d)) d),
              w')
       ∧ trace w'
         = trace w ++ [EvCopyFromEmu (ctrl_data_address cmd) (ctrl_length cmd);
                       EvAllocTransfer 0 p;
                       EvHost (libusb_submit_transfer t) ret]
       ∧ tr_self t = p ∧ tr_endpoint t = 0
       ∧ tr_type t = LIBUSB_TRANSFER_TYPE_CONTROL
       ∧ tr_callback t = Some cb_CtrlTransferCallback
       ∧ (m_transfers (endpoint_ref 0 d) !! p = None →
          m_transfers
            (endpoint_ref 0
               (set_endpoint 0 (AddTransfer (Ctrl cmd) p (endpoint_ref 0 d)) d))
          !! p = Some (Ctrl cmd))
       ∧ ∀ e, e ≠ 0 →
              m_transfer_endpoints
                (set_endpoint 0 (AddTransfer (Ctrl cmd) p (endpoint_ref 0 d)) d)
              !! e = m_transfer_endpoints d !! e)
  ∧ (∀ transfer : libusb_transfer,
       CtrlTransferCallback transfer d w
       = match HandleTransfer transfer (CtrlTransferCallback_fn transfer)
                 (endpoint_ref 0 d) w with
         | Ret (ep, w') => Ret (set_endpoint 0 ep d, w')
         | Fault f => Fault f
         end
       ∧ (∀ cmd,
            m_transfers (endpoint_ref 0 d) !! tr_self transfer = Some cmd →
            tr_status transfer = LIBUSB_TRANSFER_COMPLETED →
            CtrlTransferCallback transfer d w
            = Ret (set_endpoint 0
                     {| m_transfers :=
                          delete (tr_self transfer)
                            (m_transfers (endpoint_ref 0 d)) |} d,
                   w ⊕ [EvFillBuffer cmd (tr_actual_length transfer);
                        EvOnTransferComplete cmd (tr_length transfer);
                        EvDeleteBuffer (tr_self transfer)]))
       ∧ ∀ d' w' e,
           CtrlTransferCallback transfer d w = Ret (d', w') → e ≠ 0 →
           m_transfer_endpoints d' !! e = m_transfer_endpoints d !! e)
  ∧ (∀ ret d' w',
       (∀ cmd, SubmitTransfer_Bulk cmd d w = Ret ((ret, d'), w') →
               bulk_endpoint cmd ≠ 0 →
               m_transfer_endpoints d' !! 0 = m_transfer_endpoints d !! 0)
       ∧ (∀ cmd, SubmitTransfer_Intr cmd d w = Ret ((ret, d'), w') →
                 intr_endpoint cmd ≠ 0 →
                 m_transfer_endpoints d' !! 0 = m_transfer_endpoints d !! 0)
       ∧ (∀ cmd, SubmitTransfer_Iso cmd d w = Ret ((ret, d'), w') →
                 iso_endpoint cmd ≠ 0 →
                 m_transfer_endpoints d' !! 0 = m_transfer_endpoints d !! 0))
  ∧ (∀ transfer d' w',
       TransferCallback transfer d w = Ret (d', w') →
       tr_endpoint transfer ≠ 0 →
       m_transfer_endpoints d' !! 0 = m_transfer_endpoints d !! 0).
Proof.
  split; [|split; [|split]].
  - intros cmd Hatt Hsi Hsc. unfold SubmitTransfer_Ctrl.
    rewrite Hatt, Hsi, Hsc. cbn [negb]. run.
    unfold host_alloc_transfer. cbn [host trace].
    destruct (libusb_alloc_transfer 0 (host w)) as [p h]. run.
    rewrite host_call_run. cbn [host trace fst snd].
    eexists p, _, _, _. split; [done|]. split.
    { cbn [trace]. by rewrite <- !app_assoc. }
    split; [done|]. split; [done|]. split; [done|]. split; [done|]. split.
    + intros Hfresh. rewrite endpoint_ref_set_endpoint.
      unfold AddTransfer, emplace. cbn [m_transfers]. rewrite Hfresh.
      apply lookup_insert_eq.
    + intros e He. rewrite set_endpoint_lookup.
      by destruct (decide (0 = e)).
  - intros transfer. split; [|split].
    + unfold CtrlTransferCallback. run.
      by destruct (HandleTransfer _ _ _ _) as [[ep w']|].
    + intros cmd Hl Hst. unfold CtrlTransferCallback. run.
      rewrite (HandleTransfer_found _ _ _ _ _ Hl).
      unfold transfer_return_value, CtrlTransferCallback_fn. rewrite Hst.
      run. cbn [trace]. by rewrite <- !app_assoc.
    + intros d' w' e. unfold CtrlTransferCallback. run.
      destruct (HandleTransfer _ _ _ _) as [[ep w1]|]; [|done].
      intros [= <- _] He. rewrite set_endpoint_lookup.
      by destruct (decide (0 = e)).
  - intros ret d' w'. split; [|split]; intros cmd Hrun He.
    + by apply (SubmitTransfer_Bulk_frame _ _ _ _ _ _ _ Hrun).
    + by apply (SubmitTransfer_Intr_frame _ _ _ _ _ _ _ Hrun).
    + by apply (SubmitTransfer_Iso_frame _ _ _ _ _ _ _ Hrun).
  - intros transfer d' w'. unfold TransferCallback. run.
    destruct (HandleTransfer _ _ _ _) as [[ep w1]|]; [|done].
    intros [= <- _] He. rewrite set_endpoint_lookup.
    by destruct (decide (tr_endpoint transfer = 0)).
Qed.
End endpoint_0.

(** GET_DESCRIPTOR is a device-to-host request: on the attached sample
    device it is tracked on endpoint 0 under the address 16 of its transfer
    object, and the bulk transfer to endpoint 0x81 does not land there. *)
Lemma control_transfers_on_endpoint_0_witness :
  (∃ ret d' w',
     SubmitTransfer_Ctrl sample_get_descriptor sample_attached (scripted [])
     = Ret ((ret, d'), w')
     ∧ m_transfers (endpoint_ref 0 d') !! 16%N = Some (Ctrl sample_get_descriptor))
  ∧ ∃ ret d' w',
      SubmitTransfer_Bulk sample_bulk sample_attached (scripted [])
      = Ret ((ret, d'), w')
      ∧ m_transfer_endpoints d' !! 0 = None.
Proof.
  destruct (control_transfers_on_endpoint_0 sample_attached (scripted []))
    as (Hctrl & _ & Hother & _).
  split.
  - destruct (Hctrl sample_get_descriptor eq_refl eq_refl eq_refl)
      as (p & t & ret & w' & Hrun & Htr & _ & _ & _ & _ & Htracked & _).
    assert (p = 16%N) as ->.
    { pose proof Hrun as Hval.
      apply (f_equal (λ o, match o with
                           | Ret (_, w) => trace w
                           | Fault _ => []
                           end)) in Hval.
      cbn beta iota in Hval. rewrite Htr in Hval. vm_compute in Hval.
      by injection Hval as Hp _. }
    eexists _, _, _. split; [exact Hrun|]. apply Htracked. reflexivity.
  - destruct (SubmitTransfer_Bulk sample_bulk sample_attached (scripted []))
      as [[[ret d'] w']|] eqn:Hrun; [|vm_compute in Hrun; discriminate].
    exists ret, d', w'. split; [done|].
    rewrite (proj1 (Hother ret d' w') sample_bulk Hrun); [reflexivity|].
    simpl. lia.
Defined.

(** * Further properties *)

(** ** Decoding the device identifier *)

(** X1. The identifier of a constructed device decodes back into its four
    fields: the vendor id is [m_id >> 32], the product id the next 16 bits,
    the bus number the next 8 and the device address the low 8 bits. *)
Theorem device_id_fields (device : libusb_device)
    (descriptor : libusb_device_descriptor) :
  is_u16 (idVendor descriptor) → is_u16 (idProduct descriptor) →
  is_u8 (libusb_get_bus_number device) →
  is_u8 (libusb_get_device_address device) →
  let id := m_id (LibusbDevice_new device descriptor) in
  Z.shiftr id 32 = idVendor descriptor
  ∧ Z.land (Z.shiftr id 16) (Z.ones 16) = idProduct descriptor
  ∧ Z.land (Z.shiftr id 8) (Z.ones 8) = libusb_get_bus_number device
  ∧ Z.land id (Z.ones 8) = libusb_get_device_address device
  ∧ 0 <= id < 2 ^ 48.
Proof.
  intros Hv Hp Hb Ha id. subst id. cbn [m_id LibusbDevice_new].
  rewrite make_id_positional by done.
  unfold is_u16, is_u8 in *.
  rewrite !Z.shiftr_div_pow2, !Z.land_ones by lia.
  set (v := idVendor descriptor) in *. set (p := idProduct descriptor) in *.
  set (b := libusb_get_bus_number device) in *.
  set (a := libusb_get_device_address device) in *.
  clearbody v p b a.
  assert (Hdiv : ∀ x q r n, 0 <= r < n → x = n * q + r → x `div` n = q ∧ x `mod` n = r).
  { intros x q r n Hr ->. split.
    - symmetry. apply (Z.div_unique _ _ _ r); [by left|done].
    - symmetry. apply (Z.mod_unique _ _ q); [by left|done]. }
  destruct (Hdiv (v * 2 ^ 32 + p * 2 ^ 16 + b * 2 ^ 8 + a) v
              (p * 2 ^ 16 + b * 2 ^ 8 + a) (2 ^ 32)) as [-> _]; [lia|lia|].
  destruct (Hdiv (v * 2 ^ 32 + p * 2 ^ 16 + b * 2 ^ 8 + a) (v * 2 ^ 16 + p)
              (b * 2 ^ 8 + a) (2 ^ 16)) as [-> _]; [lia|lia|].
  destruct (Hdiv (v * 2 ^ 32 + p * 2 ^ 16 + b * 2 ^ 8 + a)
              (v * 2 ^ 24 + p * 2 ^ 8 + b) a (2 ^ 8)) as [-> ->]; [lia|lia|].
  destruct (Hdiv (v * 2 ^ 16 + p) v p (2 ^ 16)) as [_ ->]; [lia|lia|].
  destruct (Hdiv (v * 2 ^ 24 + p * 2 ^ 8 + b) (v * 2 ^ 16 + p) b (2 ^ 8))
    as [_ ->]; [lia|lia|].
  repeat split; lia.
Qed.

Lemma device_id_fields_witness :
  Z.shiftr (m_id sample_device) 32 = 1406
  ∧ Z.land (Z.shiftr (m_id sample_device) 16) (Z.ones 16) = 773.
Proof.
  destruct (device_id_fields sample_libusb_device sample_descriptor)
    as (Hv & Hp & _); unfold is_u16, is_u8; simpl; try lia.
  split; [exact Hv|exact Hp].
Defined.

(** ** Descriptor accessors on readable configurations *)

Section descriptor_lists.
Context {H : Type} `{!Libusb H}.

(** An indexed loop over an array whose elements are [l], from offset [k],
    is the loop over [l]. *)
Lemma for_each_subscript {A St} (L l : list A) (body : A → St → M H St)
    (k : nat) (s : St) (w : World H) :
  (∀ i x, l !! i = Some x → L !! (k + i)%nat = Some x) →
  for_each (seqZ (Z.of_nat k) (Z.of_nat (length l)))
    (λ i s, x ← subscript L i; body x s) s w
  = for_each l body s w.
Proof.
  revert k s w. induction l as [|x l IH]; intros k s w Hl; [done|].
  cbn [length]. rewrite seqZ_cons by lia. cbn [for_each].
  unfold mbind at 1 3, M_bind at 1 3. unfold subscript at 1.
  destruct (Z.ltb_spec (Z.of_nat k) 0); [lia|]. rewrite Nat2Z.id.
  specialize (Hl 0%nat x eq_refl) as Hk. rewrite Nat.add_0_r in Hk. rewrite Hk.
  run. destruct (body x s w) as [[s' w']|]; [|done].
  replace (Z.succ (Z.of_nat k)) with (Z.of_nat (S k)) by lia.
  replace (Z.pred (Z.of_nat (S (length l)))) with (Z.of_nat (length l)) by lia.
  apply IH. intros i y Hi. replace (S k + i)%nat with (k + S i)%nat by lia.
  by apply Hl.
Qed.

Lemma for_u8_subscript {A St} (l : list A) (body : A → St → M H St)
    (bound : Z) (s : St) (w : World H) :
  bound = Z.of_nat (length l) → bound < 2 ^ 8 →
  for_u8 bound (λ i s, x ← subscript l i; body x s) s w = for_each l body s w.
Proof.
  intros -> Hlt. unfold for_u8.
  destruct (Z.leb_spec (2 ^ 8) (Z.of_nat (length l))); [lia|].
  by apply (for_each_subscript l l body 0).
Qed.

Lemma for_each_collect {A B} (l : list A) (g : A → list B) (acc : list B)
    (body : A → list B → M H (list B)) (w : World H) :
  (∀ x acc w, x ∈ l → body x acc w = Ret (acc ++ g x, w)) →
  for_each l body acc w = Ret (acc ++ (l ≫= g), w).
Proof.
  revert acc. induction l as [|x l IH]; intros acc Hbody.
  - simpl. run. by rewrite app_nil_r.
  - cbn [for_each]. unfold mbind at 1, M_bind at 1.
    rewrite Hbody by apply list_elem_of_here.
    rewrite IH.
    + by rewrite bind_cons, app_assoc.
    + intros y acc' w' Hy. apply Hbody. by apply list_elem_of_further.
Qed.

(** X2. For a readable configuration whose arrays match their counts,
    [GetInterfaces] returns the descriptor of every alternate setting of
    every interface, interface by interface in array order, and writes
    nothing to the log or the host. *)
Theorem GetInterfaces_all_altsettings (d : LibusbDevice) (config : Z)
    (cfg : libusb_config_descriptor) (w : World H) :
  0 <= config →
  m_config_descriptors d !! Z.to_nat config = Some {| m_descriptor := Some cfg |} →
  well_formed_config cfg →
  GetInterfaces d config w
  = Ret (interface cfg ≫= (λ itf, if_header <$> altsetting itf), w).
Proof.
  intros Hc Hl (Hn & Hlt & Hitfs).
  assert (Hinv : invalid_config d config = false).
  { unfold invalid_config. rewrite Hl. apply orb_false_iff. split; [|done].
    apply lookup_lt_Some in Hl. apply Z.leb_gt. lia. }
  unfold GetInterfaces. rewrite Hinv. unfold mbind at 1, M_bind at 1.
  rewrite (config_at_lookup d config cfg w) by done.
  rewrite (for_u8_subscript (interface cfg)
             (λ itf descriptors,
                for_u8 (num_altsetting itf)
                  (λ a descriptors,
                     alt ← subscript (altsetting itf) a;
                     mret (descriptors ++ [if_header alt]))
                  descriptors)) by done.
  rewrite (for_each_collect _ (λ itf, if_header <$> altsetting itf)); [done|].
  intros itf acc w0 Hin.
  rewrite Forall_forall in Hitfs. destruct (Hitfs itf Hin) as [Ha Halt].
  rewrite (for_u8_subscript (altsetting itf)
             (λ alt descriptors, mret (descriptors ++ [if_header alt]))) by done.
  rewrite (for_each_collect _ (λ alt, [if_header alt])).
  - by do 2 f_equal.
  - done.
Qed.

(** X3. For a readable configuration, an interface number and an alternate
    setting within their arrays and counts, [GetEndpoints] returns the
    endpoint descriptors of that alternate setting, in order, and writes
    nothing to the log or the host. *)
Theorem GetEndpoints_of_altsetting (d : LibusbDevice)
    (config interface_number alt_setting : Z)
    (cfg : libusb_config_descriptor) (itf : libusb_interface)
    (alt : libusb_interface_descriptor) (w : World H) :
  0 <= config →
  m_config_descriptors d !! Z.to_nat config = Some {| m_descriptor := Some cfg |} →
  0 <= interface_number < bNumInterfaces (cfg_header cfg) →
  interface cfg !! Z.to_nat interface_number = Some itf →
  0 <= alt_setting < num_altsetting itf →
  altsetting itf !! Z.to_nat alt_setting = Some alt →
  well_formed_altsetting alt →
  GetEndpoints d config interface_number alt_setting w = Ret (endpoint alt, w).
Proof.
  intros Hc Hl Hi Hitf Ha Halt [Hn Hlt].
  assert (Hinv : invalid_config d config = false).
  { unfold invalid_config. rewrite Hl. apply orb_false_iff. split; [|done].
    apply lookup_lt_Some in Hl. apply Z.leb_gt. lia. }
  assert (Hloop : ∀ w : World H,
             for_u8 (bNumEndpoints (if_header alt))
               (λ i descriptors,
                  ep ← subscript (endpoint alt) i;
                  mret (descriptors ++ [ep])) [] w
             = Ret (endpoint alt, w)).
  { intros w0.
    rewrite (for_u8_subscript (endpoint alt)
               (λ ep descriptors, mret (descriptors ++ [ep]))) by done.
    rewrite (for_each_collect _ (λ ep, [ep])); [|done].
    do 2 f_equal. rewrite app_nil_l.
    clear. induction (endpoint alt) as [|ep l IH]; [done|].
    rewrite bind_cons, IH. done. }
  unfold GetEndpoints. rewrite Hinv. revert Hloop. run. intros Hloop.
  rewrite (config_at_lookup d config cfg w) by done.
  destruct (Z.ltb_spec interface_number (bNumInterfaces (cfg_header cfg))); [|lia].
  unfold subscript at 1. destruct (Z.ltb_spec interface_number 0); [lia|].
  rewrite Hitf. run.
  destruct (Z.ltb_spec alt_setting (num_altsetting itf)); [|lia].
  unfold subscript at 1. destruct (Z.ltb_spec alt_setting 0); [lia|].
  rewrite Halt. run. apply Hloop.
Qed.
End descriptor_lists.

Lemma GetInterfaces_all_altsettings_witness :
  GetInterfaces sample_device 0 (scripted [])
  = Ret ([{| bInterfaceNumber := 0; bAlternateSetting := 0;
             bNumEndpoints := 1; bInterfaceClass := 255 |}], scripted []).
Proof.
  apply (GetInterfaces_all_altsettings sample_device 0 sample_config);
    [lia|reflexivity|].
  split; [reflexivity|]. split; [simpl; lia|].
  by repeat constructor.
Defined.

Lemma GetEndpoints_of_altsetting_witness :
  GetEndpoints sample_device 0 0 0 (scripted []) = Ret ([sample_endpoint], scripted []).
Proof.
  pose (alt := {| if_header := {| bInterfaceNumber := 0; bAlternateSetting := 0;
                                  bNumEndpoints := 1; bInterfaceClass := 255 |};
                  endpoint := [sample_endpoint] |}).
  apply (GetEndpoints_of_altsetting sample_device 0 0 0 sample_config
           {| altsetting := [alt]; num_altsetting := 1 |} alt);
    [lia|reflexivity|simpl; lia|reflexivity|simpl; lia|reflexivity|].
  split; [reflexivity|simpl; lia].
Defined.

(** ** Error paths of attaching and detaching *)

Section interface_errors.
Context {H : Type} `{!Libusb H}.

(** X4. [AttachInterface] never calls the host without a handle (it
    returns -1); it goes on to claim the interface when detaching the kernel
    driver succeeded or failed with LIBUSB_ERROR_NOT_FOUND or
    LIBUSB_ERROR_NOT_SUPPORTED, and records the interface as active exactly
    when the claim is accepted; any other detach error is returned without
    a claim being attempted, and a refused claim is returned as it is. *)
Theorem AttachInterface_tolerated_errors (interface : Z) (d : LibusbDevice)
    (w : World H) :
  (m_handle d = None →
   AttachInterface interface d w
   = Ret ((-1, d),
          w ⊕ [EvLog LERROR "[%04x:%04x] Cannot attach without a valid device handle"]))
  ∧ ∀ h r1 h1 r2 h2,
      m_handle d = Some h →
      libusb_call (libusb_detach_kernel_driver (Some h) interface) (host w) = (r1, h1) →
      libusb_call (libusb_claim_interface (Some h) interface) h1 = (r2, h2) →
      let attaching := EvLog LINFO "[%04x:%04x] Attaching interface %d" in
      let detached := EvHost (libusb_detach_kernel_driver (Some h) interface) r1 in
      let claimed := EvHost (libusb_claim_interface (Some h) interface) r2 in
      (r1 < 0 → r1 ≠ LIBUSB_ERROR_NOT_FOUND → r1 ≠ LIBUSB_ERROR_NOT_SUPPORTED →
       AttachInterface interface d w
       = Ret ((r1, d),
              {| host := h1;
                 trace := trace w
                          ++ [attaching; detached;
                              EvLog LERROR
                                "[%04x:%04x] Failed to detach kernel driver: %s"] |}))
      ∧ (0 <= r1 ∨ r1 = LIBUSB_ERROR_NOT_FOUND ∨ r1 = LIBUSB_ERROR_NOT_SUPPORTED →
         (r2 < 0 →
          AttachInterface interface d w
          = Ret ((r2, d),
                 {| host := h2;
                    trace := trace w
                             ++ [attaching; detached; claimed;
                                 EvLog LERROR
                                   "[%04x:%04x] Couldn't claim interface %d: %s"] |}))
         ∧ (0 <= r2 →
            AttachInterface interface d w
            = Ret ((0, set_m_active_interface interface d),
                   {| host := h2;
                      trace := trace w ++ [attaching; detached; claimed] |}))).
Proof.
  split.
  - intros Hh. unfold AttachInterface. rewrite Hh. by run.
  - intros h r1 h1 r2 h2 Hh Hc1 Hc2 attaching detached claimed.
    subst attaching detached claimed.
    unfold AttachInterface. rewrite Hh, bool_decide_eq_false_2 by done. run.
    rewrite host_call_run. cbn [host trace]. rewrite Hc1. cbn [fst snd].
    split.
    + intros Hneg Hnf Hns.
      destruct (Z.ltb_spec r1 0); [|lia].
      destruct (Z.eqb_spec r1 LIBUSB_ERROR_NOT_FOUND); [done|].
      destruct (Z.eqb_spec r1 LIBUSB_ERROR_NOT_SUPPORTED); [done|].
      cbn [andb negb]. run. by rewrite <- !app_assoc.
    + intros Htol.
      assert ((r1 <? 0) && negb (r1 =? LIBUSB_ERROR_NOT_FOUND)
              && negb (r1 =? LIBUSB_ERROR_NOT_SUPPORTED) = false) as ->.
      { destruct (Z.ltb_spec r1 0); [|done].
        destruct (Z.eqb_spec r1 LIBUSB_ERROR_NOT_FOUND); [done|].
        destruct (Z.eqb_spec r1 LIBUSB_ERROR_NOT_SUPPORTED); [done|]. lia. }
      rewrite host_call_run. cbn [host trace]. rewrite Hc2. cbn [fst snd].
      split; intros Hr2.
      * destruct (Z.ltb_spec r2 0); [|lia]. run. by rewrite <- !app_assoc.
      * destruct (Z.ltb_spec r2 0); [lia|]. run. by rewrite <- !app_assoc.
Qed.

(** X5. [DetachInterface] never calls the host without a handle (it
    returns -1); it reports success when the host released the active
    interface or answered LIBUSB_ERROR_NO_DEVICE, and returns every other
    negative code after logging it. *)
Theorem DetachInterface_tolerated_errors (d : LibusbDevice) (w : World H) :
  (m_handle d = None →
   DetachInterface d w
   = Ret (-1,
          w ⊕ [EvLog LERROR "[%04x:%04x] Cannot detach without a valid device handle"]))
  ∧ ∀ h r h1,
      m_handle d = Some h →
      libusb_call (libusb_release_interface (Some h) (m_active_interface d)) (host w)
      = (r, h1) →
      let detaching := EvLog LINFO "[%04x:%04x] Detaching interface %d" in
      let released :=
        EvHost (libusb_release_interface (Some h) (m_active_interface d)) r in
      (0 <= r ∨ r = LIBUSB_ERROR_NO_DEVICE →
       DetachInterface d w
       = Ret (0, {| host := h1; trace := trace w ++ [detaching; released] |}))
      ∧ (r < 0 → r ≠ LIBUSB_ERROR_NO_DEVICE →
         DetachInterface d w
         = Ret (r, {| host := h1;
                      trace := trace w
                               ++ [detaching; released;
                                   EvLog LERROR
                                     "[%04x:%04x] Failed to release interface %d: %s"] |})).
Proof.
  split.
  - intros Hh. unfold DetachInterface. rewrite Hh. by run.
  - intros h r h1 Hh Hc detaching released. subst detaching released.
    unfold DetachInterface. rewrite Hh, bool_decide_eq_false_2 by done. run.
    rewrite host_call_run. cbn [host trace]. rewrite Hc. cbn [fst snd].
    split.
    + intros Htol.
      assert ((r <? 0) && negb (r =? LIBUSB_ERROR_NO_DEVICE) = false) as ->.
      { destruct (Z.ltb_spec r 0); [|done].
        destruct (Z.eqb_spec r LIBUSB_ERROR_NO_DEVICE); [done|]. lia. }
      run. by rewrite <- !app_assoc.
    + intros Hneg Hnd.
      destruct (Z.ltb_spec r 0); [|lia].
      destruct (Z.eqb_spec r LIBUSB_ERROR_NO_DEVICE); [done|].
      cbn [andb negb]. run. by rewrite <- !app_assoc.
Qed.
End interface_errors.

(** The kernel driver is not attached (LIBUSB_ERROR_NOT_FOUND, -5): the
    interface is claimed all the same. *)
Lemma AttachInterface_tolerated_errors_witness :
  ∃ w', AttachInterface 0 sample_attached (scripted [-5; 0])
        = Ret ((0, set_m_active_interface 0 sample_attached), w').
Proof.
  destruct (AttachInterface_tolerated_errors 0 sample_attached (scripted [-5; 0]))
    as [_ Hh].
  edestruct (Hh 1%N) as [_ Htol]; [reflexivity|reflexivity|reflexivity|].
  destruct Htol as [_ Hok]; [right; left; reflexivity|].
  eexists. apply Hok. lia.
Defined.

(** The device has vanished (LIBUSB_ERROR_NO_DEVICE, -4): detaching reports
    success. *)
Lemma DetachInterface_tolerated_errors_witness :
  ∃ w', DetachInterface sample_attached (scripted [-4]) = Ret (0, w').
Proof.
  destruct (DetachInterface_tolerated_errors sample_attached (scripted [-4]))
    as [_ Hh].
  edestruct (Hh 1%N) as [Htol _]; [reflexivity|reflexivity|].
  eexists. apply Htol. by right.
Defined.

(** ** Guards *)

Section guards.
Context {H : Type} `{!Libusb H}.

(** X6. On a device that is not attached, [ChangeInterface],
    [SetAltSetting] and the four [SubmitTransfer] overloads all return
    LIBUSB_ERROR_NOT_FOUND and do nothing else: no host call, no log, no
    reply, no change of the device. On an attached device,
    [ChangeInterface] to an interface number that is not below
    [bNumInterfaces] of the first configuration is refused in the same
    way. *)
Theorem unattached_operations_refused (d : LibusbDevice) (w : World H) :
  (m_device_attached d = false →
   (∀ interface,
      ChangeInterface interface d w = Ret ((LIBUSB_ERROR_NOT_FOUND, d), w))
   ∧ (∀ alt_setting, SetAltSetting alt_setting d w = Ret (LIBUSB_ERROR_NOT_FOUND, w))
   ∧ (∀ cmd, SubmitTransfer_Ctrl cmd d w = Ret ((LIBUSB_ERROR_NOT_FOUND, d), w))
   ∧ (∀ cmd, SubmitTransfer_Bulk cmd d w = Ret ((LIBUSB_ERROR_NOT_FOUND, d), w))
   ∧ (∀ cmd, SubmitTransfer_Intr cmd d w = Ret ((LIBUSB_ERROR_NOT_FOUND, d), w))
   ∧ (∀ cmd, SubmitTransfer_Iso cmd d w = Ret ((LIBUSB_ERROR_NOT_FOUND, d), w)))
  ∧ (∀ cfg interface,
       m_device_attached d = true →
       m_config_descriptors d !! 0%nat = Some {| m_descriptor := Some cfg |} →
       bNumInterfaces (cfg_header cfg) <= interface →
       ChangeInterface interface d w = Ret ((LIBUSB_ERROR_NOT_FOUND, d), w)).
Proof.
  split.
  - intros Hatt. repeat split; intros x.
    + unfold ChangeInterface, ChangeInterface_refused. rewrite Hatt. by run.
    + unfold SetAltSetting. by rewrite Hatt.
    + unfold SubmitTransfer_Ctrl. by rewrite Hatt.
    + unfold SubmitTransfer_Bulk. by rewrite Hatt.
    + unfold SubmitTransfer_Intr. by rewrite Hatt.
    + unfold SubmitTransfer_Iso. by rewrite Hatt.
  - intros cfg interface Hatt Hcfg Hge.
    unfold ChangeInterface, ChangeInterface_refused. rewrite Hatt. cbn [negb]. run.
    rewrite (config_at_lookup d 0 cfg w) by done. run.
    by destruct (Z.leb_spec (bNumInterfaces (cfg_header cfg)) interface); [|lia].
Qed.

(** X7. When [ChangeInterface] has released the old interface (the host
    accepted the release, or answered LIBUSB_ERROR_NO_DEVICE, which
    [DetachInterface] takes as success), the kernel driver of the new
    interface was detached or the host answered LIBUSB_ERROR_NOT_FOUND or
    LIBUSB_ERROR_NOT_SUPPORTED, and the host then refuses the claim of the
    new interface, the error of the claim is returned and the device is left
    exactly as before: still marked attached, and with the released
    interface still recorded as active. [Attach] for that old interface
    afterwards reports success without asking the host for anything. *)
Theorem ChangeInterface_refused_claim_keeps_old_interface
    (interface : Z) (d : LibusbDevice) (w : World H)
    (cfg : libusb_config_descriptor) (h : N) (r0 r1 r2 : Z) (h0 h1 h2 : H) :
  m_device_attached d = true →
  m_config_descriptors d !! 0%nat = Some {| m_descriptor := Some cfg |} →
  interface < bNumInterfaces (cfg_header cfg) →
  m_handle d = Some h →
  libusb_call (libusb_release_interface (Some h) (m_active_interface d)) (host w)
  = (r0, h0) →
  libusb_call (libusb_detach_kernel_driver (Some h) interface) h0 = (r1, h1) →
  libusb_call (libusb_claim_interface (Some h) interface) h1 = (r2, h2) →
  0 <= r0 ∨ r0 = LIBUSB_ERROR_NO_DEVICE →
  0 <= r1 ∨ r1 = LIBUSB_ERROR_NOT_FOUND ∨ r1 = LIBUSB_ERROR_NOT_SUPPORTED →
  r2 < 0 →
  ∃ w',
    ChangeInterface interface d w = Ret ((r2, d), w')
    ∧ host w' = h2
    ∧ trace w'
      = trace w
        ++ [changing_log; detaching_log;
            EvHost (libusb_release_interface (Some h) (m_active_interface d)) r0;
            attaching_log;
            EvHost (libusb_detach_kernel_driver (Some h) interface) r1;
            EvHost (libusb_claim_interface (Some h) interface) r2;
            claim_failed_log]
    ∧ EvHost (libusb_release_interface (Some h) (m_active_interface d)) r0 ∈ trace w'
    ∧ ∀ w2, Attach (m_active_interface d) d w2 = Ret ((true, d), w2).
Proof.
  intros Hatt Hcfg Hlt Hh Hc0 Hc1 Hc2 Hr0 Hr1 Hr2.
  rewrite (ChangeInterface_run interface d w cfg h r0 r1 r2 h0 h1 h2) by done.
  rewrite release_accepted, detach_driver_tolerated by done.
  destruct (Z.ltb_spec r2 0); [|lia].
  eexists. split; [done|]. split; [done|]. split; [done|]. split.
  - cbn [trace]. rewrite elem_of_app, !elem_of_cons. tauto.
  - intros w2. unfold Attach. by rewrite Hatt, Z.eqb_refl.
Qed.

(** X8. When the first [Attach] opens the device but the interface cannot
    be attached, [Attach] returns false and the device stays unattached,
    but the opened handle is kept in [m_handle]; the handle is not closed. *)
Theorem Attach_refused_claim_keeps_handle (interface : Z) (d : LibusbDevice)
    (w : World H) (hnd : N) (h0 : H) (r : Z) (d1 : LibusbDevice) (w1 : World H) :
  m_device_attached d = false →
  libusb_open (m_device d) (host w) = (0, hnd, h0) →
  AttachInterface interface (set_m_handle (Some hnd) d)
    {| host := h0;
       trace := trace w ++ [EvLog LNOTICE "[%04x:%04x] Opening device";
                            EvOpen 0 hnd] |}
  = Ret ((r, d1), w1) →
  r ≠ 0 →
  Attach interface d w = Ret ((false, set_m_handle (Some hnd) d), w1)
  ∧ m_device_attached (set_m_handle (Some hnd) d) = false
  ∧ m_handle (set_m_handle (Some hnd) d) = Some hnd.
Proof.
  intros Hatt Hopen Hrun Hr.
  assert (d1 = set_m_handle (Some hnd) d) as ->.
  { destruct (AttachInterface_returns interface (set_m_handle (Some hnd) d)
                {| host := h0;
                   trace := trace w ++ [EvLog LNOTICE "[%04x:%04x] Opening device";
                                        EvOpen 0 hnd] |})
      as (r' & d' & w' & evs & Hrun' & _ & _ & Hfail & _).
    rewrite Hrun in Hrun'. injection Hrun' as <- <- <-. by apply Hfail. }
  split; [|by split].
  unfold Attach. rewrite Hatt. cbn [andb negb]. run.
  unfold host_open. cbn [host trace m_device set_m_device_attached].
  rewrite Hopen. cbn [Z.eqb negb]. run.
  assert (set_m_device_attached false d = d) as -> by (by destruct d; simplify_eq/=).
  rewrite <- app_assoc. cbn [app]. rewrite Hrun.
  by destruct (Z.eqb_spec r 0).
Qed.
End guards.

Lemma unattached_operations_refused_witness :
  SubmitTransfer_Bulk sample_bulk sample_device (scripted [])
  = Ret ((LIBUSB_ERROR_NOT_FOUND, sample_device), scripted [])
  ∧ ChangeInterface 1 sample_attached (scripted [])
    = Ret ((LIBUSB_ERROR_NOT_FOUND, sample_attached), scripted []).
Proof.
  destruct (unattached_operations_refused sample_device (scripted []))
    as [Hun _].
  destruct (unattached_operations_refused sample_attached (scripted []))
    as [_ Hrange].
  split.
  - by apply Hun.
  - apply (Hrange sample_config); [reflexivity|reflexivity|simpl; lia].
Defined.

(** The host releases interface 0 of the composite device, finds no kernel
    driver on interface 1 (-5) and then refuses the claim of interface 1
    (-6): the device is as before, on interface 0, and attaching interface 0
    is a no-op. *)
Lemma ChangeInterface_refused_claim_keeps_old_interface_witness :
  ∃ w', ChangeInterface 1 sample_composite (scripted [0; -5; -6])
        = Ret ((-6, sample_composite), w')
        ∧ m_active_interface sample_composite = 0
        ∧ Attach 0 sample_composite w' = Ret ((true, sample_composite), w').
Proof.
  edestruct (ChangeInterface_refused_claim_keeps_old_interface
               1 sample_composite (scripted [0; -5; -6]) sample_composite_config
               1%N 0 (-5) (-6))
    as (w' & Hrun & _ & _ & _ & Hattach);
    [reflexivity|reflexivity|simpl; lia|reflexivity|reflexivity|reflexivity
    |reflexivity|left; lia|right; left; reflexivity|lia|].
  exists w'. split; [exact Hrun|]. split; [reflexivity|apply Hattach].
Defined.

(** The sample device is opened (handle 1), the claim is refused (-6): the
    device is not attached but holds handle 1. *)
Lemma Attach_refused_claim_keeps_handle_witness :
  ∃ w', Attach 0 sample_device (scripted [0; -6])
        = Ret ((false, set_m_handle (Some 1%N) sample_device), w').
Proof.
  destruct (AttachInterface 0 (set_m_handle (Some 1%N) sample_device)
              {| host := host (scripted [0; -6]);
                 trace := trace (scripted [0; -6])
                          ++ [EvLog LNOTICE "[%04x:%04x] Opening device";
                              EvOpen 0 1] |})
    as [[[r d1] w1]|] eqn:Hrun; [|vm_compute in Hrun; discriminate].
  exists w1.
  eapply (Attach_refused_claim_keeps_handle 0 sample_device (scripted [0; -6]));
    [reflexivity|reflexivity|exact Hrun|].
  vm_compute in Hrun. injection Hrun as <- _ _. lia.
Defined.

(** ** Invariants of the device as a state machine *)

Section invariants.
Context {H : Type} `{!Libusb H}.

Lemma triple_ret {A} (a : A) (E : Event → Prop) (Q : A → Prop) :
  Q a → triple (mret a : M H A) E Q.
Proof.
  intros HQ w a' w' [= <- <-]. split; [done|]. exists []. by rewrite app_nil_r.
Qed.

Lemma triple_bind {A B} (m : M H A) (f : A → M H B) (E : Event → Prop)
    (P : A → Prop) (Q : B → Prop) :
  triple m E P → (∀ a, P a → triple (f a) E Q) → triple (m ≫= f) E Q.
Proof.
  intros Hm Hf w b w'. unfold mbind, M_bind.
  destruct (m w) as [[a w1]|] eqn:Hrun; [|done]. intros Hrun'.
  destruct (Hm _ _ _ Hrun) as (HP & evs1 & Htr1 & Hev1).
  destruct (Hf a HP _ _ _ Hrun') as (HQ & evs2 & Htr2 & Hev2).
  split; [done|]. exists (evs1 ++ evs2). split.
  - by rewrite Htr2, Htr1, app_assoc.
  - by apply Forall_app.
Qed.

Lemma triple_emit (e : Event) (E : Event → Prop) (Q : unit → Prop) :
  E e → Q tt → triple (emit e : M H unit) E Q.
Proof.
  intros He HQ w [] w' [= <-]. split; [done|]. exists [e]. split; [done|].
  by constructor.
Qed.

Lemma triple_host_call (c : HostCall) (E : Event → Prop) (Q : Z → Prop) :
  (∀ r, E (EvHost c r)) → (∀ r, Q r) → triple (host_call c : M H Z) E Q.
Proof.
  intros He HQ w r w'. rewrite host_call_run. intros [= <- <-].
  split; [done|]. eexists [_]. split; [done|]. by constructor.
Qed.

Lemma triple_fail {A} (f : fault) (E : Event → Prop) (Q : A → Prop) :
  triple (fail f : M H A) E Q.
Proof. by intros w a w'. Qed.

Lemma triple_weaken {A} (m : M H A) (E : Event → Prop) (P Q : A → Prop) :
  triple m E P → (∀ a, P a → Q a) → triple m E Q.
Proof.
  intros Hm HPQ w a w' Hrun. destruct (Hm _ _ _ Hrun) as [HP Hev]. eauto.
Qed.

Lemma triple_for_each {A St} (l : list A) (body : A → St → M H St)
    (E : Event → Prop) (I : St → Prop) (s : St) :
  I s → (∀ x s, I s → triple (body x s) E I) → triple (for_each l body s) E I.
Proof.
  revert s. induction l as [|x l IH]; intros s Hs Hbody.
  - by apply triple_ret.
  - cbn [for_each]. eapply triple_bind; [by apply Hbody|].
    intros s' Hs'. by apply IH.
Qed.

Lemma triple_subscript {A} (l : list A) (i : Z) (E : Event → Prop) :
  triple (subscript l i : M H A) E (λ _, True).
Proof.
  unfold subscript. destruct (i <? 0); [apply triple_fail|].
  destruct (l !! Z.to_nat i); [by apply triple_ret|apply triple_fail].
Qed.

Ltac log_step :=
  eapply (triple_bind _ _ _ (λ _, True)); [by apply triple_emit|intros _ _].

Lemma same_identity_refl (d : LibusbDevice) : same_identity d d.
Proof. by repeat split. Qed.

Lemma DetachInterface_handled (d : LibusbDevice) :
  triple (DetachInterface d) handled (λ _, True).
Proof.
  unfold DetachInterface. case_bool_decide as Hh.
  - log_step. by apply triple_ret.
  - log_step.
    eapply triple_bind.
    + apply (triple_host_call _ _ (λ _, True)); [|done]. intros r.
      unfold handled. cbn. apply bool_decide_eq_true_2.
      by apply not_eq_None_Some.
    + intros ret _. destruct (_ && _).
      * log_step. by apply triple_ret.
      * by apply triple_ret.
Qed.

Lemma AttachInterface_handled (interface : Z) (d : LibusbDevice) :
  attached_has_handle d →
  triple (AttachInterface interface d) handled
    (λ '(_, d'), kept d d'
                 ∧ m_device_attached d' = m_device_attached d
                 ∧ m_handle d' = m_handle d).
Proof.
  intros Hinv. unfold AttachInterface. case_bool_decide as Hh.
  - log_step.
    apply triple_ret. split; [|done]. split; [done|apply same_identity_refl].
  - assert (Hcall : ∀ c r, (∃ i, c = libusb_detach_kernel_driver (m_handle d) i
                                 ∨ c = libusb_claim_interface (m_handle d) i) →
                           handled (EvHost c r)).
    { intros c r [i [-> | ->]]; unfold handled; cbn;
        apply bool_decide_eq_true_2; by apply not_eq_None_Some. }
    log_step.
    eapply triple_bind.
    + apply (triple_host_call _ _ (λ _, True)); [|done]. intros r.
      apply Hcall. eauto.
    + intros ret _. destruct (_ && _).
      * log_step.
        apply triple_ret. split; [|done]. split; [done|apply same_identity_refl].
      * eapply triple_bind.
        -- apply (triple_host_call _ _ (λ _, True)); [|done]. intros r.
           apply Hcall. eauto.
        -- intros r _. destruct (r <? 0).
           ++ log_step.
              apply triple_ret. split; [|done].
              split; [done|apply same_identity_refl].
           ++ apply triple_ret. split; [|done]. split; [done|by repeat split].
Qed.

Lemma ChangeInterface_handled (interface : Z) (d : LibusbDevice) :
  attached_has_handle d →
  triple (ChangeInterface interface d) handled
    (λ '(_, d'), kept d d'
                 ∧ m_device_attached d' = m_device_attached d
                 ∧ m_handle d' = m_handle d).
Proof.
  intros Hinv. unfold ChangeInterface.
  eapply (triple_bind _ _ _ (λ _, True)).
  - unfold ChangeInterface_refused. destruct (m_device_attached d); cbn [negb].
    + eapply (triple_bind _ _ _ (λ _, True)); [|intros; by apply triple_ret].
      unfold config_at. eapply triple_bind; [apply triple_subscript|].
      intros c _. unfold deref. destruct (Get c); [by apply triple_ret|].
      apply triple_fail.
    + by apply triple_ret.
  - intros [] _.
    + apply triple_ret. split; [|done]. split; [done|apply same_identity_refl].
    + log_step.
      eapply triple_bind; [apply DetachInterface_handled|]. intros ret _.
      destruct (ret <? 0).
      * apply triple_ret. split; [|done]. split; [done|apply same_identity_refl].
      * by apply AttachInterface_handled.
Qed.
Lemma SetAltSetting_handled (alt_setting : Z) (d : LibusbDevice) :
  attached_has_handle d → triple (SetAltSetting alt_setting d) handled (λ _, True).
Proof.
  intros Hinv. unfold SetAltSetting.
  destruct (m_device_attached d) eqn:Hatt; cbn [negb]; [|by apply triple_ret].
  log_step. apply triple_host_call; [|done]. intros r.
  unfold handled. cbn. apply bool_decide_eq_true_2. by apply Hinv.
Qed.

Lemma Attach_handled (interface : Z) (d : LibusbDevice) :
  attached_has_handle d → triple (Attach interface d) handled (λ '(_, d'), kept d d').
Proof.
  intros Hinv. unfold Attach.
  destruct (m_device_attached d && negb (interface =? m_active_interface d)).
  { eapply triple_bind; [by apply ChangeInterface_handled|].
    intros [ret d'] [Hkept _]. by apply triple_ret. }
  destruct (m_device_attached d) eqn:Hatt.
  { apply triple_ret. split; [done|apply same_identity_refl]. }
  assert (set_m_device_attached false d = d) as -> by (by destruct d; simplify_eq/=).
  log_step.
  eapply (triple_bind _ _ _ (λ _, True)).
  { intros w [ret hnd] w'. unfold host_open.
    destruct (libusb_open (m_device d) (host w)) as [[ret' hnd'] h].
    intros [= <- <- <-]. split; [done|]. eexists [_]. split; [done|].
    by constructor. }
  intros [ret hnd] _. destruct (Z.eqb_spec ret 0) as [->|Hret]; cbn [negb].
  - eapply triple_bind.
    + apply AttachInterface_handled. intros _. by eexists.
    + intros [r d'] ((Hh & Hid) & Ha & Hhnd). destruct (negb (r =? 0)).
      * apply triple_ret. split; [done|]. by destruct Hid as (? & ? & ? & ? & ?).
      * apply triple_ret. split.
        -- intros _. cbn. rewrite Hhnd. by eexists.
        -- by destruct Hid as (? & ? & ? & ? & ?).
  - log_step. apply triple_ret. split; [|apply same_identity_refl].
    intros Ha. by rewrite Hatt in Ha.
Qed.

Lemma set_endpoint_kept (e : Z) (ep : TransferEndpoint) (d d0 : LibusbDevice) :
  kept d0 d → kept d0 (set_endpoint e ep d).
Proof. by intros [Hh Hid]. Qed.

Lemma host_alloc_transfer_handled (n : Z) :
  triple (host_alloc_transfer n) handled (λ _, True).
Proof.
  intros w p w'. unfold host_alloc_transfer.
  destruct (libusb_alloc_transfer n (host w)) as [p' h]. intros [= <- <-].
  split; [done|]. eexists [_]. split; [done|]. by constructor.
Qed.

Lemma submit_handled (t : libusb_transfer) :
  is_Some (tr_dev_handle t) →
  triple (host_call (libusb_submit_transfer t)) handled (λ _, True).
Proof.
  intros Hh. apply triple_host_call; [|done]. intros r.
  unfold handled. cbn. by apply bool_decide_eq_true_2.
Qed.

Lemma SubmitTransfer_Bulk_handled (cmd : BulkMessage) (d : LibusbDevice) :
  attached_has_handle d →
  triple (SubmitTransfer_Bulk cmd d) handled (λ '(_, d'), kept d d').
Proof.
  intros Hinv. unfold SubmitTransfer_Bulk.
  destruct (m_device_attached d) eqn:Hatt; cbn [negb].
  2:{ apply triple_ret. split; [done|apply same_identity_refl]. }
  eapply triple_bind; [apply host_alloc_transfer_handled|]. intros p _.
  unfold MakeBuffer. eapply (triple_bind _ _ _ (λ _, True)).
  { log_step. by apply triple_ret. }
  intros buffer _. eapply triple_bind; [apply submit_handled; by apply Hinv|].
  intros ret _. apply triple_ret. apply set_endpoint_kept.
  split; [done|apply same_identity_refl].
Qed.

Lemma SubmitTransfer_Intr_handled (cmd : IntrMessage) (d : LibusbDevice) :
  attached_has_handle d →
  triple (SubmitTransfer_Intr cmd d) handled (λ '(_, d'), kept d d').
Proof.
  intros Hinv. unfold SubmitTransfer_Intr.
  destruct (m_device_attached d) eqn:Hatt; cbn [negb].
  2:{ apply triple_ret. split; [done|apply same_identity_refl]. }
  eapply triple_bind; [apply host_alloc_transfer_handled|]. intros p _.
  unfold MakeBuffer. eapply (triple_bind _ _ _ (λ _, True)).
  { log_step. by apply triple_ret. }
  intros buffer _. eapply triple_bind; [apply submit_handled; by apply Hinv|].
  intros ret _. apply triple_ret. apply set_endpoint_kept.
  split; [done|apply same_identity_refl].
Qed.

Lemma SubmitTransfer_Iso_handled (cmd : IsoMessage) (d : LibusbDevice) :
  attached_has_handle d →
  triple (SubmitTransfer_Iso cmd d) handled (λ '(_, d'), kept d d').
Proof.
  intros Hinv. unfold SubmitTransfer_Iso.
  destruct (m_device_attached d) eqn:Hatt; cbn [negb].
  2:{ apply triple_ret. split; [done|apply same_identity_refl]. }
  eapply triple_bind; [apply host_alloc_transfer_handled|]. intros p _.
  unfold MakeBuffer. eapply (triple_bind _ _ _ (λ _, True)).
  { log_step. by apply triple_ret. }
  intros buffer _. eapply (triple_bind _ _ _ (λ _, True)).
  { unfold for_size_t. apply triple_for_each; [done|]. intros i descs _.
    unfold iso_packet_desc_step.
    eapply triple_bind; [apply triple_subscript|]. intros size _.
    by apply triple_ret. }
  intros descs _.
  eapply triple_bind; [apply submit_handled; by apply Hinv|].
  intros ret _. apply triple_ret. apply set_endpoint_kept.
  split; [done|apply same_identity_refl].
Qed.

Lemma SubmitTransfer_Ctrl_handled (cmd : CtrlMessage) (d : LibusbDevice) :
  attached_has_handle d →
  triple (SubmitTransfer_Ctrl cmd d) handled (λ '(_, d'), kept d d').
Proof.
  intros Hinv. unfold SubmitTransfer_Ctrl.
  destruct (m_device_attached d) eqn:Hatt; cbn [negb].
  2:{ apply triple_ret. split; [done|apply same_identity_refl]. }
  assert (Halt : ∀ d1, kept d d1 → m_device_attached d1 = true →
                       triple (SubmitTransfer_SetAltSetting cmd d1) handled
                         (λ '(_, d'), kept d d')).
  { intros d1 Hkept Hatt1. unfold SubmitTransfer_SetAltSetting.
    eapply triple_bind; [apply SetAltSetting_handled; by destruct Hkept|].
    intros ret _. eapply (triple_bind _ _ _ (λ _, True)).
    - destruct (ret =? 0); [by apply triple_emit|by apply triple_ret].
    - intros _ _. by apply triple_ret. }
  destruct (is_set_interface cmd).
  { destruct (negb (u8 (index cmd) =? m_active_interface d)).
    - eapply triple_bind; [by apply ChangeInterface_handled|].
      intros [ret d1] (Hkept & Ha & Hh). destruct (ret <? 0).
      + log_step. by apply triple_ret.
      + apply Halt; [done|congruence].
    - apply Halt; [|done]. split; [done|apply same_identity_refl]. }
  destruct (is_set_configuration cmd).
  { eapply (triple_bind _ _ _ (λ _, True)).
    - apply triple_host_call; [|done]. intros r.
      unfold handled. cbn. apply bool_decide_eq_true_2. by apply Hinv.
    - intros ret _. eapply (triple_bind _ _ _ (λ _, True)).
      + destruct (ret =? 0); [by apply triple_emit|by apply triple_ret].
      + intros _ _. apply triple_ret. split; [done|apply same_identity_refl]. }
  log_step.
  eapply triple_bind; [apply host_alloc_transfer_handled|]. intros p _.
  eapply triple_bind; [apply submit_handled; by apply Hinv|].
  intros ret _. apply triple_ret. apply set_endpoint_kept.
  split; [done|apply same_identity_refl].
Qed.

Lemma CancelTransfer_handled (endpoint : Z) (d : LibusbDevice) :
  attached_has_handle d →
  triple (CancelTransfer endpoint d) handled (λ '(_, d'), kept d d').
Proof.
  intros Hinv. unfold CancelTransfer. log_step.
  destruct (m_transfer_endpoints d !! endpoint) as [ep|].
  2:{ apply triple_ret. split; [done|apply same_identity_refl]. }
  eapply (triple_bind _ _ _ (λ _, True)).
  - unfold CancelTransfers. case_bool_decide; [by apply triple_ret|].
    log_step. apply triple_for_each; [done|]. intros p ep' _.
    unfold CancelTransfers_step.
    eapply (triple_bind _ _ _ (λ _, True));
      [by apply triple_host_call|intros; by apply triple_ret].
  - intros ep' _. apply triple_ret. apply set_endpoint_kept.
    split; [done|apply same_identity_refl].
Qed.

Lemma HandleTransfer_handled (transfer : libusb_transfer)
    (fn : TransferCommand → M H Z) (ep : TransferEndpoint) :
  (∀ cmd, triple (fn cmd) handled (λ _, True)) →
  triple (HandleTransfer transfer fn ep) handled (λ _, True).
Proof.
  intros Hfn. unfold HandleTransfer.
  destruct (m_transfers ep !! tr_self transfer) as [cmd|].
  2:{ log_step. by apply triple_ret. }
  eapply (triple_bind _ _ _ (λ _, True)).
  - unfold transfer_return_value.
    assert (Herr : ∀ rv : Z,
               triple (map_at s_transfer_types (tr_type transfer);;
                       ERROR_LOG "[%04x:%04x %d] %s transfer (endpoint 0x%02x) failed: %s";;
                       mret rv : M H Z) handled (λ _, True)).
    { intros rv. eapply (triple_bind _ _ _ (λ _, True)).
      - unfold map_at. destruct (_ !! _); [by apply triple_ret|apply triple_fail].
      - intros _ _. log_step. by apply triple_ret. }
    destruct (tr_status transfer); try apply Herr; [apply Hfn|by apply triple_ret].
  - intros rv _. log_step. log_step. by apply triple_ret.
Qed.

Lemma CtrlTransferCallback_handled (transfer : libusb_transfer) (d : LibusbDevice) :
  attached_has_handle d →
  triple (H:=H) (CtrlTransferCallback transfer d) handled (kept d).
Proof.
  intros Hinv. unfold CtrlTransferCallback.
  eapply triple_bind.
  - apply HandleTransfer_handled. intros cmd. unfold CtrlTransferCallback_fn.
    log_step. by apply triple_ret.
  - intros ep _. apply triple_ret. apply set_endpoint_kept.
    split; [done|apply same_identity_refl].
Qed.

Lemma TransferCallback_handled (transfer : libusb_transfer) (d : LibusbDevice) :
  attached_has_handle d →
  triple (H:=H) (TransferCallback transfer d) handled (kept d).
Proof.
  intros Hinv. unfold TransferCallback.
  eapply triple_bind.
  - apply HandleTransfer_handled. intros cmd. unfold TransferCallback_fn.
    destruct (tr_type transfer =? LIBUSB_TRANSFER_TYPE_ISOCHRONOUS).
    + destruct cmd as [| | |iso_msg]; try apply triple_fail.
      log_step. eapply (triple_bind _ _ _ (λ _, True)); [|intros; by apply triple_ret].
      unfold for_size_t. apply triple_for_each; [done|]. intros i [] _.
      unfold SetPacketReturnValue_step.
      eapply triple_bind; [apply triple_subscript|]. intros pkt _.
      by apply triple_emit.
    + log_step. by apply triple_ret.
  - intros ep _. apply triple_ret. apply set_endpoint_kept.
    split; [done|apply same_identity_refl].
Qed.

Lemma kept_trans (d0 d1 d2 : LibusbDevice) : kept d0 d1 → kept d1 d2 → kept d0 d2.
Proof.
  intros [_ (? & ? & ? & ? & ?)] [? (? & ? & ? & ? & ?)].
  split; [done|]. repeat split; congruence.
Qed.

(** One operation keeps the invariant and the identity, and gives the host
    no null handle. *)
Lemma perform_kept (op : Operation) (d : LibusbDevice) :
  attached_has_handle d → triple (H:=H) (perform op d) handled (kept d).
Proof.
  intros Hinv. destruct op; cbn [perform].
  - eapply triple_bind; [by apply Attach_handled|].
    intros [? d'] ?. by apply triple_ret.
  - eapply triple_bind; [by apply ChangeInterface_handled|].
    intros [? d'] [? _]. by apply triple_ret.
  - eapply triple_bind; [by apply SetAltSetting_handled|].
    intros _ _. apply triple_ret. split; [done|apply same_identity_refl].
  - eapply triple_bind; [by apply SubmitTransfer_Ctrl_handled|].
    intros [? d'] ?. by apply triple_ret.
  - eapply triple_bind; [by apply SubmitTransfer_Bulk_handled|].
    intros [? d'] ?. by apply triple_ret.
  - eapply triple_bind; [by apply SubmitTransfer_Intr_handled|].
    intros [? d'] ?. by apply triple_ret.
  - eapply triple_bind; [by apply SubmitTransfer_Iso_handled|].
    intros [? d'] ?. by apply triple_ret.
  - eapply triple_bind; [by apply CancelTransfer_handled|].
    intros [? d'] ?. by apply triple_ret.
  - by apply CtrlTransferCallback_handled.
  - by apply TransferCallback_handled.
Qed.

Lemma run_kept (ops : list Operation) (d : LibusbDevice) :
  attached_has_handle d → triple (H:=H) (for_each ops perform d) handled (kept d).
Proof.
  intros Hinv. apply triple_for_each.
  - split; [done|apply same_identity_refl].
  - intros op d1 Hkept.
    eapply triple_weaken; [apply perform_kept; by destruct Hkept|].
    intros d2. by apply kept_trans.
Qed.

(** X9. Whatever sequence of operations and completion callbacks is
    applied to a newly constructed device, whenever the device is marked
    attached it holds an open handle. *)
Theorem reachable_attached_has_handle (device : libusb_device)
    (descriptor : libusb_device_descriptor) (ops : list Operation)
    (w w' : World H) (d' : LibusbDevice) :
  for_each ops perform (LibusbDevice_new device descriptor) w = Ret (d', w') →
  m_device_attached d' = true → is_Some (m_handle d').
Proof.
  intros Hrun.
  assert (Hnew : attached_has_handle (LibusbDevice_new device descriptor))
    by (by intros Ha).
  by destruct (run_kept ops _ Hnew _ _ _ Hrun) as [[Hh _] _].
Qed.

(** X10. Starting from a device on which attached implies an open handle
    (a new device is one), no sequence of operations and completion
    callbacks ever hands the host a null device handle: every call of
    [libusb_detach_kernel_driver], [libusb_claim_interface],
    [libusb_release_interface], [libusb_set_interface_alt_setting] and
    [libusb_set_configuration], and every transfer object submitted, carries
    an open handle. *)
Theorem host_never_given_null_handle (d : LibusbDevice) (ops : list Operation)
    (w w' : World H) (d' : LibusbDevice) :
  attached_has_handle d →
  for_each ops perform d w = Ret (d', w') →
  ∃ evs, trace w' = trace w ++ evs
         ∧ Forall (λ e, event_has_handle e = true) evs.
Proof.
  intros Hinv Hrun. by destruct (run_kept ops _ Hinv _ _ _ Hrun) as [_ Hev].
Qed.

(** X11. No sequence of operations and completion callbacks changes the
    identity of a device or its descriptor cache: the host device, the
    vendor and product ids, the 64-bit identifier and the cached
    configuration descriptors stay what the constructor made them, so the
    descriptor accessors keep giving the same answers. *)
Theorem identity_and_descriptors_immutable (d : LibusbDevice)
    (ops : list Operation) (w w' : World H) (d' : LibusbDevice) :
  attached_has_handle d →
  for_each ops perform d w = Ret (d', w') →
  same_identity d d'
  ∧ ∀ (w0 : World H) config interface_number alt_setting,
      GetConfigurations d' w0 = GetConfigurations d w0
      ∧ GetInterfaces d' config w0 = GetInterfaces d config w0
      ∧ GetEndpoints d' config interface_number alt_setting w0
        = GetEndpoints d config interface_number alt_setting w0.
Proof.
  intros Hinv Hrun.
  destruct (run_kept ops _ Hinv _ _ _ Hrun) as [[_ Hid] _].
  split; [done|]. destruct Hid as (_ & _ & _ & _ & Hcfg).
  intros w0 config interface_number alt_setting.
  unfold GetConfigurations, GetInterfaces, GetEndpoints, invalid_config, config_at.
  by rewrite Hcfg.
Qed.
End invariants.

Lemma reachable_attached_has_handle_witness :
  ∃ d' w',
    for_each sample_session perform
      (LibusbDevice_new sample_libusb_device sample_descriptor) (scripted [])
    = Ret (d', w')
    ∧ m_device_attached d' = true ∧ is_Some (m_handle d').
Proof.
  destruct (for_each sample_session perform
              (LibusbDevice_new sample_libusb_device sample_descriptor)
              (scripted [])) as [[d' w']|] eqn:Hrun;
    [|vm_compute in Hrun; discriminate].
  assert (Ha : m_device_attached d' = true).
  { pose proof Hrun as Hval. vm_compute in Hval. by injection Hval as <- _. }
  exists d', w'. split; [done|]. split; [done|].
  by apply (reachable_attached_has_handle _ _ _ _ _ _ Hrun).
Defined.

Lemma host_never_given_null_handle_witness :
  ∃ d' w',
    for_each sample_session perform sample_device (scripted []) = Ret (d', w')
    ∧ Forall (λ e, event_has_handle e = true) (trace w').
Proof.
  destruct (for_each sample_session perform sample_device (scripted []))
    as [[d' w']|] eqn:Hrun; [|vm_compute in Hrun; discriminate].
  exists d', w'. split; [done|].
  destruct (host_never_given_null_handle sample_device sample_session
              (scripted []) w' d') as (evs & Htr & Hev); [by intros Ha|done|].
  by rewrite Htr.
Defined.

Lemma identity_and_descriptors_immutable_witness :
  ∃ d' w',
    for_each sample_session perform sample_device (scripted []) = Ret (d', w')
    ∧ m_id d' = m_id sample_device.
Proof.
  destruct (for_each sample_session perform sample_device (scripted []))
    as [[d' w']|] eqn:Hrun; [|vm_compute in Hrun; discriminate].
  exists d', w'. split; [done|].
  destruct (identity_and_descriptors_immutable sample_device sample_session
              (scripted []) w' d') as [Hid _]; [by intros Ha|done|].
  by destruct Hid as (_ & _ & _ & Hmid & _).
Defined.

(** ** Submission, completion and cancellation together *)

Section round_trips.
Context {H : Type} `{!Libusb H}.

Lemma cancel_event_of_pending (ps : list N) (rs : list Z) (p : N) :
  p ∈ ps → length rs = length ps →
  ∃ r, EvHost (libusb_cancel_transfer p) r
       ∈ zip_with (λ p r, EvHost (libusb_cancel_transfer p) r) ps rs.
Proof.
  revert rs. induction ps as [|q ps IH]; intros rs Hin Hlen.
  - by apply elem_of_nil in Hin.
  - destruct rs as [|r rs]; [done|]. cbn [zip_with].
    apply elem_of_cons in Hin as [->|Hin].
    + exists r. apply list_elem_of_here.
    + destruct (IH rs Hin) as [r' Hr']; [by injection Hlen|].
      exists r'. by apply list_elem_of_further.
Qed.

(** A tracked transfer makes [CancelTransfer] ask the host to cancel it. *)
Lemma CancelTransfer_asks_for (e : Z) (d : LibusbDevice) (p : N)
    (cmd : TransferCommand) (w : World H) :
  m_transfers (endpoint_ref e d) !! p = Some cmd →
  ∃ w' r,
    CancelTransfer e d w = Ret ((IPC_SUCCESS, d), w')
    ∧ EvHost (libusb_cancel_transfer p) r ∈ trace w'.
Proof.
  unfold endpoint_ref. intros Hp.
  destruct (m_transfer_endpoints d !! e) as [ep|] eqn:He; [|done].
  simpl in Hp.
  unfold CancelTransfer. run. rewrite He. unfold CancelTransfers.
  rewrite bool_decide_eq_false_2.
  2:{ rewrite map_size_empty_iff. intros Hempty. by rewrite Hempty in Hp. }
  run.
  match goal with
  | |- context [for_each _ _ _ ?w0] =>
      destruct (CancelTransfers_loop (pending_transfers ep) ep w0)
        as (rs & w' & Hrun & Hlen & Htr)
  end.
  rewrite Hrun. rewrite set_endpoint_id by done.
  destruct (cancel_event_of_pending (pending_transfers ep) rs p) as [r Hr];
    [by apply pending_transfers_tracked|done|].
  exists w', r. split; [done|]. rewrite Htr. apply elem_of_app. by right.
Qed.

(** X12. A submission on an attached device puts the command into the
    tracker of its endpoint before it asks the host to submit, and returns
    the host's answer whatever it is: after a failed submission the command
    is still tracked (under the fresh address of its transfer object), and
    a later [CancelTransfer] for the endpoint asks the host to cancel that
    transfer. *)
Theorem failed_submission_stays_tracked (cmd : BulkMessage) (d : LibusbDevice)
    (w : World H) :
  m_device_attached d = true →
  m_transfers (endpoint_ref (bulk_endpoint cmd) d)
  !! (libusb_alloc_transfer 0 (host w)).1 = None →
  ∃ t ret h d' w',
    SubmitTransfer_Bulk cmd d w = Ret ((ret, d'), w')
    ∧ libusb_call (libusb_submit_transfer t) (libusb_alloc_transfer 0 (host w)).2
      = (ret, h)
    ∧ tr_self t = (libusb_alloc_transfer 0 (host w)).1
    ∧ m_transfers (endpoint_ref (bulk_endpoint cmd) d') !! tr_self t
      = Some (Bulk cmd)
    ∧ ∀ w2, ∃ w3 r,
        CancelTransfer (bulk_endpoint cmd) d' w2 = Ret ((IPC_SUCCESS, d'), w3)
        ∧ EvHost (libusb_cancel_transfer (tr_self t)) r ∈ trace w3.
Proof.
  intros Hatt Hfresh. unfold SubmitTransfer_Bulk. rewrite Hatt. cbn [negb]. run.
  unfold host_alloc_transfer. cbn [host trace].
  destruct (libusb_alloc_transfer 0 (host w)) as [p h0]. cbn [fst snd] in *. run.
  rewrite host_call_run. cbn [host trace].
  set (t := filled_transfer _ _ _ _ _ _).
  destruct (libusb_call (libusb_submit_transfer t) h0) as [ret h1] eqn:Hcall.
  cbn [fst snd].
  assert (Htracked :
            m_transfers
              (endpoint_ref (bulk_endpoint cmd)
                 (set_endpoint (tr_endpoint t)
                    (AddTransfer (Bulk cmd) p (endpoint_ref (tr_endpoint t) d)) d))
            !! p = Some (Bulk cmd)).
  { cbn [tr_endpoint t filled_transfer]. rewrite endpoint_ref_set_endpoint.
    unfold AddTransfer, emplace. cbn [m_transfers]. rewrite Hfresh.
    apply lookup_insert_eq. }
  exists t, ret, h1. eexists _, _. split; [done|]. split; [done|].
  split; [done|]. split; [done|].
  intros w2. by eapply CancelTransfer_asks_for.
Qed.

(** X13. A bulk transfer from submission to completion: when the host
    reports the submitted transfer as completed with [n] bytes,
    [TransferCallback] copies [n] bytes back, completes the command with
    return value [n], and the tracker of the endpoint holds what it held
    before the submission; the trackers of the other endpoints are never
    touched. *)
Theorem bulk_submit_then_complete (cmd : BulkMessage) (d : LibusbDevice)
    (w : World H) (n : Z) :
  m_device_attached d = true →
  m_transfers (endpoint_ref (bulk_endpoint cmd) d)
  !! (libusb_alloc_transfer 0 (host w)).1 = None →
  ∃ t ret d1 w1,
    SubmitTransfer_Bulk cmd d w = Ret ((ret, d1), w1)
    ∧ last (trace w1) = Some (EvHost (libusb_submit_transfer t) ret)
    ∧ ∀ w2 : World H, ∃ d2,
        TransferCallback (reported LIBUSB_TRANSFER_COMPLETED n t) d1 w2
        = Ret (d2, w2 ⊕ [EvFillBuffer (Bulk cmd) n;
                         EvOnTransferComplete (Bulk cmd) n;
                         EvDeleteBuffer (tr_self t)])
        ∧ m_transfers (endpoint_ref (bulk_endpoint cmd) d2)
          = m_transfers (endpoint_ref (bulk_endpoint cmd) d)
        ∧ ∀ e, e ≠ bulk_endpoint cmd →
               m_transfer_endpoints d2 !! e = m_transfer_endpoints d !! e.
Proof.
  intros Hatt Hfresh. unfold SubmitTransfer_Bulk. rewrite Hatt. cbn [negb]. run.
  unfold host_alloc_transfer. cbn [host trace].
  destruct (libusb_alloc_transfer 0 (host w)) as [p h0]. cbn [fst snd] in *. run.
  rewrite host_call_run. cbn [host trace fst snd].
  set (t := filled_transfer _ _ _ _ _ _).
  set (e := bulk_endpoint cmd) in *.
  set (d1 := set_endpoint (tr_endpoint t) _ d).
  exists t. eexists _, d1, _. split; [done|].
  split. { cbn [trace]. by rewrite last_snoc. }
  intros w2.
  assert (Hl : m_transfers (endpoint_ref e d1) !! p = Some (Bulk cmd)).
  { unfold d1. cbn [tr_endpoint t filled_transfer]. fold e.
    rewrite endpoint_ref_set_endpoint.
    unfold AddTransfer, emplace. cbn [m_transfers]. rewrite Hfresh.
    apply lookup_insert_eq. }
  eexists. split; [|split].
  - unfold TransferCallback. run.
    cbn [tr_endpoint tr_self reported t filled_transfer]. fold e.
    rewrite (HandleTransfer_found _ _ _ (Bulk cmd)) by done.
    unfold transfer_return_value, TransferCallback_fn.
    cbn [tr_status tr_type tr_actual_length tr_self reported t filled_transfer].
    change (LIBUSB_TRANSFER_TYPE_BULK =? LIBUSB_TRANSFER_TYPE_ISOCHRONOUS) with false.
    run. cbn [trace]. rewrite <- !app_assoc. done.
  - rewrite endpoint_ref_set_endpoint. cbn [m_transfers].
    unfold d1. cbn [tr_endpoint t filled_transfer]. fold e.
    rewrite endpoint_ref_set_endpoint.
    unfold AddTransfer, emplace. cbn [m_transfers]. rewrite Hfresh.
    rewrite delete_insert_eq. by apply delete_id.
  - intros e' He'. rewrite set_endpoint_lookup.
    destruct (decide (e = e')) as [<-|_]; [done|].
    unfold d1. rewrite set_endpoint_lookup.
    cbn [tr_endpoint t filled_transfer]. fold e.
    by destruct (decide (e = e')) as [<-|_].
Qed.

(** X14. A control transfer from submission to completion: whatever
    number of bytes the host reports as transferred, [CtrlTransferCallback]
    completes the command with the total length of the transfer, the
    8-byte setup packet included, and copies back the bytes the host
    reported. *)
Theorem control_submit_then_complete (cmd : CtrlMessage) (d : LibusbDevice)
    (w : World H) (n : Z) :
  m_device_attached d = true →
  is_set_interface cmd = false → is_set_configuration cmd = false →
  m_transfers (endpoint_ref 0 d) !! (libusb_alloc_transfer 0 (host w)).1 = None →
  ∃ t ret d1 w1,
    SubmitTransfer_Ctrl cmd d w = Ret ((ret, d1), w1)
    ∧ last (trace w1) = Some (EvHost (libusb_submit_transfer t) ret)
    ∧ ∀ w2 : World H, ∃ d2,
        CtrlTransferCallback (reported LIBUSB_TRANSFER_COMPLETED n t) d1 w2
        = Ret (d2, w2 ⊕ [EvFillBuffer (Ctrl cmd) n;
                         EvOnTransferComplete (Ctrl cmd)
                           (LIBUSB_CONTROL_SETUP_SIZE + ctrl_length cmd);
                         EvDeleteBuffer (tr_self t)])
        ∧ m_transfers (endpoint_ref 0 d2) = m_transfers (endpoint_ref 0 d).
Proof.
  intros Hatt Hsi Hsc Hfresh. unfold SubmitTransfer_Ctrl.
  rewrite Hatt, Hsi, Hsc. cbn [negb]. run.
  unfold host_alloc_transfer. cbn [host trace].
  destruct (libusb_alloc_transfer 0 (host w)) as [p h0]. cbn [fst snd] in *. run.
  rewrite host_call_run. cbn [host trace fst snd].
  match goal with
  | |- context [libusb_submit_transfer ?t0] => set (t := t0)
  end.
  set (d1 := set_endpoint 0 _ d).
  exists t. eexists _, d1, _. split; [done|].
  split. { cbn [trace]. by rewrite last_snoc. }
  intros w2.
  assert (Hl : m_transfers (endpoint_ref 0 d1) !! p = Some (Ctrl cmd)).
  { unfold d1. rewrite endpoint_ref_set_endpoint.
    unfold AddTransfer, emplace. cbn [m_transfers]. rewrite Hfresh.
    apply lookup_insert_eq. }
  eexists. split.
  - unfold CtrlTransferCallback. run.
    rewrite (HandleTransfer_found _ _ _ (Ctrl cmd)) by done.
    unfold transfer_return_value, CtrlTransferCallback_fn.
    cbn [tr_status tr_length tr_actual_length tr_self reported t].
    run. cbn [trace]. rewrite <- !app_assoc. done.
  - rewrite endpoint_ref_set_endpoint. cbn [m_transfers].
    unfold d1. rewrite endpoint_ref_set_endpoint.
    unfold AddTransfer, emplace. cbn [m_transfers tr_self reported t].
    rewrite Hfresh. rewrite delete_insert_eq. by apply delete_id.
Qed.
End round_trips.

(** The host refuses the submission (-1): the bulk command stays tracked
    under address 16, and cancelling endpoint 0x81 asks the host to cancel
    the transfer that was never submitted. *)
Lemma failed_submission_stays_tracked_witness :
  ∃ d' w',
    SubmitTransfer_Bulk sample_bulk sample_attached (scripted [-1])
    = Ret ((-1, d'), w')
    ∧ m_transfers (endpoint_ref 129 d') !! 16%N = Some (Bulk sample_bulk)
    ∧ ∃ w3 r, CancelTransfer 129 d' w' = Ret ((IPC_SUCCESS, d'), w3)
              ∧ EvHost (libusb_cancel_transfer 16) r ∈ trace w3.
Proof.
  destruct (failed_submission_stays_tracked sample_bulk sample_attached
              (scripted [-1]))
    as (t & ret & h & d' & w' & Hrun & Hcall & Hself & Htracked & Hcancel);
    [reflexivity|reflexivity|].
  change (libusb_alloc_transfer 0 (host (scripted [-1]))).1 with 16%N in Hself.
  rewrite Hself in Htracked, Hcancel.
  assert (ret = -1) as ->.
  { pose proof Hrun as Hval. vm_compute in Hval. by injection Hval as <- _ _. }
  exists d', w'. split; [exact Hrun|]. split; [exact Htracked|]. apply Hcancel.
Defined.

(** The scenario of a 64-byte bulk read from endpoint 0x81 that the host
    completes in full: the command completes with 64. *)
Lemma bulk_submit_then_complete_witness :
  ∃ t d1 w1 d2,
    SubmitTransfer_Bulk sample_bulk sample_attached (scripted []) = Ret ((0, d1), w1)
    ∧ TransferCallback (reported LIBUSB_TRANSFER_COMPLETED 64 t) d1 w1
      = Ret (d2, w1 ⊕ [EvFillBuffer (Bulk sample_bulk) 64;
                       EvOnTransferComplete (Bulk sample_bulk) 64;
                       EvDeleteBuffer (tr_self t)]).
Proof.
  destruct (bulk_submit_then_complete sample_bulk sample_attached (scripted []) 64)
    as (t & ret & d1 & w1 & Hrun & _ & Hdone); [reflexivity|reflexivity|].
  assert (ret = 0) as ->.
  { pose proof Hrun as Hval. vm_compute in Hval. by injection Hval as <- _ _. }
  destruct (Hdone w1) as (d2 & Hcb & _).
  by exists t, d1, w1, d2.
Defined.

(** GET_DESCRIPTOR of 18 bytes, of which the host reports 18 transferred:
    the command completes with 26. *)
Lemma control_submit_then_complete_witness :
  ∃ t ret d1 w1 d2,
    SubmitTransfer_Ctrl sample_get_descriptor sample_attached (scripted [])
    = Ret ((ret, d1), w1)
    ∧ CtrlTransferCallback (reported LIBUSB_TRANSFER_COMPLETED 18 t) d1 w1
      = Ret (d2, w1 ⊕ [EvFillBuffer (Ctrl sample_get_descriptor) 18;
                       EvOnTransferComplete (Ctrl sample_get_descriptor) 26;
                       EvDeleteBuffer (tr_self t)]).
Proof.
  destruct (control_submit_then_complete sample_get_descriptor sample_attached
              (scripted []) 18)
    as (t & ret & d1 & w1 & Hrun & _ & Hdone);
    [reflexivity|reflexivity|reflexivity|reflexivity|].
  destruct (Hdone w1) as (d2 & Hcb & _).
  by exists t, ret, d1, w1, d2.
Defined.

(** ** The tracker under reuse, stray callbacks and cancellation *)

Section tracker_edges.
Context {H : Type} `{!Libusb H}.

(** X15. [AddTransfer] never replaces a tracked command: for a handle that
    is already tracked the tracker stays as it is and the new command is
    dropped, so that the completion of that handle is delivered to the old
    command; for a fresh handle the command is tracked under it and every
    other entry is kept. *)
Theorem AddTransfer_never_replaces (ep : TransferEndpoint) (p : N)
    (new : TransferCommand) :
  (∀ old,
     m_transfers ep !! p = Some old →
     m_transfers (AddTransfer new p ep) = m_transfers ep
     ∧ ∀ (transfer : libusb_transfer) (fn : TransferCommand → M H Z)
         (w w1 : World H) (rv : Z),
         tr_self transfer = p →
         transfer_return_value transfer fn old w = Ret (rv, w1) →
         HandleTransfer transfer fn (AddTransfer new p ep) w
         = Ret ({| m_transfers := delete p (m_transfers ep) |},
                w1 ⊕ [EvOnTransferComplete old rv; EvDeleteBuffer p]))
  ∧ (m_transfers ep !! p = None →
     m_transfers (AddTransfer new p ep) !! p = Some new
     ∧ size (m_transfers (AddTransfer new p ep)) = S (size (m_transfers ep))
     ∧ ∀ q, q ≠ p → m_transfers (AddTransfer new p ep) !! q = m_transfers ep !! q).
Proof.
  split.
  - intros old Hold.
    assert (Heq : m_transfers (AddTransfer new p ep) = m_transfers ep).
    { unfold AddTransfer, emplace. cbn [m_transfers]. by rewrite Hold. }
    split; [done|]. intros transfer fn w w1 rv <- Hrv.
    rewrite (HandleTransfer_found _ _ _ old) by (by rewrite Heq).
    by rewrite Hrv, Heq.
  - intros Hfresh. unfold AddTransfer, emplace. cbn [m_transfers]. rewrite Hfresh.
    split; [apply lookup_insert_eq|]. split; [by apply map_size_insert_None|].
    intros q Hq. by apply lookup_insert_ne.
Qed.

(** X16. A completion callback for a transfer that is not tracked, on an
    endpoint that has no tracker yet, only logs "No such transfer" but
    leaves an empty tracker behind for that endpoint: [CancelTransfer] for
    the endpoint answered [IPC_ENOENT] before the callback and answers
    [IPC_SUCCESS] after it, without asking the host for anything. *)
Theorem stray_callback_leaves_tracker (transfer : libusb_transfer)
    (d : LibusbDevice) (w : World H) :
  m_transfer_endpoints d !! tr_endpoint transfer = None →
  let announce :=
    EvLog LINFO "[%04x:%04x %d] Cancelling transfers (endpoint 0x%x)" in
  let d' := set_endpoint (tr_endpoint transfer) {| m_transfers := ∅ |} d in
  TransferCallback transfer d w = Ret (d', w ⊕ [EvLog LERROR "No such transfer"])
  ∧ (∀ w2 : World H,
       CancelTransfer (tr_endpoint transfer) d w2
       = Ret ((IPC_ENOENT, d), w2 ⊕ [announce]))
  ∧ (∀ w2 : World H,
       CancelTransfer (tr_endpoint transfer) d' w2
       = Ret ((IPC_SUCCESS, d'), w2 ⊕ [announce])).
Proof.
  intros Hnone announce d'. subst announce d'. split; [|split].
  - unfold TransferCallback, endpoint_ref. rewrite Hnone. cbn [default].
    run. rewrite HandleTransfer_not_found by apply lookup_empty. done.
  - intros w2. unfold CancelTransfer. run. by rewrite Hnone.
  - intros w2. unfold CancelTransfer. run.
    rewrite set_endpoint_lookup. destruct (decide _); [|done].
    unfold CancelTransfers. cbn [m_transfers].
    rewrite bool_decide_eq_true_2 by apply map_size_empty. run.
    by rewrite set_endpoint_id by (rewrite set_endpoint_lookup; by destruct (decide _)).
Qed.

Lemma bind_ext_in {A B} (f g : A → list B) (l : list A) :
  (∀ x, x ∈ l → f x = g x) → l ≫= f = l ≫= g.
Proof.
  induction l as [|x l IH]; intros Hfg; [done|].
  rewrite !bind_cons, (Hfg x) by apply list_elem_of_here.
  rewrite IH; [done|]. intros y Hy. apply Hfg. by apply list_elem_of_further.
Qed.

(** X17. When the host reports every tracked transfer of an endpoint as
    cancelled, each once and in any order, every tracked command is
    completed exactly once with -5, in that order, the completion function
    is never called, and the tracker ends up empty. *)
Theorem cancelled_transfers_drain (ts : list libusb_transfer)
    (fn : libusb_transfer → TransferCommand → M H Z)
    (ep : TransferEndpoint) (w : World H) :
  NoDup (tr_self <$> ts) →
  (∀ p, is_Some (m_transfers ep !! p) ↔ p ∈ tr_self <$> ts) →
  Forall (λ t, tr_status t = LIBUSB_TRANSFER_CANCELLED
               ∧ is_Some (s_transfer_types !! tr_type t)) ts →
  ∃ ep' w',
    HandleTransfers ts fn ep w = Ret (ep', w')
    ∧ m_transfers ep' = ∅
    ∧ host w' = host w
    ∧ trace w'
      = trace w
        ++ (ts ≫= λ t,
              match m_transfers ep !! tr_self t with
              | Some cmd =>
                  [EvLog LERROR
                     "[%04x:%04x %d] %s transfer (endpoint 0x%02x) failed: %s";
                   EvOnTransferComplete cmd (-5);
                   EvDeleteBuffer (tr_self t)]
              | None => []
              end).
Proof.
  revert ep w. induction ts as [|t ts IH]; intros ep w Hnd Hdom Hts.
  - exists ep, w. split; [done|]. split.
    + apply map_empty. intros p. apply eq_None_not_Some. rewrite Hdom.
      apply not_elem_of_nil.
    + split; [done|]. simpl. by rewrite app_nil_r.
  - rewrite fmap_cons in Hnd, Hdom. apply NoDup_cons in Hnd as [Hnotin Hnd].
    apply Forall_cons in Hts as [[Hst [name Hname]] Hts].
    destruct (proj2 (Hdom (tr_self t))) as [cmd Hcmd]; [apply list_elem_of_here|].
    unfold HandleTransfers. cbn [for_each]. unfold mbind at 1, M_bind at 1.
    rewrite (HandleTransfer_found _ _ _ cmd) by done.
    unfold transfer_return_value, map_at. rewrite Hst, Hname. run.
    set (ep1 := {| m_transfers := delete (tr_self t) (m_transfers ep) |}).
    match goal with
    | |- context [for_each ts _ ep1 ?w0] => set (w1 := w0)
    end.
    destruct (IH ep1 w1) as (ep' & w' & Hrun & Hempty & Hhost & Htr); [done| |done|].
    { intros p. unfold ep1. cbn [m_transfers]. rewrite lookup_delete.
      destruct (decide (tr_self t = p)) as [<-|Hne].
      - split; [by intros [? ?]|done].
      - rewrite Hdom, elem_of_cons. split; [|by right].
        by intros [->|?]. }
    unfold HandleTransfers in Hrun. rewrite Hrun.
    exists ep', w'. split; [done|]. split; [done|]. split; [done|].
    rewrite Htr. unfold w1. cbn [trace]. rewrite bind_cons, Hcmd.
    rewrite <- !app_assoc. cbn [app]. do 4 f_equal.
    apply bind_ext_in. intros t' Ht'. unfold ep1. cbn [m_transfers].
    rewrite lookup_delete_ne; [done|].
    intros Heq. apply Hnotin. rewrite Heq. by apply list_elem_of_fmap_2.
Qed.
End tracker_edges.

(** The tracked sample transfer is reused for a second command: the first
    command stays, and is the one the completion is delivered to. *)
Lemma AddTransfer_never_replaces_witness :
  m_transfers (AddTransfer (Iso sample_iso) 16 sample_endpoint_tracker)
  = m_transfers sample_endpoint_tracker
  ∧ m_transfers (AddTransfer (Iso sample_iso) 17 sample_endpoint_tracker) !! 17%N
    = Some (Iso sample_iso).
Proof.
  destruct (AddTransfer_never_replaces (H:=ScriptedHost) sample_endpoint_tracker
              16 (Iso sample_iso)) as [Hold _].
  destruct (AddTransfer_never_replaces (H:=ScriptedHost) sample_endpoint_tracker
              17 (Iso sample_iso)) as [_ Hnew].
  split.
  - by destruct (Hold (Bulk sample_bulk) eq_refl).
  - by destruct (Hnew eq_refl).
Defined.

(** A stray completion for endpoint 0x81 of the attached sample device,
    which has no tracker. *)
Lemma stray_callback_leaves_tracker_witness :
  ∃ d' w',
    TransferCallback sample_transfer sample_attached (scripted [])
    = Ret (d', scripted [] ⊕ [EvLog LERROR "No such transfer"])
    ∧ CancelTransfer 129 sample_attached (scripted [])
      = Ret ((IPC_ENOENT, sample_attached), w')
    ∧ CancelTransfer 129 d' (scripted []) = Ret ((IPC_SUCCESS, d'), w').
Proof.
  destruct (stray_callback_leaves_tracker sample_transfer sample_attached
              (scripted [])) as (Hcb & Hbefore & Hafter); [reflexivity|].
  eexists _, _. split; [exact Hcb|]. split; [apply Hbefore|apply Hafter].
Defined.

(** The tracked sample transfer, reported as cancelled, drains the sample
    tracker. *)
Lemma cancelled_transfers_drain_witness :
  ∃ ep' w',
    HandleTransfers [reported LIBUSB_TRANSFER_CANCELLED 0 sample_transfer]
      TransferCallback_fn sample_endpoint_tracker (scripted [])
    = Ret (ep', w')
    ∧ m_transfers ep' = ∅
    ∧ EvOnTransferComplete (Bulk sample_bulk) (-5) ∈ trace w'.
Proof.
  destruct (cancelled_transfers_drain
              [reported LIBUSB_TRANSFER_CANCELLED 0 sample_transfer]
              TransferCallback_fn sample_endpoint_tracker (scripted []))
    as (ep' & w' & Hrun & Hempty & _ & Htr).
  - repeat constructor. apply not_elem_of_nil.
  - intros p. cbn [fmap list_fmap tr_self reported sample_transfer filled_transfer].
    rewrite list_elem_of_singleton. unfold sample_endpoint_tracker.
    cbn [m_transfers]. split.
    + intros [cmd Hcmd]. apply lookup_singleton_Some in Hcmd as [<- _]. done.
    + intros ->. rewrite lookup_singleton_eq. by eexists.
  - repeat constructor. by eexists.
  - exists ep', w'. split; [exact Hrun|]. split; [exact Hempty|].
    rewrite Htr. apply list_elem_of_In. vm_compute. tauto.
Defined.

(** ** SET_INTERFACE on the active interface, the destructor, and
       [GetNumberOfAltSettings] *)

Section remaining.
Context {H : Type} `{!Libusb H}.

(** X18. A SET_INTERFACE request whose [wIndex], cut to its low byte, is
    the active interface does not release or claim anything: the only host
    call is [libusb_set_interface_alt_setting] for the active interface
    with the low byte of [wValue]; its result is the result of
    [SubmitTransfer], and the reply (with the command's length) is enqueued
    exactly when that result is 0. *)
Theorem SET_INTERFACE_on_active_interface (cmd : CtrlMessage) (d : LibusbDevice)
    (w : World H) (r : Z) (h1 : H) :
  m_device_attached d = true →
  is_set_interface cmd = true →
  index cmd mod 2 ^ 8 = m_active_interface d →
  libusb_call
    (libusb_set_interface_alt_setting
       (m_handle d) (m_active_interface d) (value cmd mod 2 ^ 8)) (host w)
  = (r, h1) →
  SubmitTransfer_Ctrl cmd d w
  = Ret ((r, d),
         {| host := h1;
            trace :=
              trace w
              ++ [EvLog LINFO "[%04x:%04x %d] Setting alt setting %d";
                  EvHost (libusb_set_interface_alt_setting
                            (m_handle d) (m_active_interface d)
                            (value cmd mod 2 ^ 8)) r]
              ++ (if r =? 0
                  then [EvEnqueueIPCReply (ctrl_ios_request cmd) (ctrl_length cmd)]
                  else []) |}).
Proof.
  intros Hatt Hsi Hidx Hcall. unfold SubmitTransfer_Ctrl.
  rewrite Hatt, Hsi. cbn [negb]. unfold u8 at 1. rewrite Hidx, Z.eqb_refl.
  cbn [negb]. unfold SubmitTransfer_SetAltSetting, SetAltSetting, u8.
  rewrite Hatt. cbn [negb]. run.
  rewrite host_call_run. cbn [host trace]. rewrite Hcall. cbn [fst snd].
  destruct (r =? 0); run; cbn [trace]; by rewrite <- !app_assoc.
Qed.


(** X20. [GetNumberOfAltSettings] has no guard: it answers
    [num_altsetting] of the interface for a readable first configuration
    and an interface number within its array, without any log, and it is
    undefined (a null or out-of-bounds read) when the first configuration
    is missing or was not readable, where [GetInterfaces] and
    [GetEndpoints] answer the empty list. *)
Theorem GetNumberOfAltSettings_unguarded (interface_number : Z)
    (d : LibusbDevice) (w : World H) :
  (invalid_config d 0 = true →
   GetNumberOfAltSettings interface_number d w = Fault UndefinedBehaviour
   ∧ GetInterfaces d 0 w = Ret ([], w ⊕ [invalid_config_log]))
  ∧ (∀ cfg itf,
       m_config_descriptors d !! 0%nat = Some {| m_descriptor := Some cfg |} →
       0 <= interface_number →
       interface cfg !! Z.to_nat interface_number = Some itf →
       GetNumberOfAltSettings interface_number d w = Ret (num_altsetting itf, w))
  ∧ (∀ cfg,
       m_config_descriptors d !! 0%nat = Some {| m_descriptor := Some cfg |} →
       Z.of_nat (length (interface cfg)) <= interface_number →
       GetNumberOfAltSettings interface_number d w = Fault UndefinedBehaviour).
Proof.
  split; [|split].
  - intros Hinv. split.
    + unfold GetNumberOfAltSettings. run.
      destruct (config_at_0 d w) as [[cfg Hcfg]|[-> _]]; [|done].
      exfalso. revert Hinv Hcfg. unfold invalid_config, config_at, subscript.
      run. change (Z.to_nat 0) with 0%nat. simpl (0 <? 0).
      destruct (m_config_descriptors d !! 0%nat) as [[[cfg'|]]|] eqn:Hl; try done.
      intros Hinv _. apply orb_true_iff in Hinv as [Hinv|Hinv]; [|done].
      apply lookup_lt_Some in Hl. apply Z.leb_le in Hinv. lia.
    + unfold GetInterfaces. rewrite Hinv. by run.
  - intros cfg itf Hcfg Hi Hitf. unfold GetNumberOfAltSettings. run.
    rewrite (config_at_lookup d 0 cfg w) by done. unfold subscript.
    destruct (Z.ltb_spec interface_number 0); [lia|]. by rewrite Hitf.
  - intros cfg Hcfg Hge. unfold GetNumberOfAltSettings. run.
    rewrite (config_at_lookup d 0 cfg w) by done. unfold subscript.
    destruct (Z.ltb_spec interface_number 0); [done|].
    rewrite lookup_ge_None_2 by lia. done.
Qed.
End remaining.

(** wIndex = 0x0100 and wValue = 0x0203 on the sample device attached to
    interface 0: the alternate setting 3 of interface 0 is set. *)
Lemma SET_INTERFACE_on_active_interface_witness :
  ∃ w',
    SubmitTransfer_Ctrl
      {| ctrl_ios_request := sample_request; ctrl_data_address := 8192;
         request_type := 1; request := 11; value := 515; index := 256;
         ctrl_length := 0 |}
      sample_attached (scripted [])
    = Ret ((0, sample_attached), w')
    ∧ EvHost (libusb_set_interface_alt_setting (Some 1%N) 0 3) 0 ∈ trace w'.
Proof.
  eexists. split.
  - apply (SET_INTERFACE_on_active_interface _ sample_attached (scripted []) 0);
      reflexivity.
  - apply list_elem_of_In. simpl. tauto.
Defined.


Lemma GetNumberOfAltSettings_unguarded_witness :
  GetNumberOfAltSettings 0 sample_attached (scripted []) = Ret (1, scripted [])
  ∧ GetNumberOfAltSettings 1 sample_attached (scripted [])
    = Fault UndefinedBehaviour.
Proof.
  destruct (GetNumberOfAltSettings_unguarded 0 sample_attached (scripted []))
    as (_ & Hok & _).
  destruct (GetNumberOfAltSettings_unguarded 1 sample_attached (scripted []))
    as (_ & _ & Hbad).
  split.
  - by apply (Hok sample_config
                  {| altsetting :=
                       [{| if_header := {| bInterfaceNumber := 0;
                                           bAlternateSetting := 0;
                                           bNumEndpoints := 1;
                                           bInterfaceClass := 255 |};
                           endpoint := [sample_endpoint] |}];
                     num_altsetting := 1 |}).
  - apply (Hbad sample_config); [reflexivity|simpl; lia].
Defined.

(** ** Attaching twice *)

Section attach_twice.
Context {H : Type} `{!Libusb H}.

(** X21. After an [Attach] that reported success, the device is attached
    to the requested interface, so attaching the same interface again is a
    no-op that reports success: no host call, no log, no change. The same
    holds after a [ChangeInterface] of an attached device that returned 0. *)
Theorem Attach_twice_is_noop (interface : Z) (d d' : LibusbDevice)
    (w w' : World H) :
  (Attach interface d w = Ret ((true, d'), w')
   ∨ (m_device_attached d = true
      ∧ ChangeInterface interface d w = Ret ((0, d'), w'))) →
  m_device_attached d' = true
  ∧ m_active_interface d' = interface
  ∧ ∀ w2 : World H, Attach interface d' w2 = Ret ((true, d'), w2).
Proof.
  intros Hrun.
  assert (Hstate : m_device_attached d' = true ∧ m_active_interface d' = interface).
  { destruct Hrun as [Hrun|[Hatt Hrun]].
    2:{ destruct (ChangeInterface_returns_0 _ _ _ _ _ _ Hrun)
          as (Ha & _ & _ & _ & Hok).
        split; [congruence|]. by destruct (Hok eq_refl). }
    revert Hrun. unfold Attach.
    destruct (m_device_attached d) eqn:Hatt; cbn [andb].
    - destruct (Z.eqb_spec interface (m_active_interface d)) as [->|Hne];
        cbn [negb].
      + by intros [= <- _].
      + run.
        destruct (ChangeInterface interface d w) as [[[ret d1] w1]|] eqn:Hch;
          [|done].
        intros [= Hret <- _]. apply Z.eqb_eq in Hret as ->.
        destruct (ChangeInterface_returns_0 _ _ _ _ _ _ Hch)
          as (Ha & _ & _ & _ & Hok).
        split; [congruence|]. by destruct (Hok eq_refl).
    - run. unfold host_open. cbn [host trace m_device set_m_device_attached].
      destruct (libusb_open (m_device d) (host w)) as [[ret hnd] h].
      destruct (Z.eqb_spec ret 0) as [->|_]; cbn [negb]; run; [|done].
      match goal with
      | |- context [AttachInterface interface ?d0 ?w0] =>
          destruct (AttachInterface_returns interface d0 w0)
            as (r & d1 & w1 & evs & -> & _ & _ & _ & Hok)
      end.
      destruct (Z.eqb_spec r 0) as [->|_]; cbn [negb]; run; [|done].
      intros [= <- _]. by destruct (Hok eq_refl) as [-> _]. }
  destruct Hstate as [Ha Hi]. split; [done|]. split; [done|].
  intros w2. unfold Attach. by rewrite Ha, Hi, Z.eqb_refl.
Qed.
End attach_twice.

Lemma Attach_twice_is_noop_witness :
  ∃ d' w',
    Attach 0 sample_device (scripted []) = Ret ((true, d'), w')
    ∧ Attach 0 d' w' = Ret ((true, d'), w').
Proof.
  destruct (Attach 0 sample_device (scripted [])) as [[[b d'] w']|] eqn:Hrun;
    [|vm_compute in Hrun; discriminate].
  assert (b = true) as ->.
  { pose proof Hrun as Hval. vm_compute in Hval. by injection Hval as <- _ _. }
  exists d', w'. split; [done|].
  by apply (Attach_twice_is_noop 0 sample_device d' (scripted []) w'); left.
Defined.
